(** * Day-record computation core of the power-plant logging app

    A shallow embedding of the TypeScript sources (paths under [src/]):

    - [client/lib/guestAuth.ts], second module: the storage module the
      other files import as [@/lib/storage] (day records, derivations,
      local persistence, export and import);
    - [client/lib/supabaseSync.ts]: the remote mirror;
    - [client/lib/excelExport.ts]: the reports;
    - [unnamed/part_008]: the day context ([loadDay], [saveDay]);
    - [client/components/MonthDaysModal.tsx], [client/components/HoursInputField.tsx],
      [client/components/SevenDayChart.tsx], and the screens
      [CalculationsScreen] ([unnamed/part_012]), [FeedersScreen]
      ([unnamed/part_014]), [ReportsScreen] ([unnamed/part_015]).

    JavaScript numbers are IEEE-754 binary64 values, modelled by Rocq's
    primitive [float]; objects used as dictionaries are [gmap string _];
    a property an object does not carry ([undefined]) is [None]. *)

From Stdlib Require Import ZArith Floats String Ascii List Bool Lia.
From stdpp Require Import base option list gmap strings pretty.

Local Open Scope string_scope.

Set Warnings "-inexact-float".
Local Open Scope Z_scope.

(** ** JavaScript numbers *)

Module JsNum.

Definition number := float.

(** [Number.isFinite], [Number.isNaN]. *)
Definition isFinite (x : number) : bool := PrimFloat.is_finite x.
Definition isNaN (x : number) : bool := PrimFloat.is_nan x.

(** The relational operators [<=], [<], [>=] of the language on numbers:
    every comparison with NaN is false. *)
Definition le (x y : number) : bool := PrimFloat.leb x y.
Definition lt (x y : number) : bool := PrimFloat.ltb x y.
Definition ge (x y : number) : bool := PrimFloat.leb y x.
Definition gt (x y : number) : bool := PrimFloat.ltb y x.

(** Truthiness of a number: [0], [-0] and NaN are falsy. *)
Definition truthy (x : number) : bool :=
  negb (PrimFloat.is_nan x || PrimFloat.is_zero x).

Arguments le (x y)%_float_scope.
Arguments lt (x y)%_float_scope.
Arguments ge (x y)%_float_scope.
Arguments gt (x y)%_float_scope.

(** *** Strings

    A string is the sequence of its characters; a character outside
    ASCII is its UTF-8 bytes. *)

Definition code (c : ascii) : N := N_of_ascii c.

(** [WhiteSpace] and [LineTerminator] code points, as the trimming of
    [Number], [parseFloat] and [parseInt] skips them. *)
Definition ascii_space (c : ascii) : bool :=
  let n := code c in
  (N.leb 9 n && N.leb n 13) || N.eqb n 32.

Fixpoint trimStart (s : string) : string :=
  match s with
  | String c r =>
      if ascii_space c then trimStart r
      else
        match r with
        | String c2 r2 =>
            if N.eqb (code c) 194 && N.eqb (code c2) 160 then trimStart r2
            else
              match r2 with
              | String c3 r3 =>
                  let n := code c in
                  let n2 := code c2 in
                  let n3 := code c3 in
                  if (N.eqb n 225 && N.eqb n2 154 && N.eqb n3 128)
                     || (N.eqb n 226 && N.eqb n2 128
                         && ((N.leb 128 n3 && N.leb n3 138) || N.eqb n3 168
                             || N.eqb n3 169 || N.eqb n3 175))
                     || (N.eqb n 226 && N.eqb n2 129 && N.eqb n3 159)
                     || (N.eqb n 227 && N.eqb n2 128 && N.eqb n3 128)
                     || (N.eqb n 239 && N.eqb n2 187 && N.eqb n3 191)
                  then trimStart r3
                  else s
              | EmptyString => s
              end
        | EmptyString => s
        end
  | EmptyString => EmptyString
  end.

Definition isEmpty (s : string) : bool :=
  match s with EmptyString => true | _ => false end.

(** [digit_in radix c]: the value of [c] as a digit of the radix. *)
Definition digit_in (radix : N) (c : ascii) : option N :=
  let n := code c in
  let v :=
    if N.leb 48 n && N.leb n 57 then Some (n - 48)%N
    else if N.leb 97 n && N.leb n 122 then Some (n - 87)%N
    else if N.leb 65 n && N.leb n 90 then Some (n - 55)%N
    else None in
  match v with
  | Some d => if N.ltb d radix then Some d else None
  | None => None
  end.

(** The longest run of digits at the head of [s], and what follows. *)
Fixpoint scan_digits (radix : N) (s : string) : list N * string :=
  match s with
  | String c r =>
      match digit_in radix c with
      | Some d => let '(ds, rest) := scan_digits radix r in (d :: ds, rest)
      | None => ([], s)
      end
  | EmptyString => ([], EmptyString)
  end.

Definition digits_value (radix : N) (ds : list N) : N :=
  foldl (fun acc d => (radix * acc + d)%N) 0%N ds.

(** An optional sign at the head of [s]: [true] for [-]. *)
Definition scan_sign (s : string) : bool * string :=
  match s with
  | String "-" r => (true, r)
  | String "+" r => (false, r)
  | _ => (false, s)
  end.

(** *** From decimal text to the nearest binary64 value *)

(** The binary64 value nearest to [(-1)^neg * m * 10^e], ties to even
    (the rounding the language prescribes for numeric text). *)
Definition round_decimal (neg : bool) (m : N) (e : Z) : number :=
  match m with
  | N0 => if neg then PrimFloat.neg_zero else PrimFloat.zero
  | Npos p =>
      if Z.leb 0 e then
        SF2Prim (binary_normalize prec emax
                   (cond_Zopp neg (Zpos p * 10 ^ e)) 0 false)
      else
        let '(q, e', l) :=
          SFdiv_core_binary prec emax (Zpos p) 0 (10 ^ (- e)) 0 in
        SF2Prim (binary_round_aux prec emax neg q e' l)
  end.

(** The exact integer [z] as a number. *)
Definition of_Z (z : Z) : number :=
  SF2Prim (binary_normalize prec emax z 0 false).

(** [StrDecimalLiteral]: the longest prefix of [s] of the forms
    [±Infinity], [±d+], [±d+.d*], [±.d+], each of the last three with an
    optional exponent [e±d+]; [None] when no prefix has such a form. *)
Definition scan_exponent (s : string) : Z * string :=
  match s with
  | String c r =>
      if N.eqb (code c) 101 || N.eqb (code c) 69 then
        let '(neg, r1) := scan_sign r in
        match scan_digits 10 r1 with
        | ([], _) => (0, s)
        | (ds, rest) => (cond_Zopp neg (Z.of_N (digits_value 10 ds)), rest)
        end
      else (0, s)
  | EmptyString => (0, s)
  end.

Definition scan_decimal (s : string) : option (number * string) :=
  let '(neg, s1) := scan_sign s in
  if String.prefix "Infinity" s1 then
    Some (if neg then PrimFloat.neg_infinity else PrimFloat.infinity,
          String.substring 8 (String.length s1 - 8) s1)
  else
    let '(ip, s2) := scan_digits 10 s1 in
    let '(dot, fp, s3) :=
      match s2 with
      | String "." r => let '(fp, r') := scan_digits 10 r in (true, fp, r')
      | _ => (false, [], s2)
      end in
    match ip, fp with
    | [], [] => None
    | _, _ =>
        let '(ex, s4) := scan_exponent s3 in
        Some (round_decimal neg (digits_value 10 (ip ++ fp)%list)
                (ex - Z.of_nat (List.length fp)),
              s4)
    end.

(** [0x], [0o], [0b] integer text. *)
Definition scan_nondecimal (s : string) : option (number * string) :=
  match s with
  | String "0" (String c r) =>
      let n := code c in
      let radix :=
        if N.eqb n 120 || N.eqb n 88 then Some 16%N
        else if N.eqb n 111 || N.eqb n 79 then Some 8%N
        else if N.eqb n 98 || N.eqb n 66 then Some 2%N
        else None in
      match radix with
      | Some rd =>
          match scan_digits rd r with
          | ([], _) => None
          | (ds, rest) => Some (of_Z (Z.of_N (digits_value rd ds)), rest)
          end
      | None => None
      end
  | _ => None
  end.

(** [Number(v)] for [v : string | undefined]. *)
Definition StringToNumber (s : string) : number :=
  let s1 := trimStart s in
  if isEmpty s1 then PrimFloat.zero
  else
    match scan_nondecimal s1 with
    | Some (v, rest) => if isEmpty (trimStart rest) then v else PrimFloat.nan
    | None =>
        match scan_decimal s1 with
        | Some (v, rest) => if isEmpty (trimStart rest) then v else PrimFloat.nan
        | None => PrimFloat.nan
        end
    end.

Definition Number (v : option string) : number :=
  match v with
  | Some s => StringToNumber s
  | None => PrimFloat.nan
  end.

(** [parseFloat(v)]; [null] and [undefined] read as text that is no
    number. *)
Definition parseFloat (v : option string) : number :=
  match v with
  | Some s =>
      match scan_decimal (trimStart s) with
      | Some (x, _) => x
      | None => PrimFloat.nan
      end
  | None => PrimFloat.nan
  end.

(** [parseInt(v, 10)].  The result of [parseInt] is NaN or an integer;
    [None] is NaN and [Some z] the integer read.  (Past 2^53 the engine
    rounds the integer to the nearest binary64 value; rounding is
    monotone, so comparisons against small integers are those of [z].) *)
Definition parseInt10 (v : option string) : option Z :=
  match v with
  | Some s =>
      let '(neg, s1) := scan_sign (trimStart s) in
      match scan_digits 10 s1 with
      | ([], _) => None
      | (ds, _) => Some (cond_Zopp neg (Z.of_N (digits_value 10 ds)))
      end
  | None => None
  end.

(** [Math.max(a, b)], [Math.abs(a)]. *)
Definition Math_max (a b : number) : number :=
  if PrimFloat.is_nan a || PrimFloat.is_nan b then PrimFloat.nan
  else if PrimFloat.ltb a b then b
  else if PrimFloat.ltb b a then a
  else if PrimFloat.is_zero a && PrimFloat.get_sign a then b
  else a.

Definition Math_abs (a : number) : number := PrimFloat.abs a.

(** [Math.round(a)]: the integer nearest to [a], halves going up. *)
Definition Math_round (a : number) : number :=
  match Prim2SF a with
  | S754_finite sg m e =>
      if Z.leb 0 e then a
      else
        let n := Z.div (cond_Zopp sg (2 * Zpos m) + 2 ^ (- e)) (2 ^ (- e + 1)) in
        if Z.eqb n 0 then (if sg then PrimFloat.neg_zero else PrimFloat.zero)
        else of_Z n
  | _ => a
  end.

(** [x || d] on numbers. *)
Definition or_else (x d : number) : number := if truthy x then x else d.

Arguments Math_max (a b)%_float_scope.
Arguments Math_abs a%_float_scope.
Arguments Math_round a%_float_scope.
Arguments or_else (x d)%_float_scope.

End JsNum.

Import JsNum.

(** ** Values that may be absent

    [v : option string] is a value of type [string | undefined] (or a
    nullable text column): [None] is [undefined]/[null]. *)

Definition truthy_str (v : option string) : bool :=
  match v with
  | Some s => negb (isEmpty s)
  | None => false
  end.

(** [v || d] *)
Definition or_str (v : option string) (d : string) : option string :=
  if truthy_str v then v else Some d.

(** [`${v}`] *)
Definition template_str (v : option string) : string := default "undefined" v.

(** ** Day record model (storage module) *)

Definition FEEDERS : list string := ["F2"; "F3"; "F4"; "F5"].
Definition TURBINES : list string := ["A"; "B"; "C"; "S"].

Definition STORAGE_PREFIX : string := "pp-app:v2".

(** [dateKey.slice(0, 7)] *)
Definition monthKey (dateKey : string) : string := String.substring 0 7 dateKey.

Definition storageKey (dateKey : string) : string :=
  STORAGE_PREFIX ++ ":day:" ++ dateKey.

Definition listKey : string := STORAGE_PREFIX ++ ":days:index".

Definition SETTINGS_KEY : string := "@power_plant_settings".

Record FeederData := mkFeeder { start : option string; end_ : option string }.

Record TurbineData := mkTurbine {
  previous : option string;
  present : option string;
  hours : option string
}.

Record DayData := mkDay {
  dateKey : string;
  feeders : gmap string FeederData;
  turbines : gmap string TurbineData
}.

(** [day.dateKey], for use where a parameter is called [dateKey]. *)
Definition dateKey_of (day : DayData) : string := dateKey day.

Record UserSettings := mkSettings {
  displayName : string;
  decimalPrecision : number
}.

(** [Object.fromEntries(keys.map(k => [k, v]))] *)
Definition fromEntries {V} (keys : list string) (v : V) : gmap string V :=
  list_to_map ((fun k => (k, v)) <$> keys).

Definition defaultDay (dateKey : string) : DayData :=
  {| dateKey := dateKey;
     feeders := fromEntries FEEDERS {| start := Some ""; end_ := Some "" |};
     turbines :=
       fromEntries TURBINES
         {| previous := Some ""; present := Some ""; hours := Some "24" |} |}.

(** ** Derivation engine (storage module) *)

Definition num (v : option string) : number :=
  let n := Number v in
  if isFinite n then n else PrimFloat.zero.

(** [day.feeders[f]?.start] and its siblings. *)
Definition feeder_start (day : DayData) (f : string) : option string :=
  feeders day !! f ≫= start.
Definition feeder_end (day : DayData) (f : string) : option string :=
  feeders day !! f ≫= end_.
Definition turbine_previous (day : DayData) (t : string) : option string :=
  turbines day !! t ≫= previous.
Definition turbine_present (day : DayData) (t : string) : option string :=
  turbines day !! t ≫= present.
Definition turbine_hours (day : DayData) (t : string) : option string :=
  turbines day !! t ≫= hours.

Definition feederExport (day : DayData) : number :=
  let total :=
    foldl (fun acc f =>
             let start := num (feeder_start day f) in
             let end_ := num (feeder_end day f) in
             let diff := (start - end_)%float in
             (acc + diff)%float)
      PrimFloat.zero FEEDERS in
  total.

Definition turbineProductionMwh (day : DayData) : number :=
  foldl (fun acc t =>
           let prev := num (turbine_previous day t) in
           let pres := num (turbine_present day t) in
           (acc + (pres - prev))%float)
    PrimFloat.zero TURBINES.

Module TurbineComputed.
Record t := mk {
  prev : number;
  pres : number;
  hours : number;
  diff : number;
  mwPerHr : number
}.
End TurbineComputed.

Definition turbineRowComputed (day : DayData) (t : string) : TurbineComputed.t :=
  let prev := num (turbine_previous day t) in
  let pres := num (turbine_present day t) in
  let hours := Math_max 0.000001 (num (or_str (turbine_hours day t) "24")) in
  let diff := (pres - prev)%float in
  let mwPerHr := (diff / hours)%float in
  TurbineComputed.mk prev pres hours diff mwPerHr.

(** [gasForTurbine(diffMwh, mwPerHr)] *)
Definition gasForTurbine (diffMwh mwPerHr : number) : number :=
  let p := diffMwh in
  let r := mwPerHr in
  if le r 3 then (p * 1000)%float
  else if le r 5 then (p * 700)%float
  else if le r 8 then (p * 500)%float
  else (p * 420)%float.

Arguments gasForTurbine (diffMwh mwPerHr)%_float_scope.

(** [m3ToMMscf(m3)] *)
Definition m3ToMMscf (m3 : number) : number :=
  ((m3 * 35.3146667) / 1000000)%float.

(** ** The derived day figures at each surface *)

Module DayStats.
Record t := mk {
  production : number;
  consumption : number;
  exportVal : number;
  isExport : bool;
  gasConsumed : number
}.
End DayStats.

(** The loop [for (const t of TURBINES) totalGas += gasForTurbine(...)]. *)
Definition totalGas (day : DayData) : number :=
  foldl (fun totalGas t =>
           let row := turbineRowComputed day t in
           (totalGas
            + gasForTurbine (TurbineComputed.diff row) (TurbineComputed.mwPerHr row))%float)
    PrimFloat.zero TURBINES.

(** [computeDayStats(day)] of [excelExport.ts]; the chart component
    ([SevenDayChart.tsx]) carries the same function, with the date key
    added to the result. *)
Definition computeDayStats (day : DayData) : DayStats.t :=
  let production := turbineProductionMwh day in
  let exportVal := feederExport day in
  let consumption := (production - exportVal)%float in
  let isExport := ge exportVal 0 in
  DayStats.mk production consumption exportVal isExport (totalGas day).

Definition chartDayStats (day : DayData) : string * DayStats.t :=
  let production := turbineProductionMwh day in
  let exportVal := feederExport day in
  let consumption := (production - exportVal)%float in
  let isExport := ge exportVal 0 in
  (dateKey day, DayStats.mk production consumption exportVal isExport (totalGas day)).

(** The [calculations] memo of [CalculationsScreen]. *)
Module Calculations.
Record row := mkRow {
  t : string;
  computed : TurbineComputed.t;
  gasM3 : number;
  gasMMscf : number
}.
Record calc := mk {
  production : number;
  exportVal : number;
  consumption : number;
  turbineData : list row;
  totalGasM3 : number;
  totalGasMMscf : number
}.
End Calculations.

Definition calculations (day : DayData) : Calculations.calc :=
  let production := turbineProductionMwh day in
  let exportVal := feederExport day in
  let consumption := (production - exportVal)%float in
  let turbineData :=
    (fun t =>
       let computed := turbineRowComputed day t in
       let gasM3 :=
         gasForTurbine (TurbineComputed.diff computed)
           (TurbineComputed.mwPerHr computed) in
       let gasMMscf := m3ToMMscf gasM3 in
       Calculations.mkRow t computed gasM3 gasMMscf) <$> TURBINES in
  let totalGasM3 :=
    foldl (fun a r => (a + Calculations.gasM3 r)%float) PrimFloat.zero turbineData in
  let totalGasMMscf :=
    foldl (fun a r => (a + Calculations.gasMMscf r)%float) PrimFloat.zero turbineData in
  Calculations.mk production exportVal consumption turbineData totalGasM3 totalGasMMscf.

(** The [currentDayStats] memo of [ReportsScreen]:
    [{ production, exportVal, consumption, isExport }]. *)
Definition currentDayStats (day : DayData) : number * number * number * bool :=
  let production := turbineProductionMwh day in
  let exportVal := feederExport day in
  let consumption := (production - exportVal)%float in
  let isExport := ge exportVal 0 in
  (production, exportVal, consumption, isExport).

(** ** Hours keypad ([HoursInputField.tsx]) *)

(** [String(num)] for an integer [num]. *)
Definition String_of_int (z : Z) : string := pretty z.

Definition clampHours (val : string) : string :=
  if isEmpty val then "24"
  else
    match parseInt10 (Some val) with
    | None => "1"
    | Some num =>
        if Z.ltb num 1 then "1"
        else if Z.ltb 24 num then "24"
        else String_of_int num
    end.

(** ** The environment of the asynchronous functions

    The functions below run against two collaborators: the device's
    key-value store ([AsyncStorage]) and the hosted database
    ([supabase]).  A call to either may fail; which calls fail is decided
    by the environment, so the world carries a script of outcomes that
    the calls consume in order, and a trace of everything that was called
    and logged. *)

(** *** Text kept in the store

    The store holds text.  All text the module writes is
    [JSON.stringify] of a value of one of a few shapes; the model keeps
    the value the text denotes, so [JSON.parse (JSON.stringify v) = v],
    and has a constructor for the text [null], one for text that
    [JSON.parse] rejects and one for the empty string.  (Text denoting a
    bare number, string or boolean is not part of the model.)  Fields of
    a parsed object that the value does not carry are [None]. *)

Record PartialDay := mkPartialDay {
  p_dateKey : option string;
  p_feeders : option (gmap string FeederData);
  p_turbines : option (gmap string TurbineData)
}.

Record PartialSettings := mkPartialSettings {
  p_displayName : option string;
  p_decimalPrecision : option number
}.

Record Bundle := mkBundle {
  b_days : option (list DayData);
  b_settings : option PartialSettings;
  b_exportedAt : option string
}.

Inductive json :=
| JDay (d : PartialDay)
| JIndex (arr : list string)
| JSettings (st : PartialSettings)
| JBundle (b : Bundle)
| JNull.

Inductive text :=
| Blank
| Malformed
| Json (j : json).

(** [JSON.stringify] at the types it is used at. *)
Definition stringify_day (day : DayData) : text :=
  Json (JDay (mkPartialDay (Some (dateKey day)) (Some (feeders day))
                (Some (turbines day)))).

Definition stringify_index (arr : list string) : text := Json (JIndex arr).

(** The text of settings is that of a precision which [JSON.stringify]
    writes as a numeral, that is of a finite number other than the
    negative zero; NaN and the infinities it writes as [null] and the
    negative zero as [0], which the model has no text for. *)
Definition stringify_settings (st : UserSettings) : text :=
  Json (JSettings (mkPartialSettings (Some (displayName st))
                     (Some (decimalPrecision st)))).

(** A parsed value read as a day, as settings, as a bundle: the fields of
    that shape which the value carries ([null] spreads to nothing). *)
Definition as_day (j : json) : PartialDay :=
  match j with
  | JDay d => d
  | _ => mkPartialDay None None None
  end.

Definition as_settings (j : json) : PartialSettings :=
  match j with
  | JSettings st => st
  | _ => mkPartialSettings None None
  end.

Definition as_bundle (j : json) : Bundle :=
  match j with
  | JBundle b => b
  | _ => mkBundle None None None
  end.

(** [{ ...base, ...parsed }] *)
Definition spread_day (base : DayData) (parsed : PartialDay) : DayData :=
  {| dateKey := default (dateKey base) (p_dateKey parsed);
     feeders := default (feeders base) (p_feeders parsed);
     turbines := default (turbines base) (p_turbines parsed) |}.

Definition spread_settings (base : UserSettings) (parsed : PartialSettings)
  : UserSettings :=
  {| displayName := default (displayName base) (p_displayName parsed);
     decimalPrecision := default (decimalPrecision base) (p_decimalPrecision parsed) |}.

(** Truthiness of what [getItem] returned: [null] and [""] are falsy. *)
Definition truthy_raw (raw : option text) : bool :=
  match raw with
  | None | Some Blank => false
  | Some _ => true
  end.

(** *** Remote rows, queries and replies *)

Record FeederRow := mkFeederRow {
  feeder_name : string;
  start_reading : option string;
  end_reading : option string
}.

Record TurbineRow := mkTurbineRow {
  turbine_name : string;
  previous_reading : option string;
  present_reading : option string;
  hours_col : option string
}.

Record DayRow := mkDayRow { id : string; date_key : string }.

Inductive query :=
| SelectDailyId (user_id date_key : string)
| InsertDaily (user_id date_key : string)
| UpsertFeeder (daily_data_id feeder_name : string) (start_reading end_reading : option string)
| UpsertTurbine (daily_data_id turbine_name : string)
    (previous_reading present_reading hours : option string)
| SelectFeeders (daily_data_id : string)
| SelectTurbines (daily_data_id : string)
| SelectMonthDays (user_id monthKey : string)
| DeleteFeeders (daily_data_id : string)
| DeleteTurbines (daily_data_id : string)
| DeleteDaily (id : string).

Inductive rdata :=
| DNull
| DDay (row : DayRow)
| DDays (rows : list DayRow)
| DFeeders (rows : list FeederRow)
| DTurbines (rows : list TurbineRow).

(** What a query resolves to: the call rejects, or it answers with
    [{ data, error }], the error identified by its code. *)
Inductive reply :=
| Rejects
| Answers (data : rdata) (error : option string).

(** *** The world *)

Inductive error := StorageError | NetworkError | TypeError | SyntaxError.

Inductive event :=
| GetItem (key : string)
| SetItem (key : string) (value : text)
| RemoveItem (key : string)
| Remote (q : query)
| ConsoleError (msg : string)
| OnDayDeleted
| ShowSuccess (msg : string)
| ShowError (msg : string).

Record World := mkWorld {
  store : gmap string text;   (* contents of AsyncStorage *)
  disk : list bool;           (* per storage call: does it reject? *)
  net : list reply;           (* per remote call: its reply *)
  now : string;               (* [new Date().toISOString()] *)
  trace : list event          (* calls and logs so far, oldest first *)
}.

Inductive result (A : Type) :=
| Ok (a : A)
| Throw (e : error).
Arguments Ok {A} a.
Arguments Throw {A} e.

Definition M (A : Type) : Type := World -> result A * World.

Global Instance M_ret : MRet M := fun A a w => (Ok a, w).

Global Instance M_bind : MBind M := fun A B f m w =>
  match m w with
  | (Ok a, w') => f a w'
  | (Throw e, w') => (Throw e, w')
  end.

Definition throw {A} (e : error) : M A := fun w => (Throw e, w).

(** [try { body } catch (e) { handler }] *)
Definition try_catch {A} (body : M A) (handler : error -> M A) : M A := fun w =>
  match body w with
  | (Ok a, w') => (Ok a, w')
  | (Throw e, w') => handler e w'
  end.

(** [try { body } finally { cleanup }] *)
Definition try_finally {A} (body : M A) (cleanup : M unit) : M A := fun w =>
  match body w with
  | (r, w') =>
      match cleanup w' with
      | (Ok _, w'') => (r, w'')
      | (Throw e, w'') => (Throw e, w'')
      end
  end.

Definition emit (e : event) : M unit := fun w =>
  (Ok tt, mkWorld (store w) (disk w) (net w) (now w) (trace w ++ [e])%list).

(** [new Date().toISOString()] *)
Definition toISOString_now : M string := fun w => (Ok (now w), w).

Definition console_error (msg : string) : M unit := emit (ConsoleError msg).

(** One storage call: record it, consume the next scripted outcome.  A
    rejected call leaves the store as it was. *)
Definition storage_call {A} (e : event) (run : gmap string text -> A * gmap string text)
  : M A := fun w =>
  let tr := (trace w ++ [e])%list in
  match disk w with
  | true :: d => (Throw StorageError, mkWorld (store w) d (net w) (now w) tr)
  | d =>
      let '(a, st) := run (store w) in
      (Ok a, mkWorld st (tail d) (net w) (now w) tr)
  end.

Module AsyncStorage.
Definition getItem (key : string) : M (option text) :=
  storage_call (GetItem key) (fun st => (st !! key, st)).
Definition setItem (key : string) (value : text) : M unit :=
  storage_call (SetItem key value) (fun st => (tt, <[key := value]> st)).
Definition removeItem (key : string) : M unit :=
  storage_call (RemoveItem key) (fun st => (tt, delete key st)).
End AsyncStorage.

(** One remote call ([await supabase.from(...)...]): record it, take the
    next scripted reply; with the script used up the call answers
    [{ data: null, error: null }]. *)
Definition supabase (q : query) : M (rdata * option string) := fun w =>
  let tr := (trace w ++ [Remote q])%list in
  match net w with
  | Rejects :: n => (Throw NetworkError, mkWorld (store w) (disk w) n (now w) tr)
  | Answers data err :: n => (Ok (data, err), mkWorld (store w) (disk w) n (now w) tr)
  | [] => (Ok (DNull, None), mkWorld (store w) (disk w) [] (now w) tr)
  end.

(** [JSON.parse(raw)] *)
Definition JSON_parse (raw : text) : M json :=
  match raw with
  | Json j => mret j
  | Blank | Malformed => throw SyntaxError
  end.

(** ** Local persistence (storage module) *)

(** [getDayIndex()] returns whatever the index text parses to; its
    callers use the value as an array, which raises a [TypeError] when it
    is not one. *)
Definition getDayIndex : M json :=
  try_catch
    (raw ← AsyncStorage.getItem listKey;
     if truthy_raw raw then JSON_parse (default Blank raw)
     else mret (JIndex []))
    (fun _ => mret (JIndex [])).

Definition as_array (j : json) : M (list string) :=
  match j with
  | JIndex arr => mret arr
  | _ => throw TypeError
  end.

(** [arr.sort()]: insertion into a list kept in the default (code unit)
    order. *)
Fixpoint insert_sorted (x : string) (l : list string) : list string :=
  match l with
  | [] => [x]
  | y :: l' => if String.ltb x y then x :: l else y :: insert_sorted x l'
  end.

Definition sort_default (l : list string) : list string :=
  foldl (fun acc x => insert_sorted x acc) [] l.

Definition includes (arr : list string) (x : string) : bool :=
  bool_decide (x ∈ arr).

Definition upsertDayIndex (dateKey : string) : M unit :=
  try_catch
    (j ← getDayIndex;
     arr ← as_array j;
     if negb (includes arr dateKey) then
       let arr := sort_default (arr ++ [dateKey])%list in
       AsyncStorage.setItem listKey (stringify_index arr)
     else mret tt)
    (fun _ => console_error "Error updating day index:").

Definition getDayData (dateKey : string) : M DayData :=
  try_catch
    (raw ← AsyncStorage.getItem (storageKey dateKey);
     if truthy_raw raw then
       parsed ← JSON_parse (default Blank raw);
       mret (spread_day (defaultDay dateKey) (as_day parsed))
     else mret (defaultDay dateKey))
    (fun _ => mret (defaultDay dateKey)).

Definition saveDayData (day : DayData) : M unit :=
  try_catch
    (AsyncStorage.setItem (storageKey (dateKey day)) (stringify_day day);;
     upsertDayIndex (dateKey day))
    (fun error => console_error "Error saving day data:";; throw error).

Definition deleteDayData (dateKey : string) : M unit :=
  try_catch
    (AsyncStorage.removeItem (storageKey dateKey);;
     j ← getDayIndex;
     arr ← as_array j;
     let newArr := filter (fun d => d ≠ dateKey) arr in
     AsyncStorage.setItem listKey (stringify_index newArr))
    (fun error => console_error "Error deleting day data:";; throw error).

(** The loop [for (const dateKey of index) days.push(await getDayData(dateKey))]. *)
Fixpoint getDays (index : list string) : M (list DayData) :=
  match index with
  | [] => mret []
  | dateKey :: rest =>
      data ← getDayData dateKey;
      days ← getDays rest;
      mret (data :: days)
  end.

Definition getAllDaysData : M (list DayData) :=
  try_catch
    (j ← getDayIndex;
     index ← as_array j;
     getDays index)
    (fun _ => mret []).

Definition default_settings : UserSettings :=
  {| displayName := "Engineer"; decimalPrecision := 2%float |}.

Definition getSettings : M UserSettings :=
  try_catch
    (raw ← AsyncStorage.getItem SETTINGS_KEY;
     let defaults := default_settings in
     if truthy_raw raw then
       parsed ← JSON_parse (default Blank raw);
       mret (spread_settings defaults (as_settings parsed))
     else mret defaults)
    (fun _ => mret default_settings).

Definition saveSettings (settings : PartialSettings) : M UserSettings :=
  try_catch
    (current ← getSettings;
     let updated := spread_settings current settings in
     AsyncStorage.setItem SETTINGS_KEY (stringify_settings updated);;
     mret updated)
    (fun error => console_error "Error saving settings:";; throw error).

Definition to_partial_settings (st : UserSettings) : PartialSettings :=
  mkPartialSettings (Some (displayName st)) (Some (decimalPrecision st)).

Definition exportAllData : M text :=
  try_catch
    (days ← getAllDaysData;
     settings ← getSettings;
     exportedAt ← toISOString_now;
     mret (Json (JBundle (mkBundle (Some days) (Some (to_partial_settings settings))
                            (Some exportedAt)))))
    (fun _ => mret (Json (JBundle (mkBundle None None None)))).

(** Reading a property of a parsed value: a [TypeError] on [null]. *)
Definition fields_of (j : json) : M Bundle :=
  match j with
  | JNull => throw TypeError
  | _ => mret (as_bundle j)
  end.

(** The loop [for (const day of data.days) await saveDayData(day)]. *)
Fixpoint saveDays (days : list DayData) : M unit :=
  match days with
  | [] => mret tt
  | day :: rest => saveDayData day;; saveDays rest
  end.

Definition importData (jsonString : text) : M bool :=
  try_catch
    (j ← JSON_parse jsonString;
     data ← fields_of j;
     match b_days data with
     | Some days => saveDays days
     | None => mret tt
     end;;
     match b_settings data with
     | Some settings => saveSettings settings;; mret tt
     | None => mret tt
     end;;
     mret true)
    (fun _ => mret false).

(** ** Carry-forward linking (storage module) *)

(** The engine's [Date], as far as the module uses it.  [Date_new s] is
    [new Date(s)], [None] when its [getTime()] is NaN; the getters are
    the local-time ones. *)
Class DateEngine := {
  JSDate : Type;
  Date_new : string -> option JSDate;
  setDate : JSDate -> Z -> JSDate;
  getFullYear : JSDate -> Z;
  getMonth : JSDate -> Z;
  getDate : JSDate -> Z
}.

(** [s.padStart(2, "0")] *)
Definition padStart2 (s : string) : string :=
  match String.length s with
  | 0%nat => "00" ++ s
  | 1%nat => "0" ++ s
  | _ => s
  end.

(** [prevDay.feeders], [prevDay.turbines]: a [TypeError] on [null]. *)
Definition day_fields_of (j : json) : M PartialDay :=
  match j with
  | JNull => throw TypeError
  | _ => mret (as_day j)
  end.

(** [obj?.[k]] *)
Definition opt_lookup {V} (obj : option (gmap string V)) (k : string) : option V :=
  match obj with
  | Some m => m !! k
  | None => None
  end.

Section Linking.

Context `{DateEngine}.

Definition getPreviousDateKey (dateKey : string) : string :=
  match Date_new dateKey with
  | None => ""
  | Some date =>
      let date := setDate date (getDate date - 1) in
      let yyyy := String_of_int (getFullYear date) in
      let mm := padStart2 (String_of_int (getMonth date + 1)) in
      let dd := padStart2 (String_of_int (getDate date)) in
      yyyy ++ "-" ++ mm ++ "-" ++ dd
  end.

(** One round of [for (const f of FEEDERS) { ... }]: [prevFeeders] is
    [prevDay.feeders] (absent when the parsed record has none),
    [current] the map the guard reads and [linked] the map written. *)
Definition linkFeeder (prevFeeders : option (gmap string FeederData))
    (current linked : gmap string FeederData) (f : string)
  : gmap string FeederData :=
  let prevEnd := opt_lookup prevFeeders f ≫= end_ in
  if truthy_str prevEnd && negb (truthy_str (current !! f ≫= start)) then
    <[f := {| start := prevEnd; end_ := linked !! f ≫= end_ |}]> linked
  else linked.

Definition linkTurbine (prevTurbines : option (gmap string TurbineData))
    (current linked : gmap string TurbineData) (t : string)
  : gmap string TurbineData :=
  let prevPresent := opt_lookup prevTurbines t ≫= present in
  if truthy_str prevPresent && negb (truthy_str (current !! t ≫= previous)) then
    <[t := {| previous := prevPresent;
              present := linked !! t ≫= present;
              hours := linked !! t ≫= hours |}]> linked
  else linked.

Definition getDayDataWithLinkedValues (dateKey : string) : M DayData :=
  currentDay ← getDayData dateKey;
  let prevDateKey := getPreviousDateKey dateKey in
  if isEmpty prevDateKey then mret currentDay
  else
    try_catch
      (prevRaw ← AsyncStorage.getItem (storageKey prevDateKey);
       if negb (truthy_raw prevRaw) then mret currentDay
       else
         j ← JSON_parse (default Blank prevRaw);
         prevDay ← day_fields_of j;
         let linkedFeeders :=
           foldl (linkFeeder (p_feeders prevDay) (feeders currentDay))
             (feeders currentDay) FEEDERS in
         let linkedTurbines :=
           foldl (linkTurbine (p_turbines prevDay) (turbines currentDay))
             (turbines currentDay) TURBINES in
         mret {| dateKey := dateKey_of currentDay;
                 feeders := linkedFeeders;
                 turbines := linkedTurbines |})
      (fun _ => mret currentDay).

End Linking.

(** ** Remote mirror ([supabaseSync.ts]) *)

(** The [data] of a reply read at the shape the query asks for; [None]
    is [null]. *)
Definition data_day (d : rdata) : option DayRow :=
  match d with DDay row => Some row | _ => None end.
Definition data_days (d : rdata) : option (list DayRow) :=
  match d with DDays rows => Some rows | _ => None end.
Definition data_feeders (d : rdata) : option (list FeederRow) :=
  match d with DFeeders rows => Some rows | _ => None end.
Definition data_turbines (d : rdata) : option (list TurbineRow) :=
  match d with DTurbines rows => Some rows | _ => None end.

(** [row.id] on a row that may be [null]. *)
Definition row_id (d : rdata) : M string :=
  match data_day d with
  | Some row => mret (id row)
  | None => throw TypeError
  end.

Fixpoint for_each {A} (l : list A) (body : A -> M unit) : M unit :=
  match l with
  | [] => mret tt
  | x :: rest => body x;; for_each rest body
  end.

Definition when_error (err : option string) (msg : string) : M unit :=
  match err with
  | Some _ => console_error msg
  | None => mret tt
  end.

Definition syncDayToSupabase (userId : string) (day : DayData) : M bool :=
  try_catch
    ('(existingDay, fetchError) ← supabase (SelectDailyId userId (dateKey day));
     dailyDataId ←
       match fetchError with
       | Some code =>
           if String.eqb code "PGRST116" then
             '(newDay, insertError) ← supabase (InsertDaily userId (dateKey day));
             match insertError, data_day newDay with
             | None, Some row => mret (Some (id row))
             | _, _ => console_error "Error creating daily_data:";; mret None
             end
           else console_error "Error fetching daily_data:";; mret None
       | None => i ← row_id existingDay; mret (Some i)
       end;
     match dailyDataId with
     | None => mret false
     | Some dailyDataId =>
         for_each FEEDERS (fun feederName =>
           let feeder :=
             default {| start := Some ""; end_ := Some "" |}
               (feeders day !! feederName) in
           '(_, error) ← supabase (UpsertFeeder dailyDataId feederName
                                     (start feeder) (end_ feeder));
           when_error error ("Error upserting feeder " ++ feederName ++ ":"));;
         for_each TURBINES (fun turbineName =>
           let turbine :=
             default {| previous := Some ""; present := Some ""; hours := Some "24" |}
               (turbines day !! turbineName) in
           '(_, error) ← supabase (UpsertTurbine dailyDataId turbineName
                                     (previous turbine) (present turbine)
                                     (hours turbine));
           when_error error ("Error upserting turbine " ++ turbineName ++ ":"));;
         mret true
     end)
    (fun _ => console_error "Error syncing day to Supabase:";; mret false).

(** [rows?.find(r => name(r) === k)] *)
Definition find_row {R} (name : R -> string) (rows : option (list R)) (k : string)
  : option R :=
  rows ≫= List.find (fun r => String.eqb (name r) k).

Definition fetchDayFromSupabase (userId dateKey : string) : M (option DayData) :=
  try_catch
    ('(dailyData, dayError) ← supabase (SelectDailyId userId dateKey);
     match dayError with
     | Some code =>
         if String.eqb code "PGRST116" then mret None
         else console_error "Error fetching daily_data:";; mret None
     | None =>
         dayId ← row_id dailyData;
         '(feedersData, feedersError) ← supabase (SelectFeeders dayId);
         when_error feedersError "Error fetching feeders:";;
         '(turbinesData, turbinesError) ← supabase (SelectTurbines dayId);
         when_error turbinesError "Error fetching turbines:";;
         let feeders :=
           foldl (fun feeders f =>
                    let found := find_row feeder_name (data_feeders feedersData) f in
                    <[f := {| start := or_str (found ≫= start_reading) "";
                              end_ := or_str (found ≫= end_reading) "" |}]> feeders)
             ∅ FEEDERS in
         let turbines :=
           foldl (fun turbines t =>
                    let found := find_row turbine_name (data_turbines turbinesData) t in
                    <[t := {| previous := or_str (found ≫= previous_reading) "";
                              present := or_str (found ≫= present_reading) "";
                              hours := or_str (found ≫= hours_col) "24" |}]> turbines)
             ∅ TURBINES in
         mret (Some {| dateKey := dateKey; feeders := feeders; turbines := turbines |})
     end)
    (fun _ => console_error "Error fetching day from Supabase:";; mret None).

Module DaySummary.
Record t := mk {
  id : string;
  dateKey : string;
  production : number;
  exportVal : number;
  consumption : number
}.
End DaySummary.

(** The figures of one listed day, from its child rows (the body of the
    loop of [fetchMonthDaysFromSupabase]); [None] is a [null] row set. *)
Definition summaryProduction (turbinesData : option (list TurbineRow)) : number :=
  match turbinesData with
  | Some rows =>
      foldl (fun production t =>
               let prev := or_else (parseFloat (previous_reading t)) 0 in
               let pres := or_else (parseFloat (present_reading t)) 0 in
               (production + (pres - prev) / 1000)%float)
        PrimFloat.zero rows
  | None => PrimFloat.zero
  end.

Definition summaryExportVal (feedersData : option (list FeederRow)) : number :=
  match feedersData with
  | Some rows =>
      foldl (fun exportVal f =>
               let start := or_else (parseFloat (start_reading f)) 0 in
               let end_ := or_else (parseFloat (end_reading f)) 0 in
               (exportVal + (end_ - start) / 1000)%float)
        PrimFloat.zero rows
  | None => PrimFloat.zero
  end.

Definition daySummary (day : DayRow) (feedersData : option (list FeederRow))
    (turbinesData : option (list TurbineRow)) : DaySummary.t :=
  let production := summaryProduction turbinesData in
  let exportVal := summaryExportVal feedersData in
  DaySummary.mk (id day) (date_key day) production exportVal
    (production - exportVal)%float.

Fixpoint summarize (dailyData : list DayRow) : M (list DaySummary.t) :=
  match dailyData with
  | [] => mret []
  | day :: rest =>
      '(feedersData, _) ← supabase (SelectFeeders (id day));
      '(turbinesData, _) ← supabase (SelectTurbines (id day));
      summaries ← summarize rest;
      mret (daySummary day (data_feeders feedersData) (data_turbines turbinesData)
              :: summaries)
  end.

(** [fetchMonthDaysFromSupabase(userId, monthKey)]; the query carries
    the month key from which the source computes the bounds of the
    [date_key] range. *)
Definition fetchMonthDaysFromSupabase (userId monthKey : string)
  : M (list DaySummary.t) :=
  try_catch
    ('(dailyData, error) ← supabase (SelectMonthDays userId monthKey);
     match error, data_days dailyData with
     | None, Some rows => summarize rows
     | _, _ => console_error "Error fetching month days:";; mret []
     end)
    (fun _ => console_error "Error fetching month days:";; mret []).

Definition deleteDayFromSupabase (dayId : string) : M bool :=
  try_catch
    ('(_, feedersError) ← supabase (DeleteFeeders dayId);
     match feedersError with
     | Some _ => console_error "Error deleting feeders:";; mret false
     | None =>
         '(_, turbinesError) ← supabase (DeleteTurbines dayId);
         match turbinesError with
         | Some _ => console_error "Error deleting turbines:";; mret false
         | None =>
             '(_, dayError) ← supabase (DeleteDaily dayId);
             match dayError with
             | Some _ => console_error "Error deleting daily_data:";; mret false
             | None => mret true
             end
         end
     end)
    (fun _ => console_error "Error deleting day:";; mret false).

(** ** Day context ([unnamed/part_008]) *)

Section DayContext.

Context `{DateEngine}.

(** The in-place linking of [loadDay] on the fetched cloud record: the
    guard reads the record being written. *)
Definition linkCloud (prevCloudData cloudData : DayData) : DayData :=
  {| dateKey := dateKey cloudData;
     feeders :=
       foldl (fun fs f => linkFeeder (Some (feeders prevCloudData)) fs fs f)
         (feeders cloudData) FEEDERS;
     turbines :=
       foldl (fun ts t => linkTurbine (Some (turbines prevCloudData)) ts ts t)
         (turbines cloudData) TURBINES |}.

(** [loadDay()]: the record handed to [setDay]; [user] is [user?.id]. *)
Definition loadDay (user : option string) (dateKey : string) : M DayData :=
  data ← getDayDataWithLinkedValues dateKey;
  match user with
  | Some userId =>
      try_catch
        (cloud ← fetchDayFromSupabase userId dateKey;
         match cloud with
         | Some cloudData =>
             let prevDateKey := getPreviousDateKey dateKey in
             if negb (isEmpty prevDateKey) then
               prevCloud ← fetchDayFromSupabase userId prevDateKey;
               match prevCloud with
               | Some prevCloudData => mret (linkCloud prevCloudData cloudData)
               | None => mret cloudData
               end
             else mret cloudData
         | None => mret data
         end)
        (fun _ => console_error "Error fetching from Supabase:";; mret data)
  | None => mret data
  end.

End DayContext.

(** [saveDay()]: [day] and [dateKey] are the context's state, [user] is
    [user?.id].  ([setSyncing] only drives a spinner and is left out.) *)
Definition saveDay (user : option string) (day : DayData) (dateKey : string) : M unit :=
  let dayToSave :=
    {| dateKey := dateKey; feeders := feeders day; turbines := turbines day |} in
  saveDayData dayToSave;;
  match user with
  | Some userId =>
      try_finally
        (try_catch
           (syncDayToSupabase userId dayToSave;; mret tt)
           (fun _ => console_error "Error syncing to Supabase:"))
        (mret tt)
  | None => mret tt
  end.

(** [handleSave()] of [FeedersScreen] and [TurbinesScreen]; [busy] is
    [saveLockRef.current || isSaving], [t] the translation in force. *)
Definition handleSave (t : string -> string) (busy : bool) (save : M unit) : M unit :=
  if busy then mret tt
  else
    try_finally
      (try_catch
         (save;; emit (ShowSuccess (t "msg_saved_success")))
         (fun _ => emit (ShowError (t "msg_error_generic"))))
      (mret tt).

(** ** Month listing ([MonthDaysModal.tsx]) *)

Module Modal.
Record state := mk {
  days : list DaySummary.t;
  deletingId : option string;
  deleteLock : bool
}.
End Modal.

(** [confirmDelete(day)]; the parent's [onDayDeleted] callback is an
    event of the trace, the haptic feedback is left out. *)
Definition confirmDelete (t : string -> string) (st : Modal.state)
    (day : DaySummary.t) : M Modal.state :=
  if Modal.deleteLock st || bool_decide (is_Some (Modal.deletingId st)) then mret st
  else
    days ←
      try_catch
        (success ← deleteDayFromSupabase (DaySummary.id day);
         if (success : bool) then
           deleteDayData (DaySummary.dateKey day);;
           emit (ShowSuccess (t "day_deleted"));;
           emit OnDayDeleted;;
           mret (filter (fun d => DaySummary.id d ≠ DaySummary.id day) (Modal.days st))
         else
           emit (ShowError (t "delete_failed"));;
           mret (Modal.days st))
        (fun _ =>
           console_error "Error deleting day:";;
           emit (ShowError (t "delete_failed"));;
           mret (Modal.days st));
    mret (Modal.mk days None false).

(** ** Monthly sheet of the Excel report ([excelExport.ts]) *)

Module MonthlyStats.
Record t := mk {
  month : string;
  production : number;
  exportTotal : number;
  withdrawalTotal : number;
  hasExport : bool;
  hasWithdrawal : bool;
  consumption : number;
  gasConsumed : number;
  daysCount : number
}.
End MonthlyStats.

Inductive cell :=
| Str (s : string)
| Num (n : number).

(** [round2(v)] *)
Definition round2 (v : number) : number :=
  (Math_round (v * 100) / 100)%float.

(** A [Map] with string keys, in insertion order. *)
Fixpoint Map_get {V} (m : list (string * V)) (k : string) : option V :=
  match m with
  | [] => None
  | (k', v) :: rest => if String.eqb k' k then Some v else Map_get rest k
  end.

Definition Map_has {V} (m : list (string * V)) (k : string) : bool :=
  bool_decide (is_Some (Map_get m k)).

Fixpoint Map_set {V} (m : list (string * V)) (k : string) (v : V)
  : list (string * V) :=
  match m with
  | [] => [(k, v)]
  | (k', v') :: rest =>
      if String.eqb k' k then (k', v) :: rest else (k', v') :: Map_set rest k v
  end.

Definition Map_values {V} (m : list (string * V)) : list V := snd <$> m.

(** [s.split("-")] *)
Fixpoint split_on (sep : ascii) (s : string) : list string :=
  match s with
  | EmptyString => [EmptyString]
  | String c r =>
      let parts := split_on sep r in
      if Ascii.eqb c sep then EmptyString :: parts
      else
        match parts with
        | p :: ps => String c p :: ps
        | [] => [String c EmptyString]
        end
  end.

(** [arr.slice(-n)] *)
Definition slice_last {A} (n : nat) (arr : list A) : list A :=
  drop (List.length arr - n) arr.

(** [arr.sort(cmp)], stable: an element goes before the first one it
    compares below. *)
Fixpoint insert_by {A} (cmp : A -> A -> number) (x : A) (l : list A) : list A :=
  match l with
  | [] => [x]
  | y :: l' => if lt (cmp x y) 0 then x :: l else y :: insert_by cmp x l'
  end.

Definition sort_by {A} (cmp : A -> A -> number) (l : list A) : list A :=
  foldl (fun acc x => insert_by cmp x acc) [] l.

Definition monthNames : list string :=
  ["Jan"; "Feb"; "Mar"; "Apr"; "May"; "Jun";
   "Jul"; "Aug"; "Sep"; "Oct"; "Nov"; "Dec"].

(** [arr[i]] for a number [i] that is an integer or NaN. *)
Definition index_at {A} (arr : list A) (i : option Z) : option A :=
  match i with
  | Some z => if Z.leb 0 z then arr !! Z.to_nat z else None
  | None => None
  end.




Section MonthlySheet.

(** The translation function, the language in force and the engine's
    [String.prototype.localeCompare]. *)
Variable t : string -> string.
Variable language : string.
Variable localeCompare : string -> string -> number.

Definition formatMonth (monthStr : string) : string :=
  if String.eqb language "ar" then monthStr
  else
    let parts := split_on "-" monthStr in
    let year := parts !! 0%nat in
    let month := parts !! 1%nat in
    template_str (index_at monthNames (Z.pred <$> parseInt10 month))
      ++ " " ++ template_str year.








End MonthlySheet.

(** ** A [Date] engine with a fixed zone offset

    Time values are milliseconds since 1970-01-01T00:00Z in the
    proleptic Gregorian calendar.  The text accepted by [new Date(s)] is
    the date-only form [YYYY-MM-DD], which the language reads as midnight
    UTC; the getters and [setDate] work on local time, which is the time
    value plus the zone offset ([offsetMinutes], positive east of
    Greenwich). *)

Module JsDate.

Definition msPerDay : Z := 86400000.

Definition days_from_civil (y m d : Z) : Z :=
  let y := if Z.leb m 2 then y - 1 else y in
  let era := y / 400 in
  let yoe := y - era * 400 in
  let doy := (153 * (if Z.ltb 2 m then m - 3 else m + 9) + 2) / 5 + d - 1 in
  let doe := yoe * 365 + yoe / 4 - yoe / 100 + doy in
  era * 146097 + doe - 719468.

Definition civil_from_days (z : Z) : Z * Z * Z :=
  let z := z + 719468 in
  let era := z / 146097 in
  let doe := z - era * 146097 in
  let yoe := (doe - doe / 1460 + doe / 36524 - doe / 146096) / 365 in
  let y := yoe + era * 400 in
  let doy := doe - (365 * yoe + yoe / 4 - yoe / 100) in
  let mp := (5 * doy + 2) / 153 in
  let d := doy - (153 * mp + 2) / 5 + 1 in
  let m := if Z.ltb mp 10 then mp + 3 else mp - 9 in
  (if Z.leb m 2 then y + 1 else y, m, d).

Definition all_digits (s : string) : option Z :=
  match scan_digits 10 s with
  | (d :: ds, EmptyString) => Some (Z.of_N (digits_value 10 (d :: ds)))
  | _ => None
  end.

Definition parse (s : string) : option Z :=
  if (String.length s =? 10)%nat
     && String.eqb (String.substring 4 1 s) "-"
     && String.eqb (String.substring 7 1 s) "-"
  then
    y ← all_digits (String.substring 0 4 s);
    m ← all_digits (String.substring 5 2 s);
    d ← all_digits (String.substring 8 2 s);
    if Z.leb 1 m && Z.leb m 12 && Z.leb 1 d && Z.leb d 31
    then Some (days_from_civil y m d * msPerDay) else None
  else None.

(** Year, month (from 1) and day of the local date of a time value. *)
Definition local_date (offsetMinutes t : Z) : Z * Z * Z :=
  civil_from_days ((t + offsetMinutes * 60000) / msPerDay).

Definition engine (offsetMinutes : Z) : DateEngine :=
  {| JSDate := Z;
     Date_new := parse;
     setDate := fun t n =>
       let '(y, m, _) := local_date offsetMinutes t in
       days_from_civil y m n * msPerDay
       + (t + offsetMinutes * 60000) mod msPerDay
       - offsetMinutes * 60000;
     getFullYear := fun t => let '(y, _, _) := local_date offsetMinutes t in y;
     getMonth := fun t => let '(_, m, _) := local_date offsetMinutes t in m - 1;
     getDate := fun t => let '(_, _, d) := local_date offsetMinutes t in d |}.

End JsDate.

(** ** Further functions of the remote mirror ([supabaseSync.ts]) *)

(** [syncLocalDataToSupabase(userId, localDays)]; [synced] counts in
    integers. *)
Fixpoint syncDays (userId : string) (localDays : list DayData) (synced : Z) : M Z :=
  match localDays with
  | [] => mret synced
  | day :: rest =>
      success ← syncDayToSupabase userId day;
      syncDays userId rest (if (success : bool) then synced + 1 else synced)
  end.

Definition syncLocalDataToSupabase (userId : string) (localDays : list DayData) : M Z :=
  let synced := 0 in
  syncDays userId localDays synced.

(** ** Daily sheet of the Excel report ([excelExport.ts]) *)

Section DailySheet.

(** The translation function, the language in force, the engine's
    [String.prototype.localeCompare] and [formatDate], which goes through
    the engine's [Date] and [Intl]. *)
Variable t : string -> string.
Variable language : string.
Variable localeCompare : string -> string -> number.
Variable formatDate : string -> string -> string.

Definition dailyRow (day : DayData) : list cell :=
  let stats := computeDayStats day in
  let flowValue :=
    if DayStats.isExport stats then DayStats.exportVal stats
    else (- Math_abs (DayStats.exportVal stats))%float in
  [ Str (formatDate (dateKey day) language);
    Num (round2 (DayStats.production stats));
    Num (round2 flowValue);
    Num (round2 (DayStats.consumption stats));
    Num (round2 (DayStats.gasConsumed stats)) ].

Definition sortedDaysOf (allDays : list DayData) : list DayData :=
  slice_last 31 (sort_by (fun a b => localeCompare (dateKey a) (dateKey b)) allDays).

(** [dailyData] of [generateExcelReport]: header row, then a row per
    day of [sortedDays]. *)
Definition dailyData (allDays : list DayData) : list (list cell) :=
  [ Str (t "date"); Str (t "production" ++ " (MWh)");
    Str (t "export" ++ "/" ++ t "withdrawal" ++ " (MWh)");
    Str (t "consumption" ++ " (MWh)"); Str (t "gas_consumed" ++ " (m³)") ]
  :: (dailyRow <$> sortedDaysOf allDays).

End DailySheet.

(** ** Month cards of the reports screen ([unnamed/part_015]) *)

Module ReportMonth.
Record t := mk {
  month : string;
  days : number;
  totalProduction : number;
  totalExport : number;
  totalConsumption : number
}.
End ReportMonth.

(** One round of [allDays.forEach((d) => { ... })]. *)
Definition reportMonthStep (monthMap : list (string * ReportMonth.t)) (d : DayData)
  : list (string * ReportMonth.t) :=
  let month := monthKey (dateKey d) in
  let production := turbineProductionMwh d in
  let exportVal := feederExport d in
  let consumption := (production - exportVal)%float in
  let monthMap :=
    if negb (Map_has monthMap month) then
      Map_set monthMap month (ReportMonth.mk month 0%float 0%float 0%float 0%float)
    else monthMap in
  match Map_get monthMap month with
  | Some stats =>
      Map_set monthMap month
        (ReportMonth.mk (ReportMonth.month stats)
           (ReportMonth.days stats + 1)%float
           (ReportMonth.totalProduction stats + production)%float
           (ReportMonth.totalExport stats + exportVal)%float
           (ReportMonth.totalConsumption stats + consumption)%float)
  | None => monthMap
  end.

(** The [monthlyStats] memo of [ReportsScreen]. *)
Definition reportMonthlyStats (localeCompare : string -> string -> number)
    (allDays : list DayData) : list ReportMonth.t :=
  sort_by (fun a b => localeCompare (ReportMonth.month b) (ReportMonth.month a))
    (Map_values (foldl reportMonthStep [] allDays)).

(** ** Date labels ([SevenDayChart.tsx], [FeedersScreen], [TurbinesScreen],
    [CalendarPicker]) *)

Section ChartLabels.

Context `{DateEngine}.

(** [formatDateLabel(dateKey, language)] of [SevenDayChart.tsx] *)
Definition formatDateLabel (dateKey language : string) : string :=
  match Date_new dateKey with
  | None => dateKey
  | Some date =>
      let day := getDate date in
      let month := getMonth date + 1 in
      if String.eqb language "ar" then
        String_of_int day ++ "/" ++ String_of_int month
      else
        template_str (index_at monthNames (Some (getMonth date)))
          ++ " " ++ String_of_int day
  end.

End ChartLabels.

(** [getDayLetter(dateStr)] of [FeedersScreen], [TurbinesScreen] and
    [CalendarPicker]; it reads time values, which [JsDate] has.  Time
    values are integers far below 2^53 and the quotient by the length of
    a day is rounded by less than the distance of a non-integer quotient
    to the next integer, so [Math.floor] of the quotient is the floor of
    the exact one; [%] is the remainder that takes the sign of the
    dividend.  [None] is [undefined]. *)
Definition getDayLetter (dateStr : string) : option string :=
  let letters := ["B"; "D"; "A"; "C"] in
  match JsDate.parse dateStr with
  | None => Some "A"
  | Some date =>
      let epoch := JsDate.parse "2026-01-18" in
      let diffDays := (fun epoch => (date - epoch) / JsDate.msPerDay) <$> epoch in
      let index := (fun diffDays => Z.rem (Z.rem diffDays 4 + 4) 4) <$> diffDays in
      index_at letters index
  end.

(** ** Keypads ([HoursInputField.tsx], [NumericKeypad] of [unnamed/part_004],
    [NumericInputField.tsx])

    The text the keypads handle is made of the keys' characters, which
    are ASCII; the backspace key is a key of its own. *)

Definition backspace : string := "⌫".

(** [s.slice(0, -1)] *)
Definition slice_but_last (s : string) : string :=
  String.substring 0 (String.length s - 1) s.

Definition HOURS_KEYS : list (list string) :=
  [ ["7"; "8"; "9"]; ["4"; "5"; "6"]; ["1"; "2"; "3"]; [""; "0"; backspace] ].

(** [handleKeyPress(key)] of [HoursInputField]: the next [tempValue]. *)
Definition hoursKeyPress (tempValue key : string) : string :=
  if String.eqb key backspace then slice_but_last tempValue
  else if String.eqb key "" then tempValue
  else
    let newValue := tempValue ++ key in
    let num := parseInt10 (Some newValue) in
    if match num with Some num => Z.ltb 24 num | None => false end then "24"
    else if Nat.leb (String.length newValue) 2 then newValue
    else tempValue.

(** [handleDone()] and [handleClose()] of [HoursInputField]: the value
    handed to [onChangeValue]. *)
Definition hoursDone (tempValue : string) : string := clampHours tempValue.

(** [stripCommas(value)] of the storage module: [value.replace(/,/g, "")] *)
Fixpoint stripCommas (value : string) : string :=
  match value with
  | EmptyString => EmptyString
  | String c r => if Ascii.eqb c "," then stripCommas r else String c (stripCommas r)
  end.

(** [s.includes(needle)] *)
Fixpoint includes_str (s needle : string) : bool :=
  String.prefix needle s
  || match s with
     | EmptyString => false
     | String _ r => includes_str r needle
     end.

Definition NUMERIC_KEYS : list (list string) :=
  [ ["7"; "8"; "9"]; ["4"; "5"; "6"]; ["1"; "2"; "3"]; ["."; "0"; backspace] ].

(** [handleKeyPress(key)] of [NumericKeypad]: the argument it hands to
    [onChangeValue], [None] when it returns without calling it. *)
Definition numericKeyPress (value key : string) : option string :=
  let cleanValue := stripCommas value in
  if String.eqb key backspace then Some (slice_but_last cleanValue)
  else if String.eqb key "." then
    if includes_str cleanValue "." then None
    else Some (cleanValue ++ ".")
  else Some (cleanValue ++ key).

(** A key press on a [NumericInputField] holding [value]: the keypad is
    given [stripCommas(value)] and reports through [handleChangeValue]. *)
Definition numericFieldKeyPress (value key : string) : string :=
  match numericKeyPress (stripCommas value) key with
  | Some newValue => stripCommas newValue
  | None => value
  end.

(** ** Vocabulary of the properties *)

(** The day of the worked scenario: feeder F2 from 500 to 300, turbine A
    from 1000 to 1100 over 24 hours. *)
Definition scenarioDay : DayData :=
  {| dateKey := "2026-01-20";
     feeders := <["F2" := mkFeeder (Some "500") (Some "300")]> (feeders (defaultDay ""));
     turbines :=
       <["A" := mkTurbine (Some "1000") (Some "1100") (Some "24")]>
         (turbines (defaultDay "")) |}.

(** The feeder rows [syncDayToSupabase] upserts for [day]. *)
Definition feederRowsOf (day : DayData) : list FeederRow :=
  (fun feederName =>
     let feeder :=
       default {| start := Some ""; end_ := Some "" |} (feeders day !! feederName) in
     mkFeederRow feederName (start feeder) (end_ feeder)) <$> FEEDERS.

(** Kinds of events. *)
Definition storage_event (e : event) : Prop :=
  match e with
  | GetItem _ | SetItem _ _ | RemoveItem _ => True
  | _ => False
  end.

Definition remote_event (e : event) : Prop :=
  match e with
  | Remote _ => True
  | _ => False
  end.

Definition remote_or_log (e : event) : Prop :=
  match e with
  | Remote _ | ConsoleError _ => True
  | _ => False
  end.

(** [w'] comes after [w] by remote calls and log lines only, which leave
    the local store alone. *)
Definition remote_step (w w' : World) : Prop :=
  store w' = store w /\ disk w' = disk w /\ now w' = now w /\
  exists tl, trace w' = (trace w ++ tl)%list /\ Forall remote_or_log tl.

(** [w'] comes after [w] by calls that leave the remote alone: storage
    calls and log lines. *)
Definition local_step (w w' : World) : Prop :=
  net w' = net w /\ now w' = now w /\
  exists tl, trace w' = (trace w ++ tl)%list /\ Forall (fun e => ~ remote_event e) tl.

(** [w'] differs from [w] in the store at keys of [K] only. *)
Definition write_step (K : string -> Prop) (w w' : World) : Prop :=
  forall k, ~ K k -> store w' !! k = store w !! k.

(** A reply that reports success, and the [n]-th reply the script
    holds (a used-up script answers with success). *)
Definition reply_ok (r : reply) : bool :=
  match r with
  | Answers _ None => true
  | _ => false
  end.

Definition reply_at (n : nat) (w : World) : reply :=
  nth n (net w) (Answers DNull None).

(** The data of a reply; a rejected call has none. *)
Definition reply_data (r : reply) : rdata :=
  match r with
  | Answers data _ => data
  | Rejects => DNull
  end.

(** The remote queries among some events, in order. *)
Definition remote_queries (tl : list event) : list query :=
  omap (fun e => match e with Remote q => Some q | _ => None end) tl.

(** A record with an entry for every feeder and turbine of the fixed
    sets. *)
Definition has_all_keys (day : DayData) : Prop :=
  (forall f, f ∈ FEEDERS -> is_Some (feeders day !! f)) /\
  (forall t, t ∈ TURBINES -> is_Some (turbines day !! t)).

(** ... in which moreover every field holds text. *)
Definition fully_valued (day : DayData) : Prop :=
  (forall f, f ∈ FEEDERS ->
     exists s e, feeders day !! f = Some (mkFeeder (Some s) (Some e))) /\
  (forall t, t ∈ TURBINES ->
     exists p q h, turbines day !! t = Some (mkTurbine (Some p) (Some q) (Some h))).

(** A record that was saved with a single feeder entered and no turbine
    at all. *)
Definition partialDay : DayData :=
  {| dateKey := "2026-01-20";
     feeders := {[ "F2" := mkFeeder (Some "500") (Some "300") ]};
     turbines := ∅ |}.

Definition emptyWorld : World := mkWorld ∅ [] [] "2026-01-21T08:00:00.000Z" [].

(** The linking rule in the words of the specification: today's entry
    of a feeder, given yesterday's [end] for it, and today's entry of a
    turbine, given yesterday's [present] for it. *)
Definition linkedFeeder (prevEnd : option string) (today : option FeederData)
  : option FeederData :=
  if truthy_str prevEnd && negb (truthy_str (today ≫= start)) then
    Some {| start := prevEnd; end_ := today ≫= end_ |}
  else today.

Definition linkedTurbine (prevPresent : option string) (today : option TurbineData)
  : option TurbineData :=
  if truthy_str prevPresent && negb (truthy_str (today ≫= previous)) then
    Some {| previous := prevPresent; present := today ≫= present; hours := today ≫= hours |}
  else today.

(** Two consecutive days as saved on the device: yesterday closed F2 at
    100 and F3 at 70 and turbine A at 1100; today F3 already starts at 50
    and nothing else is entered. *)
Definition yesterdayDay : DayData :=
  {| dateKey := "2026-01-19";
     feeders :=
       <["F2" := mkFeeder (Some "20") (Some "100")]>
         (<["F3" := mkFeeder (Some "10") (Some "70")]> (feeders (defaultDay "")));
     turbines :=
       <["A" := mkTurbine (Some "1000") (Some "1100") (Some "24")]>
         (turbines (defaultDay "")) |}.

Definition todayDay : DayData :=
  {| dateKey := "2026-01-20";
     feeders := <["F3" := mkFeeder (Some "50") (Some "")]> (feeders (defaultDay ""));
     turbines := turbines (defaultDay "") |}.

Definition twoDaysWorld : World :=
  snd (saveDayData todayDay (snd (saveDayData yesterdayDay emptyWorld))).

(** The date keys the index lists, the record a read of a date gives
    when no storage call is rejected, and stores in which every record
    sits under the key of its own date (what [saveDayData] maintains). *)
Definition index_of (st : gmap string text) : list string :=
  match st !! listKey with
  | Some (Json (JIndex arr)) => arr
  | _ => []
  end.

Definition read_day (st : gmap string text) (dk : string) : DayData :=
  match st !! storageKey dk with
  | Some (Json j) => spread_day (defaultDay dk) (as_day j)
  | _ => defaultDay dk
  end.

Definition keyed_store (st : gmap string text) : Prop :=
  forall dk d, st !! storageKey dk = Some (Json (JDay d)) ->
               p_dateKey d = Some dk \/ p_dateKey d = None.

(** [w'] comes after [w] with the same store; no call is rejected in
    [w'] if none is in [w]. *)
Definition read_step (w w' : World) : Prop := store w' = store w.

Definition quiet_step (w w' : World) : Prop := disk w = [] -> disk w' = [].

(** The monthly figures in the words of the specification: the days of
    a month are those whose date key starts with its seven characters;
    a day with a flow [>= 0] is an export day, any other a withdrawal
    day; sums run over the days in the order given, from 0. *)
Definition sumf (l : list number) : number := foldl PrimFloat.add 0%float l.

Definition inMonth (mk : string) (day : DayData) : bool :=
  String.eqb (String.substring 0 7 (dateKey day)) mk.











(** Every run of [m] moves the world along [R]; [m] never throws. *)
Definition steps (R : World -> World -> Prop) {A} (m : M A) : Prop :=
  forall w, R w (snd (m w)).

Definition no_throw {A} (m : M A) : Prop := forall w, exists a, fst (m w) = Ok a.

(** ** Vocabulary of the further properties *)

(** The index text is absent, empty, unreadable or an array. *)
Definition index_ok (st : gmap string text) : Prop :=
  forall j, st !! listKey = Some (Json j) -> exists arr, j = JIndex arr.

(** The order [arr.sort()] leaves: no element is below the one before
    it, by character codes. *)
Fixpoint in_order (arr : list string) : Prop :=
  match arr with
  | a :: (b :: _) as rest => String.ltb b a = false /\ in_order rest
  | _ => True
  end.

(** The device of [twoDaysWorld] when it accepts a call, rejects the
    next and accepts the one after. *)
Definition flakyTwoDaysWorld : World :=
  mkWorld (store twoDaysWorld) [false; true; false] [] (now twoDaysWorld) [].

(** A record as a read of the date gives it: the stored one, or the
    default one when the read is rejected. *)
Definition day_read (st : gmap string text) (dk : string) (day : DayData) : Prop :=
  day = read_day st dk \/ day = defaultDay dk.

(** The settings a read gives when it is not rejected. *)
Definition settings_of (st : gmap string text) : UserSettings :=
  match st !! SETTINGS_KEY with
  | Some (Json j) => spread_settings default_settings (as_settings j)
  | _ => default_settings
  end.

(** A number that [JSON.stringify] writes as a numeral which [JSON.parse]
    reads back as the same number: a finite one other than the negative
    zero.  (NaN and the infinities are written as [null], the negative
    zero as [0].) *)
Definition json_number (x : number) : bool :=
  match PrimFloat.classify x with
  | PNormal | NNormal | PSubn | NSubn | PZero => true
  | NZero | PInf | NInf | NaN => false
  end.

(** The turbine rows [syncDayToSupabase] upserts for [day], and its
    upsert queries for the day row [id]. *)
Definition turbineRowsOf (day : DayData) : list TurbineRow :=
  (fun turbineName =>
     let turbine :=
       default {| previous := Some ""; present := Some ""; hours := Some "24" |}
         (turbines day !! turbineName) in
     mkTurbineRow turbineName (previous turbine) (present turbine) (hours turbine))
    <$> TURBINES.

Definition upsertsOf (id : string) (day : DayData) : list query :=
  ((fun r => UpsertFeeder id (feeder_name r) (start_reading r) (end_reading r))
     <$> feederRowsOf day)
  ++ ((fun r => UpsertTurbine id (turbine_name r) (previous_reading r)
                  (present_reading r) (hours_col r))
        <$> turbineRowsOf day).

(** A reply that is an answer, with or without an error. *)
Definition answers (r : reply) : Prop := r ≠ Rejects.

(** The two upsert loops of [syncDayToSupabase] for the day row
    [dailyDataId], and what the function makes of their outcome. *)
Definition upsertRows (dailyDataId : string) (day : DayData) : M bool :=
  for_each FEEDERS (fun feederName =>
    let feeder :=
      default {| start := Some ""; end_ := Some "" |}
        (feeders day !! feederName) in
    '(_, error) ← supabase (UpsertFeeder dailyDataId feederName
                              (start feeder) (end_ feeder));
    when_error error ("Error upserting feeder " ++ feederName ++ ":"));;
  for_each TURBINES (fun turbineName =>
    let turbine :=
      default {| previous := Some ""; present := Some ""; hours := Some "24" |}
        (turbines day !! turbineName) in
    '(_, error) ← supabase (UpsertTurbine dailyDataId turbineName
                              (previous turbine) (present turbine)
                              (hours turbine));
    when_error error ("Error upserting turbine " ++ turbineName ++ ":"));;
  mret true.

Definition sync_after (r : result bool * World) : result bool * World :=
  match r with
  | (Ok a, w') => (Ok a, w')
  | (Throw _, w') => (console_error "Error syncing day to Supabase:";; mret false) w'
  end.

(** The record [fetchDayFromSupabase] builds from the row sets [fd]
    and [td]. *)
Definition fetchedDay (dk : string) (fd : option (list FeederRow))
    (td : option (list TurbineRow)) : DayData :=
  {| dateKey := dk;
     feeders :=
       foldl (fun feeders f =>
                let found := find_row feeder_name fd f in
                <[f := {| start := or_str (found ≫= start_reading) "";
                          end_ := or_str (found ≫= end_reading) "" |}]> feeders)
         ∅ FEEDERS;
     turbines :=
       foldl (fun turbines t =>
                let found := find_row turbine_name td t in
                <[t := {| previous := or_str (found ≫= previous_reading) "";
                          present := or_str (found ≫= present_reading) "";
                          hours := or_str (found ≫= hours_col) "24" |}]> turbines)
         ∅ TURBINES |}.

(** The child queries [fetchMonthDaysFromSupabase] issues for the listed
    day rows, and a summary that belongs to a day row. *)
Definition childQueries (rows : list DayRow) : list query :=
  rows ≫= (fun day => [SelectFeeders (id day); SelectTurbines (id day)]).

Definition summary_of (day : DayRow) (s : DaySummary.t) : Prop :=
  DaySummary.id s = id day /\ DaySummary.dateKey s = date_key day /\
  DaySummary.consumption s = (DaySummary.production s - DaySummary.exportVal s)%float.

(** Messages shown to the user, and runs that show none. *)
Definition notification (e : event) : Prop :=
  match e with
  | ShowSuccess _ | ShowError _ => True
  | _ => False
  end.

Definition silent_step (w w' : World) : Prop :=
  exists tl, trace w' = (trace w ++ tl)%list /\ Forall (fun e => ~ notification e) tl.

(** The card of a month as the sums over its days, in the order given. *)
Definition reportTotals (mk : string) (allDays : list DayData) : ReportMonth.t :=
  let days := List.filter (inMonth mk) allDays in
  ReportMonth.mk mk
    (sumf ((fun _ => 1%float) <$> days))
    (sumf (turbineProductionMwh <$> days))
    (sumf (feederExport <$> days))
    (sumf ((fun d => (turbineProductionMwh d - feederExport d)%float) <$> days)).

(** The date key of the [z]-th day since 1970-01-01, written as the
    module writes date keys; the days whose year has four digits; year
    and month of a day, and its chart label. *)
Definition keyOfDay (z : Z) : string :=
  let '(y, m, d) := JsDate.civil_from_days z in
  String_of_int y ++ "-" ++ padStart2 (String_of_int m) ++ "-"
    ++ padStart2 (String_of_int d).

Definition firstKeyDay : Z := JsDate.days_from_civil 1000 1 1.
Definition lastKeyDay : Z := JsDate.days_from_civil 9999 12 31.

Definition yearMonthOfDay (z : Z) : Z * Z := fst (JsDate.civil_from_days z).

Definition labelOfDay (language : string) (z : Z) : string :=
  let '(_, m, d) := JsDate.civil_from_days z in
  if String.eqb language "ar" then String_of_int d ++ "/" ++ String_of_int m
  else default "" (monthNames !! Z.to_nat (m - 1)) ++ " " ++ String_of_int d.

(** The character of a decimal digit. *)
Definition digit_char (k : Z) : ascii := pretty_N_char (Z.to_N k).

(** Keys of the hours keypad; the buffers it can hold (nothing, one
    digit, or two digits up to 24) and what holds of each. *)
Definition from_keys (keys : list string) : Prop :=
  Forall (fun key => key ∈ concat HOURS_KEYS) keys.

Definition hoursBuffers : list string :=
  "" :: ((fun n => pretty (Z.of_nat n)) <$> seq 0 10)
     ++ ((fun n => padStart2 (pretty (Z.of_nat n))) <$> seq 0 25).

Definition hours_buffer_ok (v : string) : bool :=
  Nat.leb (String.length v) 2
  && match parseInt10 (Some v) with
     | Some n => Z.leb 0 n && Z.leb n 24
                 && String.eqb (hoursDone v) (pretty (Z.max 1 n))
     | None => String.eqb v "" && String.eqb (hoursDone v) "24"
     end.

(** Text made of digits, and of digits with at most one decimal point. *)
Definition is_digit (c : ascii) : bool :=
  (N.leb 48 (N_of_ascii c) && N.leb (N_of_ascii c) 57)%N.

Fixpoint digits_only (s : string) : bool :=
  match s with
  | EmptyString => true
  | String c r => is_digit c && digits_only r
  end.

Fixpoint plain_decimal (s : string) : bool :=
  match s with
  | EmptyString => true
  | String c r =>
      if Ascii.eqb c "." then digits_only r
      else is_digit c && plain_decimal r
  end.

(** * Properties *)

(** ** Order facts on binary64 values *)

Section FloatOrder.

Local Ltac cmp_cases :=
  repeat match goal with
    | |- context [Pos.compare_cont Eq ?a ?b] =>
        change (Pos.compare_cont Eq a b) with (Pos.compare a b)
    | H : context [Pos.compare_cont Eq ?a ?b] |- _ =>
        change (Pos.compare_cont Eq a b) with (Pos.compare a b) in H
    end;
  repeat match goal with
    | H : context [Z.compare ?a ?b] |- _ =>
        destruct (Z.compare_spec a b); simpl in H; try discriminate H
    | |- context [Z.compare ?a ?b] =>
        destruct (Z.compare_spec a b); simpl
    | H : context [Pos.compare ?a ?b] |- _ =>
        destruct (Pos.compare_spec a b); simpl in H; try discriminate H
    | |- context [Pos.compare ?a ?b] =>
        destruct (Pos.compare_spec a b); simpl
    end;
  subst; try reflexivity; try discriminate; try lia.

(** [z < x] and [x <= y] give [z < y]; the comparison of the kernel's
    specification is lexicographic on sign, exponent and mantissa. *)
Lemma SFltb_leb_trans (z x y : spec_float) :
  SFltb z x = true -> SFleb x y = true -> SFltb z y = true.
Proof.
  unfold SFltb, SFleb.
  destruct z as [sz|sz| |sz mz ez], x as [sx|sx| |sx mx ex],
    y as [sy|sy| |sy my ey]; simpl; try discriminate;
    try (destruct sz); try (destruct sx); try (destruct sy);
    simpl; try discriminate; try reflexivity; intros H1 H2; cmp_cases.
Qed.

(** A strict [a < r] excludes [r <= a]. *)
Lemma lt_not_le (a r : number) : lt a r = true -> le r a = false.
Proof.
  unfold lt, le. rewrite ltb_spec, leb_spec. unfold SFltb, SFleb.
  destruct (Prim2SF a) as [sz|sz| |sz mz ez], (Prim2SF r) as [sx|sx| |sx mx ex];
    simpl; try discriminate; try reflexivity;
    try (destruct sz); try (destruct sx);
    simpl; try discriminate; try reflexivity; intros H1; cmp_cases.
Qed.

(** [b < r] excludes [r <= a] for every [a] below [b]. *)
Lemma lt_not_le_below (a b r : number) :
  lt a b = true -> lt b r = true -> le r a = false.
Proof.
  intros Hab Hbr. destruct (le r a) eqn:E; [|reflexivity].
  unfold lt, le in *. rewrite ltb_spec in Hab, Hbr. rewrite leb_spec in E.
  pose proof (SFltb_leb_trans _ _ _ Hbr E) as H1.
  rewrite <- ltb_spec in H1, Hab.
  apply lt_not_le in Hab. unfold le in Hab.
  rewrite leb_spec in Hab. rewrite ltb_spec in H1.
  unfold SFltb, SFleb in *.
  destruct (SFcompare (Prim2SF b) (Prim2SF a)) as [[]|]; discriminate.
Qed.

End FloatOrder.

(** C1. [gasForTurbine] is a step function of the rate alone, with the
    boundaries 3, 5 and 8 belonging to the lower tier: the result is
    [diffMwh] times 1000 for a rate [<= 3], times 700 for [3 < rate <= 5],
    times 500 for [5 < rate <= 8] and times 420 for a rate [> 8]; at
    [diffMwh = 10] the rates 3, 3.0001, 5, 5.0001, 8, 8.0001 give
    10000, 7000, 7000, 5000, 5000, 4200. *)
Theorem gasForTurbine_step_function :
  (forall p r : number,
      (le r 3 = true -> gasForTurbine p r = (p * 1000)%float) /\
      (gt r 3 = true -> le r 5 = true -> gasForTurbine p r = (p * 700)%float) /\
      (gt r 5 = true -> le r 8 = true -> gasForTurbine p r = (p * 500)%float) /\
      (gt r 8 = true -> gasForTurbine p r = (p * 420)%float)) /\
  gasForTurbine 10 3 = 10000%float /\
  gasForTurbine 10 3.0001 = 7000%float /\
  gasForTurbine 10 5 = 7000%float /\
  gasForTurbine 10 5.0001 = 5000%float /\
  gasForTurbine 10 8 = 5000%float /\
  gasForTurbine 10 8.0001 = 4200%float.
Proof.
  split; [|repeat split; vm_compute; reflexivity].
  intros p r. unfold gt, gasForTurbine.
  assert (H35 : lt 3 5 = true) by reflexivity.
  assert (H58 : lt 5 8 = true) by reflexivity.
  assert (H38 : lt 3 8 = true) by reflexivity.
  repeat split.
  - intros ->. reflexivity.
  - intros H3 H5. now rewrite (lt_not_le _ _ H3), H5.
  - intros H5 H8.
    now rewrite (lt_not_le_below _ _ _ H35 H5), (lt_not_le _ _ H5), H8.
  - intros H8.
    now rewrite (lt_not_le_below _ _ _ H38 H8), (lt_not_le_below _ _ _ H58 H8),
      (lt_not_le _ _ H8).
Qed.

Lemma gasForTurbine_step_function_witness :
  gt 4 3 = true /\ le 4 5 = true /\ gasForTurbine 100 4 = (100 * 700)%float.
Proof.
  split; [reflexivity|]. split; [reflexivity|].
  apply (proj1 (proj2 (proj1 gasForTurbine_step_function 100%float 4%float)));
    reflexivity.
Defined.

(** ** Derived figures *)

(** The reading of a field, as the derivations take it. *)
Lemma num_absent : num None = 0%float.
Proof. reflexivity. Qed.

Lemma num_empty : num (Some "") = 0%float.
Proof. reflexivity. Qed.

Lemma num_not_finite (v : option string) :
  isFinite (Number v) = false -> num v = 0%float.
Proof. unfold num. now intros ->. Qed.

Lemma feederExport_unfold (day : DayData) :
  feederExport day =
    (0 + (num (feeder_start day "F2") - num (feeder_end day "F2"))
       + (num (feeder_start day "F3") - num (feeder_end day "F3"))
       + (num (feeder_start day "F4") - num (feeder_end day "F4"))
       + (num (feeder_start day "F5") - num (feeder_end day "F5")))%float.
Proof. reflexivity. Qed.

Lemma turbineProductionMwh_unfold (day : DayData) :
  turbineProductionMwh day =
    (0 + (num (turbine_present day "A") - num (turbine_previous day "A"))
       + (num (turbine_present day "B") - num (turbine_previous day "B"))
       + (num (turbine_present day "C") - num (turbine_previous day "C"))
       + (num (turbine_present day "S") - num (turbine_previous day "S")))%float.
Proof. reflexivity. Qed.

(** C2. At every surface that shows or exports it (the Excel and text
    reports, the chart, the calculations screen, the reports screen) the
    consumption of a day record is [turbineProductionMwh day] minus
    [feederExport day], computed from the record on the spot; production
    sums [present - previous] over the turbines A, B, C, S and the feeder
    flow sums [start - end] over the feeders F2..F5, a reading that is
    absent, empty or not a finite number counting as 0. *)
Theorem consumption_is_production_minus_feeder_flow (day : DayData) :
  DayStats.consumption (computeDayStats day)
    = (turbineProductionMwh day - feederExport day)%float /\
  DayStats.consumption (snd (chartDayStats day))
    = (turbineProductionMwh day - feederExport day)%float /\
  Calculations.consumption (calculations day)
    = (turbineProductionMwh day - feederExport day)%float /\
  snd (fst (currentDayStats day))
    = (turbineProductionMwh day - feederExport day)%float /\
  turbineProductionMwh day =
    (0 + (num (turbine_present day "A") - num (turbine_previous day "A"))
       + (num (turbine_present day "B") - num (turbine_previous day "B"))
       + (num (turbine_present day "C") - num (turbine_previous day "C"))
       + (num (turbine_present day "S") - num (turbine_previous day "S")))%float /\
  feederExport day =
    (0 + (num (feeder_start day "F2") - num (feeder_end day "F2"))
       + (num (feeder_start day "F3") - num (feeder_end day "F3"))
       + (num (feeder_start day "F4") - num (feeder_end day "F4"))
       + (num (feeder_start day "F5") - num (feeder_end day "F5")))%float /\
  num None = 0%float /\
  num (Some "") = 0%float /\
  (forall v, isFinite (Number v) = false -> num v = 0%float).
Proof.
  repeat split; try reflexivity. apply num_not_finite.
Qed.

Lemma consumption_is_production_minus_feeder_flow_witness :
  isFinite (Number (Some "12abc")) = false /\
  num (Some "12abc") = 0%float /\
  DayStats.consumption (computeDayStats scenarioDay) = (100 - 200)%float.
Proof.
  pose proof (consumption_is_production_minus_feeder_flow scenarioDay)
    as (Hc & _ & _ & _ & _ & _ & _ & _ & Hn).
  split; [reflexivity|]. split.
  - apply Hn. reflexivity.
  - rewrite Hc. reflexivity.
Defined.

(** ** Sign of the feeder flow *)

(** C4. On the day of the worked scenario (F2 from 500 to 300, nothing
    else entered) [feederExport] is +200, a net export, while the month
    listing computes its [exportVal] from the same readings as
    [(end - start) / 1000], which is -0.2: the opposite sign. *)
Theorem month_listing_exportVal_has_opposite_sign :
  feederExport scenarioDay = 200%float /\
  DayStats.isExport (computeDayStats scenarioDay) = true /\
  summaryExportVal (Some (feederRowsOf scenarioDay)) = (-0.2)%float /\
  ge (summaryExportVal (Some (feederRowsOf scenarioDay))) 0 = false.
Proof. repeat split; vm_compute; reflexivity. Qed.

(** ** Hours clamp *)

(** C7. [clampHours] sends every input to the decimal text of an integer
    between 1 and 24: the empty input to "24"; an input that [parseInt]
    reads as no number, as zero or as a negative number to "1"; an input
    read as more than 24 to "24"; so "0" gives "1", "" gives "24", "25"
    gives "24" and "-3" gives "1". *)
Theorem clampHours_range (val : string) :
  (exists k : Z, 1 <= k <= 24 /\ clampHours val = pretty k) /\
  (val = "" -> clampHours val = "24") /\
  (val <> "" -> parseInt10 (Some val) = None -> clampHours val = "1") /\
  (forall n, val <> "" -> parseInt10 (Some val) = Some n -> n <= 0 ->
             clampHours val = "1") /\
  (forall n, val <> "" -> parseInt10 (Some val) = Some n -> 24 < n ->
             clampHours val = "24") /\
  (forall n, val <> "" -> parseInt10 (Some val) = Some n -> 1 <= n <= 24 ->
             clampHours val = pretty n) /\
  clampHours "0" = "1" /\ clampHours "" = "24" /\
  clampHours "25" = "24" /\ clampHours "-3" = "1".
Proof.
  assert (Hne : forall v, v <> "" -> isEmpty v = false).
  { intros [|c v] Hv; [congruence | reflexivity]. }
  split; [|split; [|split; [|split; [|split; [|split]]]]].
  - unfold clampHours. destruct (isEmpty val).
    + exists 24. split; [lia | reflexivity].
    + destruct (parseInt10 (Some val)) as [n|].
      * destruct (Z.ltb_spec n 1).
        -- exists 1. split; [lia | reflexivity].
        -- destruct (Z.ltb_spec 24 n).
           ++ exists 24. split; [lia | reflexivity].
           ++ exists n. split; [lia | reflexivity].
      * exists 1. split; [lia | reflexivity].
  - intros ->. reflexivity.
  - intros Hv Hp. unfold clampHours. now rewrite (Hne _ Hv), Hp.
  - intros n Hv Hp Hn. unfold clampHours. rewrite (Hne _ Hv), Hp.
    destruct (Z.ltb_spec n 1); [reflexivity | lia].
  - intros n Hv Hp Hn. unfold clampHours. rewrite (Hne _ Hv), Hp.
    destruct (Z.ltb_spec n 1); [lia|].
    destruct (Z.ltb_spec 24 n); [reflexivity | lia].
  - intros n Hv Hp Hn. unfold clampHours. rewrite (Hne _ Hv), Hp.
    destruct (Z.ltb_spec n 1); [lia|].
    destruct (Z.ltb_spec 24 n); [lia | reflexivity].
  - repeat split; vm_compute; reflexivity.
Qed.

Lemma clampHours_range_witness :
  "abc" <> "" /\ parseInt10 (Some "abc") = None /\ clampHours "abc" = "1".
Proof.
  split; [discriminate|]. split; [reflexivity|].
  apply (proj1 (proj2 (proj2 (clampHours_range "abc")))); [discriminate | reflexivity].
Defined.

(** ** Reasoning about the asynchronous functions *)

(** Storage keys do not collide. *)
Lemma storageKey_inj (k1 k2 : string) : storageKey k1 = storageKey k2 -> k1 = k2.
Proof. cbv [storageKey STORAGE_PREFIX String.append]. congruence. Qed.

Lemma storageKey_ne_listKey (k : string) : storageKey k <> listKey.
Proof. cbv [storageKey listKey STORAGE_PREFIX String.append]. congruence. Qed.

Lemma storageKey_ne_settings (k : string) : storageKey k <> SETTINGS_KEY.
Proof. cbv [storageKey SETTINGS_KEY STORAGE_PREFIX String.append]. congruence. Qed.

Lemma listKey_ne_settings : listKey <> SETTINGS_KEY.
Proof. cbv [listKey SETTINGS_KEY STORAGE_PREFIX String.append]. congruence. Qed.

Global Instance remote_step_preorder : PreOrder remote_step.
Proof.
  split.
  - intros w. repeat split; try reflexivity. exists []. split; [now rewrite app_nil_r | constructor].
  - intros w1 w2 w3 (Hs1 & Hd1 & Hn1 & tl1 & Ht1 & Hf1) (Hs2 & Hd2 & Hn2 & tl2 & Ht2 & Hf2).
    repeat split; try congruence.
    exists (tl1 ++ tl2)%list. split.
    + rewrite Ht2, Ht1. now rewrite app_assoc.
    + apply Forall_app. now split.
Qed.

Global Instance local_step_preorder : PreOrder local_step.
Proof.
  split.
  - intros w. repeat split; try reflexivity. exists []. split; [now rewrite app_nil_r | constructor].
  - intros w1 w2 w3 (Hn1 & Ho1 & tl1 & Ht1 & Hf1) (Hn2 & Ho2 & tl2 & Ht2 & Hf2).
    repeat split; try congruence.
    exists (tl1 ++ tl2)%list. split.
    + rewrite Ht2, Ht1. now rewrite app_assoc.
    + apply Forall_app. now split.
Qed.

Section Steps.

Context (R : World -> World -> Prop) `{!PreOrder R}.

Lemma steps_ret {A} (a : A) : steps R (mret a).
Proof. intros w. reflexivity. Qed.

Lemma steps_throw {A} (e : error) : steps R (@throw A e).
Proof. intros w. reflexivity. Qed.

Lemma steps_bind {A B} (m : M A) (f : A -> M B) :
  steps R m -> (forall a, steps R (f a)) -> steps R (m ≫= f).
Proof.
  intros Hm Hf w. unfold mbind, M_bind. specialize (Hm w).
  destruct (m w) as [[a|e] w1]; simpl in *; [|assumption].
  etransitivity; [exact Hm | apply Hf].
Qed.

Lemma steps_try_catch {A} (m : M A) (h : error -> M A) :
  steps R m -> (forall e, steps R (h e)) -> steps R (try_catch m h).
Proof.
  intros Hm Hh w. unfold try_catch. specialize (Hm w).
  destruct (m w) as [[a|e] w1]; simpl in *; [assumption|].
  etransitivity; [exact Hm | apply Hh].
Qed.

Lemma steps_try_finally {A} (m : M A) (c : M unit) :
  steps R m -> steps R c -> steps R (try_finally m c).
Proof.
  intros Hm Hc w. unfold try_finally. specialize (Hm w).
  destruct (m w) as [r w1]. specialize (Hc w1).
  destruct (c w1) as [[[]|e] w2]; simpl in *; etransitivity; eassumption.
Qed.

Lemma steps_for_each {A} (l : list A) (body : A -> M unit) :
  (forall x, steps R (body x)) -> steps R (for_each l body).
Proof.
  intros Hb. induction l as [|x l IH]; simpl.
  - apply steps_ret.
  - apply steps_bind; [apply Hb | intros _; exact IH].
Qed.

Lemma no_throw_ret {A} (a : A) : no_throw (mret a).
Proof. intros w. now exists a. Qed.

Lemma no_throw_bind {A B} (m : M A) (f : A -> M B) :
  no_throw m -> (forall a, no_throw (f a)) -> no_throw (m ≫= f).
Proof.
  intros Hm Hf w. unfold mbind, M_bind. destruct (Hm w) as [a Ha].
  destruct (m w) as [[a'|e] w1]; simpl in *; [|discriminate]. apply Hf.
Qed.

Lemma no_throw_try_catch {A} (m : M A) (h : error -> M A) :
  (forall e, no_throw (h e)) -> no_throw (try_catch m h).
Proof.
  intros Hh w. unfold try_catch.
  destruct (m w) as [[a|e] w1]; simpl; [now exists a | apply Hh].
Qed.

End Steps.

Lemma no_throw_emit (e : event) : no_throw (emit e).
Proof. intros w. now exists tt. Qed.

Lemma remote_step_emit (e : event) : remote_or_log e -> steps remote_step (emit e).
Proof.
  intros He w. unfold emit; simpl. repeat split.
  exists [e]. split; [reflexivity | now repeat constructor].
Qed.

Lemma local_step_emit (e : event) : ~ remote_event e -> steps local_step (emit e).
Proof.
  intros He w. unfold emit; simpl. repeat split.
  exists [e]. split; [reflexivity | now repeat constructor].
Qed.

Lemma remote_step_supabase (q : query) : steps remote_step (supabase q).
Proof.
  intros w. unfold supabase.
  destruct (net w) as [|[|d e] n]; simpl; repeat split;
    exists [Remote q]; (split; [reflexivity | repeat constructor]).
Qed.

Lemma local_step_storage_call {A} (e : event) (run : gmap string text -> A * gmap string text) :
  ~ remote_event e -> steps local_step (storage_call e run).
Proof.
  intros He w. unfold storage_call.
  destruct (disk w) as [|[|] d]; simpl; try destruct (run (store w)); simpl;
    repeat split; exists [e]; (split; [reflexivity | now repeat constructor]).
Qed.

Lemma remote_step_when_error (err : option string) (msg : string) :
  steps remote_step (when_error err msg).
Proof.
  destruct err; simpl; [apply remote_step_emit; exact I | apply steps_ret; typeclasses eauto].
Qed.

Lemma remote_step_row_id (d : rdata) : steps remote_step (row_id d).
Proof.
  unfold row_id. destruct (data_day d);
    [apply steps_ret | apply steps_throw]; typeclasses eauto.
Qed.

Local Ltac remote_steps :=
  repeat first
    [ apply steps_try_catch; [typeclasses eauto | | intros ?]
    | apply steps_bind; [typeclasses eauto | | intros ?]
    | apply steps_for_each; [typeclasses eauto | intros ?]
    | apply remote_step_supabase
    | apply remote_step_when_error
    | apply remote_step_row_id
    | apply remote_step_emit; simpl; tauto
    | apply steps_ret; typeclasses eauto
    | apply steps_throw; typeclasses eauto
    | progress unfold console_error
    | match goal with
      | |- steps _ (match ?x with _ => _ end) => destruct x
      | |- steps _ (if ?x then _ else _) => destruct x
      | |- steps _ (let '(_, _) := ?x in _) => destruct x
      end ].

Lemma remote_step_syncDayToSupabase (userId : string) (day : DayData) :
  steps remote_step (syncDayToSupabase userId day).
Proof. unfold syncDayToSupabase. remote_steps. Qed.

Lemma remote_step_fetchDayFromSupabase (userId dateKey : string) :
  steps remote_step (fetchDayFromSupabase userId dateKey).
Proof. unfold fetchDayFromSupabase. remote_steps. Qed.

Lemma remote_step_deleteDayFromSupabase (dayId : string) :
  steps remote_step (deleteDayFromSupabase dayId).
Proof. unfold deleteDayFromSupabase. remote_steps. Qed.

Lemma no_throw_syncDayToSupabase (userId : string) (day : DayData) :
  no_throw (syncDayToSupabase userId day).
Proof.
  apply no_throw_try_catch. intros e.
  apply no_throw_bind; [apply no_throw_emit | intros _; apply no_throw_ret].
Qed.

Global Instance write_step_preorder (K : string -> Prop) : PreOrder (write_step K).
Proof.
  split.
  - intros w k _. reflexivity.
  - intros w1 w2 w3 H1 H2 k Hk. rewrite (H2 k Hk). apply (H1 k Hk).
Qed.

Lemma write_step_emit (K : string -> Prop) (e : event) : steps (write_step K) (emit e).
Proof. intros w k _. reflexivity. Qed.

Lemma write_step_getItem (K : string -> Prop) (key : string) :
  steps (write_step K) (AsyncStorage.getItem key).
Proof.
  intros w k _. unfold AsyncStorage.getItem, storage_call.
  destruct (disk w) as [|[|] d]; reflexivity.
Qed.

Lemma write_step_setItem (K : string -> Prop) (key : string) (v : text) :
  K key -> steps (write_step K) (AsyncStorage.setItem key v).
Proof.
  intros HK w k Hk. unfold AsyncStorage.setItem, storage_call.
  destruct (disk w) as [|[|] d]; simpl; try reflexivity;
    apply lookup_insert_ne; congruence.
Qed.

Lemma write_step_removeItem (K : string -> Prop) (key : string) :
  K key -> steps (write_step K) (AsyncStorage.removeItem key).
Proof.
  intros HK w k Hk. unfold AsyncStorage.removeItem, storage_call.
  destruct (disk w) as [|[|] d]; simpl; try reflexivity;
    apply lookup_delete_ne; congruence.
Qed.

Lemma write_step_supabase (K : string -> Prop) (q : query) :
  steps (write_step K) (supabase q).
Proof.
  intros w k _. unfold supabase. destruct (net w) as [|[|d e] n]; reflexivity.
Qed.

(** Goals [steps R m] by the structure of [m]; [leaf] closes the calls. *)
Ltac steps_by leaf :=
  repeat first
    [ apply steps_try_catch; [typeclasses eauto | | intros ?]
    | apply steps_try_finally; [typeclasses eauto | | ]
    | apply steps_bind; [typeclasses eauto | | intros ?]
    | apply steps_for_each; [typeclasses eauto | intros ?]
    | apply steps_ret; typeclasses eauto
    | apply steps_throw; typeclasses eauto
    | leaf
    | progress unfold console_error, JSON_parse, as_array, row_id, when_error
    | match goal with
      | |- steps _ (match ?x with _ => _ end) => destruct x
      | |- steps _ (if ?x then _ else _) => destruct x
      end ].

Ltac local_leaf :=
  first [ apply local_step_storage_call; simpl; tauto
        | apply local_step_emit; simpl; tauto ].

Ltac index_leaf :=
  first [ apply write_step_getItem
        | apply write_step_setItem; reflexivity
        | apply write_step_emit ].

Lemma local_step_getDayIndex : steps local_step getDayIndex.
Proof. unfold getDayIndex, AsyncStorage.getItem. steps_by local_leaf. Qed.

Lemma local_step_upsertDayIndex (dateKey : string) :
  steps local_step (upsertDayIndex dateKey).
Proof.
  unfold upsertDayIndex, getDayIndex, AsyncStorage.getItem, AsyncStorage.setItem.
  steps_by local_leaf.
Qed.

Lemma index_only_upsertDayIndex (dateKey : string) :
  steps (write_step (fun k => k = listKey)) (upsertDayIndex dateKey).
Proof. unfold upsertDayIndex, getDayIndex. steps_by index_leaf. Qed.

Lemma no_throw_upsertDayIndex (dateKey : string) : no_throw (upsertDayIndex dateKey).
Proof. apply no_throw_try_catch. intros e. apply no_throw_emit. Qed.

(** [saveDayData] when the write of the record is rejected. *)
Lemma saveDayData_rejected (day : DayData) (w : World) (d : list bool) :
  disk w = true :: d ->
  saveDayData day w =
    (Throw StorageError,
     mkWorld (store w) d (net w) (now w)
       (trace w ++ [SetItem (storageKey (dateKey day)) (stringify_day day);
                    ConsoleError "Error saving day data:"])).
Proof.
  intros Hd. unfold saveDayData, try_catch, mbind, M_bind, AsyncStorage.setItem,
    storage_call. rewrite Hd. simpl. unfold console_error, emit, throw. simpl.
  now rewrite <- app_assoc.
Qed.

(** [saveDayData] when the write of the record is accepted. *)
Lemma saveDayData_committed (day : DayData) (w : World) :
  hd false (disk w) = false ->
  exists w1 tl,
    saveDayData day w = (Ok tt, w1) /\
    store w1 !! storageKey (dateKey day) = Some (stringify_day day) /\
    (forall k, k <> storageKey (dateKey day) -> k <> listKey ->
               store w1 !! k = store w !! k) /\
    net w1 = net w /\ now w1 = now w /\
    trace w1 = (trace w ++ SetItem (storageKey (dateKey day)) (stringify_day day) :: tl)%list /\
    Forall (fun e => ~ remote_event e) tl.
Proof.
  intros Hd.
  set (key := storageKey (dateKey day)). set (v := stringify_day day).
  set (w0 := mkWorld (<[key := v]> (store w)) (tail (disk w)) (net w) (now w)
               (trace w ++ [SetItem key v])).
  assert (Hset : AsyncStorage.setItem key v w = (Ok tt, w0)).
  { unfold AsyncStorage.setItem, storage_call, w0.
    destruct (disk w) as [|[|] d]; simpl in *; try reflexivity; discriminate. }
  destruct (no_throw_upsertDayIndex (dateKey day) w0) as [[] Hok].
  pose proof (local_step_upsertDayIndex (dateKey day) w0) as (Hn & Ho & tl & Ht & Hf).
  pose proof (index_only_upsertDayIndex (dateKey day) w0) as Hw.
  destruct (upsertDayIndex (dateKey day) w0) as [r w1] eqn:Hup. simpl in *. subst r.
  exists w1, tl. repeat split.
  - unfold saveDayData, try_catch, mbind, M_bind. fold key v. rewrite Hset, Hup.
    reflexivity.
  - rewrite (Hw key (storageKey_ne_listKey _)). unfold w0; simpl.
    apply lookup_insert_eq.
  - intros k Hk Hl. rewrite (Hw k Hl). unfold w0; simpl.
    now apply lookup_insert_ne.
  - exact Hn.
  - exact Ho.
  - rewrite Ht. unfold w0; simpl. now rewrite <- app_assoc.
  - exact Hf.
Qed.

(** The remote mirror of [saveDay] never throws and never touches the
    local store. *)
Lemma mirror_ok (userId : string) (dayToSave : DayData) (w : World) :
  exists w',
    try_finally
      (try_catch
         (syncDayToSupabase userId dayToSave;; mret tt)
         (fun _ => console_error "Error syncing to Supabase:"))
      (mret tt) w = (Ok tt, w') /\ remote_step w w'.
Proof.
  pose proof (remote_step_syncDayToSupabase userId dayToSave w) as Hs.
  destruct (no_throw_syncDayToSupabase userId dayToSave w) as [b Hb].
  unfold try_finally, try_catch, mbind, M_bind.
  destruct (syncDayToSupabase userId dayToSave w) as [r w1]. simpl in *. subst r.
  exists w1. split; [reflexivity | exact Hs].
Qed.

(** C5. A save writes the record to the local store before anything
    else.  If that write is rejected the save fails with the storage
    error, nothing is sent to the remote, and the screen shows an error.
    If it is accepted the save succeeds whatever the remote does: the
    local save runs to its end without a remote call, what follows are
    remote calls and log lines only, which leave the store, and so the
    committed record, as the local save left it, and the screen shows
    success. *)
Theorem saveDay_local_first_remote_isolated
    (t : string -> string) (user : option string) (day : DayData)
    (dateKey : string) (w : World) :
  let dayToSave := mkDay dateKey (feeders day) (turbines day) in
  let key := storageKey dateKey in
  let w' := snd (saveDay user day dateKey w) in
  (exists tl, trace w' = (trace w ++ SetItem key (stringify_day dayToSave) :: tl)%list) /\
  (hd false (disk w) = true ->
     fst (saveDay user day dateKey w) = Throw StorageError /\
     store w' = store w /\
     (exists tl, trace w' = (trace w ++ tl)%list /\ Forall (fun e => ~ remote_event e) tl) /\
     exists wu,
       handleSave t false (saveDay user day dateKey) w = (Ok tt, wu) /\
       trace wu = (trace w' ++ [ShowError (t "msg_error_generic")])%list) /\
  (hd false (disk w) = false ->
     exists w1,
       saveDayData dayToSave w = (Ok tt, w1) /\
       local_step w w1 /\
       fst (saveDay user day dateKey w) = Ok tt /\
       remote_step w1 w' /\
       store w' !! key = Some (stringify_day dayToSave) /\
       exists wu,
         handleSave t false (saveDay user day dateKey) w = (Ok tt, wu) /\
         trace wu = (trace w' ++ [ShowSuccess (t "msg_saved_success")])%list).
Proof.
  intros dayToSave key w'.
  assert (Hrej : forall d, disk w = true :: d ->
            saveDay user day dateKey w =
              (Throw StorageError,
               mkWorld (store w) d (net w) (now w)
                 (trace w ++ [SetItem key (stringify_day dayToSave);
                              ConsoleError "Error saving day data:"]))).
  { intros d Hd. unfold saveDay, mbind, M_bind. fold dayToSave.
    now rewrite (saveDayData_rejected dayToSave w d Hd). }
  assert (Hacc : hd false (disk w) = false ->
            exists w1 tl,
              saveDayData dayToSave w = (Ok tt, w1) /\
              local_step w w1 /\
              store w1 !! key = Some (stringify_day dayToSave) /\
              trace w1 = (trace w ++ SetItem key (stringify_day dayToSave) :: tl)%list /\
              exists w2, saveDay user day dateKey w = (Ok tt, w2) /\ remote_step w1 w2).
  { intros Hd.
    destruct (saveDayData_committed dayToSave w Hd)
      as (w1 & tl & Hs & Hk & _ & Hn & Ho & Ht & Hf).
    exists w1, tl. split; [exact Hs|]. split.
    { split; [exact Hn|]. split; [exact Ho|].
      eexists. split; [exact Ht|]. constructor; [simpl; tauto | exact Hf]. }
    split; [exact Hk|]. split; [exact Ht|].
    unfold saveDay, mbind, M_bind. fold dayToSave. rewrite Hs.
    destruct user as [userId|].
    - destruct (mirror_ok userId dayToSave w1) as (w2 & Hm & Hr).
      exists w2. split; [exact Hm | exact Hr].
    - exists w1. split; [reflexivity | reflexivity]. }
  split; [|split].
  - destruct (disk w) as [|[|] d] eqn:Hd.
    + destruct (Hacc eq_refl)
        as (w1 & tl & _ & _ & _ & Ht & w2 & Hsv & _ & _ & _ & tl2 & Ht2 & _).
      subst w'. rewrite Hsv. simpl. rewrite Ht2, Ht.
      exists (tl ++ tl2)%list. now rewrite <- app_assoc.
    + subst w'. rewrite (Hrej d eq_refl). simpl. eauto.
    + destruct (Hacc eq_refl)
        as (w1 & tl & _ & _ & _ & Ht & w2 & Hsv & _ & _ & _ & tl2 & Ht2 & _).
      subst w'. rewrite Hsv. simpl. rewrite Ht2, Ht.
      exists (tl ++ tl2)%list. now rewrite <- app_assoc.
  - intros Hd. destruct (disk w) as [|[|] d] eqn:Hdw; try discriminate.
    subst w'. rewrite (Hrej d eq_refl). simpl. repeat split.
    + eexists. split; [reflexivity|]. repeat constructor; simpl; tauto.
    + eexists. split.
      * unfold handleSave, try_finally, try_catch, mbind, M_bind.
        rewrite (Hrej d eq_refl). reflexivity.
      * reflexivity.
  - intros Hd. destruct (Hacc Hd) as (w1 & tl & Hs & Hl & Hk & Ht & w2 & Hsv & Hr).
    exists w1. subst w'. rewrite Hsv. simpl.
    split; [exact Hs|]. split; [exact Hl|]. split; [reflexivity|].
    split; [exact Hr|]. split.
    + destruct Hr as (Hst & _). now rewrite Hst.
    + eexists. split.
      * unfold handleSave, try_finally, try_catch, mbind, M_bind.
        rewrite Hsv. reflexivity.
      * reflexivity.
Qed.

Lemma saveDay_local_first_remote_isolated_witness :
  let w_ok := mkWorld ∅ [] [Rejects] "2026-01-20T12:00:00.000Z" [] in
  let w_bad := mkWorld ∅ [true] [] "2026-01-20T12:00:00.000Z" [] in
  (hd false (disk w_ok) = false /\
   fst (saveDay (Some "user-1") scenarioDay "2026-01-20" w_ok) = Ok tt /\
   store (snd (saveDay (Some "user-1") scenarioDay "2026-01-20" w_ok))
     !! storageKey "2026-01-20" = Some (stringify_day scenarioDay) /\
   In (ConsoleError "Error syncing day to Supabase:")
     (trace (snd (saveDay (Some "user-1") scenarioDay "2026-01-20" w_ok)))) /\
  (hd false (disk w_bad) = true /\
   fst (saveDay (Some "user-1") scenarioDay "2026-01-20" w_bad) = Throw StorageError).
Proof.
  intros w_ok w_bad. split.
  - split; [reflexivity|].
    destruct (proj2 (proj2 (saveDay_local_first_remote_isolated
                              (fun k => k) (Some "user-1") scenarioDay "2026-01-20" w_ok))
                eq_refl) as (w1 & _ & _ & Hok & _ & Hst & _).
    split; [exact Hok|]. split; [exact Hst|].
    vm_compute. right. right. right. right. left. reflexivity.
  - split; [reflexivity|].
    exact (proj1 (proj1 (proj2 (saveDay_local_first_remote_isolated
                                  (fun k => k) (Some "user-1") scenarioDay "2026-01-20" w_bad))
                    eq_refl)).
Defined.

(** ** Deleting a day *)

Lemma local_step_deleteDayData (dateKey : string) : steps local_step (deleteDayData dateKey).
Proof.
  unfold deleteDayData, getDayIndex, AsyncStorage.getItem, AsyncStorage.setItem,
    AsyncStorage.removeItem.
  steps_by local_leaf.
Qed.

(** The remote part of a delete, by the replies to its calls. *)
Lemma deleteDayFromSupabase_run (dayId : string) (w : World) :
  exists w' tl,
    deleteDayFromSupabase dayId w
      = (Ok (reply_ok (reply_at 0 w) && reply_ok (reply_at 1 w) && reply_ok (reply_at 2 w)),
         w') /\
    store w' = store w /\ disk w' = disk w /\ net w' = drop (List.length (remote_queries tl)) (net w) /\
    now w' = now w /\
    trace w' = (trace w ++ tl)%list /\
    Forall (fun e => ~ storage_event e) tl /\
    remote_queries tl =
      (DeleteFeeders dayId ::
         if reply_ok (reply_at 0 w) then
           DeleteTurbines dayId ::
             (if reply_ok (reply_at 1 w) then [DeleteDaily dayId] else [])
         else [])%list /\
    (reply_ok (reply_at 0 w) && reply_ok (reply_at 1 w) && reply_ok (reply_at 2 w) = true ->
     tl = [Remote (DeleteFeeders dayId); Remote (DeleteTurbines dayId);
           Remote (DeleteDaily dayId)]).
Proof.
  unfold deleteDayFromSupabase, try_catch, mbind, M_bind, supabase, reply_at,
    console_error, emit.
  destruct (net w) as [|[|d1 [c1|]] [|[|d2 [c2|]] [|[|d3 [c3|]] n]]]; simpl;
    eexists; eexists; (split; [reflexivity|]); simpl;
    rewrite <- ?app_assoc; simpl;
    (repeat split; try reflexivity; try discriminate;
     try (repeat constructor; simpl; tauto)).
Qed.

Lemma remote_queries_app (a b : list event) :
  remote_queries (a ++ b) = (remote_queries a ++ remote_queries b)%list.
Proof. apply omap_app. Qed.

Lemma remote_queries_none (l : list event) :
  Forall (fun e => ~ remote_event e) l -> remote_queries l = [].
Proof.
  induction 1 as [|e l He _ IH]; [reflexivity|].
  destruct e; simpl in *; try exact IH. tauto.
Qed.

(** C6. Deleting a listed day asks the remote to delete the feeder rows,
    then the turbine rows, then the [daily_data] row, each only after
    the step before it succeeded.  If any of the three fails the delete
    is reported as failed and neither the stored record nor the date
    index is touched: no storage call is made at all.  Storage calls are
    made only once all three have succeeded, and after them. *)
Theorem confirmDelete_children_first_local_last
    (t : string -> string) (st : Modal.state) (day : DaySummary.t) (w : World) :
  Modal.deleteLock st = false ->
  Modal.deletingId st = None ->
  let dayId := DaySummary.id day in
  let ok0 := reply_ok (reply_at 0 w) in
  let ok1 := reply_ok (reply_at 1 w) in
  let ok2 := reply_ok (reply_at 2 w) in
  exists st' w' tl,
    confirmDelete t st day w = (Ok st', w') /\
    trace w' = (trace w ++ tl)%list /\
    remote_queries tl =
      (DeleteFeeders dayId ::
         if ok0 then DeleteTurbines dayId :: (if ok1 then [DeleteDaily dayId] else [])
         else [])%list /\
    (ok0 && ok1 && ok2 = false ->
       store w' = store w /\
       Forall (fun e => ~ storage_event e) tl /\
       In (ShowError (t "delete_failed")) tl /\
       Modal.days st' = Modal.days st) /\
    (ok0 && ok1 && ok2 = true ->
       exists tl2,
         tl = ([Remote (DeleteFeeders dayId); Remote (DeleteTurbines dayId);
                Remote (DeleteDaily dayId)] ++ tl2)%list /\
         Forall (fun e => ~ remote_event e) tl2).
Proof.
  intros Hlock Hid dayId ok0 ok1 ok2.
  destruct (deleteDayFromSupabase_run dayId w)
    as (w1 & tl1 & Hrun & Hst & Hdk & _ & _ & Htr & Hns & Hq & Hall).
  fold ok0 ok1 ok2 in Hrun, Hq, Hall.
  unfold confirmDelete. rewrite Hlock, Hid. simpl.
  unfold mbind, M_bind, try_catch. fold dayId. rewrite Hrun.
  destruct (ok0 && ok1 && ok2) eqn:Hok.
  - (* all three remote steps succeeded *)
    specialize (Hall eq_refl). subst tl1.
    pose proof (local_step_deleteDayData (DaySummary.dateKey day) w1)
      as (_ & _ & tl2 & Htr2 & Hnr).
    assert (Hq3 : forall extra,
              Forall (fun e => ~ remote_event e) extra ->
              remote_queries
                ([Remote (DeleteFeeders dayId); Remote (DeleteTurbines dayId);
                  Remote (DeleteDaily dayId)] ++ tl2 ++ extra) =
              (DeleteFeeders dayId ::
                 if ok0 then DeleteTurbines dayId :: (if ok1 then [DeleteDaily dayId] else [])
                 else [])%list).
    { intros extra Hex.
      rewrite remote_queries_app, (remote_queries_none (tl2 ++ extra)).
      - destruct ok0, ok1; try discriminate. reflexivity.
      - apply Forall_app. now split. }
    destruct (deleteDayData (DaySummary.dateKey day) w1) as [[[]|e] w2]; simpl in *.
    + exists (Modal.mk
                (filter (fun d => DaySummary.id d ≠ DaySummary.id day) (Modal.days st))
                None false), 
        (mkWorld (store w2) (disk w2) (net w2) (now w2)
           ((trace w2 ++ [ShowSuccess (t "day_deleted")]) ++ [OnDayDeleted])),
        ([Remote (DeleteFeeders dayId); Remote (DeleteTurbines dayId);
          Remote (DeleteDaily dayId)] ++ tl2
           ++ [ShowSuccess (t "day_deleted"); OnDayDeleted])%list.
      split; [reflexivity|].
      split; [simpl; rewrite Htr2, Htr, <- !app_assoc; reflexivity|].
      split; [apply Hq3; repeat constructor; simpl; tauto|].
      split; [discriminate|].
      intros _. eexists. split; [reflexivity|].
      apply Forall_app. split; [exact Hnr | repeat constructor; simpl; tauto].
    + exists (Modal.mk (Modal.days st) None false),
        (mkWorld (store w2) (disk w2) (net w2) (now w2)
           ((trace w2 ++ [ConsoleError "Error deleting day:"])
              ++ [ShowError (t "delete_failed")])),
        ([Remote (DeleteFeeders dayId); Remote (DeleteTurbines dayId);
          Remote (DeleteDaily dayId)] ++ tl2
           ++ [ConsoleError "Error deleting day:"; ShowError (t "delete_failed")])%list.
      split; [reflexivity|].
      split; [simpl; rewrite Htr2, Htr, <- !app_assoc; reflexivity|].
      split; [apply Hq3; repeat constructor; simpl; tauto|].
      split; [discriminate|].
      intros _. eexists. split; [reflexivity|].
      apply Forall_app. split; [exact Hnr | repeat constructor; simpl; tauto].
  - (* a remote step failed *)
    simpl. eexists _, _, _. split; [reflexivity|]. simpl.
    split; [rewrite Htr, <- app_assoc; reflexivity|].
    split; [|split; [|discriminate]].
    + rewrite remote_queries_app, Hq. simpl. now rewrite app_nil_r.
    + intros _. split; [exact Hst|]. split; [|split; [|reflexivity]].
      * apply Forall_app. split; [exact Hns | repeat constructor; simpl; tauto].
      * apply in_or_app. right. now left.
Qed.

Lemma confirmDelete_children_first_local_last_witness :
  let st := Modal.mk [] None false in
  let day := DaySummary.mk "day-7" "2026-01-20" 0%float 0%float 0%float in
  let w := mkWorld {[ storageKey "2026-01-20" := stringify_day scenarioDay ]}
             [] [Answers DNull None; Answers DNull (Some "42501")]
             "2026-01-21T08:00:00.000Z" [] in
  Modal.deleteLock st = false /\ Modal.deletingId st = None /\
  exists st' w' tl,
    confirmDelete (fun k => k) st day w = (Ok st', w') /\
    trace w' = (trace w ++ tl)%list /\
    remote_queries tl = [DeleteFeeders "day-7"; DeleteTurbines "day-7"] /\
    store w' = store w.
Proof.
  intros st day w. split; [reflexivity|]. split; [reflexivity|].
  destruct (confirmDelete_children_first_local_last (fun k => k) st day w eq_refl eq_refl)
    as (st' & w' & tl & Hrun & Htr & Hq & Hfail & _).
  exists st', w', tl. split; [exact Hrun|]. split; [exact Htr|].
  split; [exact Hq|]. exact (proj1 (Hfail eq_refl)).
Defined.

(** ** Completeness of records at the key level *)

Lemma lookup_foldl_insert {V} (g : string -> V) (l : list string)
    (m : gmap string V) (k : string) :
  foldl (fun acc f => <[f := g f]> acc) m l !! k
    = if bool_decide (k ∈ l) then Some (g k) else m !! k.
Proof.
  revert m. induction l as [|x l IH]; intros m; simpl; [reflexivity|].
  rewrite IH. destruct (decide (k ∈ l)) as [Hin|Hin].
  - rewrite (bool_decide_eq_true_2 _ Hin).
    rewrite bool_decide_eq_true_2 by (now right). reflexivity.
  - rewrite (bool_decide_eq_false_2 _ Hin).
    destruct (decide (x = k)) as [->|Hne].
    + rewrite bool_decide_eq_true_2 by (now left). apply lookup_insert_eq.
    + rewrite bool_decide_eq_false_2.
      * now apply lookup_insert_ne.
      * intros Hk. apply elem_of_cons in Hk as [->|Hk]; tauto.
Qed.

Lemma or_str_some (v : option string) (d : string) : exists s, or_str v d = Some s.
Proof.
  unfold or_str, truthy_str. destruct v as [s|]; simpl; [|now exists d].
  destruct (isEmpty s); simpl; eauto.
Qed.

Lemma defaultDay_fully_valued (dk : string) : fully_valued (defaultDay dk).
Proof.
  split.
  - intros f Hf. exists "", "".
    repeat (apply elem_of_cons in Hf as [->|Hf]; [reflexivity|]).
    now apply elem_of_nil in Hf.
  - intros t Ht. exists "", "", "24".
    repeat (apply elem_of_cons in Ht as [->|Ht]; [reflexivity|]).
    now apply elem_of_nil in Ht.
Qed.

Lemma fully_valued_has_all_keys (day : DayData) : fully_valued day -> has_all_keys day.
Proof.
  intros [Hf Ht]. split.
  - intros f Hin. destruct (Hf f Hin) as (s & e & ->). eauto.
  - intros t Hin. destruct (Ht t Hin) as (p & q & h & ->). eauto.
Qed.

(** The record a remote fetch builds from the rows it was given. *)
Lemma fetched_fully_valued (dk : string) (fd : option (list FeederRow))
    (td : option (list TurbineRow)) :
  fully_valued
    {| dateKey := dk;
       feeders :=
         foldl (fun feeders f =>
                  let found := find_row feeder_name fd f in
                  <[f := {| start := or_str (found ≫= start_reading) "";
                            end_ := or_str (found ≫= end_reading) "" |}]> feeders)
           ∅ FEEDERS;
       turbines :=
         foldl (fun turbines t =>
                  let found := find_row turbine_name td t in
                  <[t := {| previous := or_str (found ≫= previous_reading) "";
                            present := or_str (found ≫= present_reading) "";
                            hours := or_str (found ≫= hours_col) "24" |}]> turbines)
           ∅ TURBINES |}.
Proof.
  split; cbn [feeders turbines].
  - intros f Hf.
    rewrite (lookup_foldl_insert
               (fun f => {| start := or_str (find_row feeder_name fd f ≫= start_reading) "";
                            end_ := or_str (find_row feeder_name fd f ≫= end_reading) "" |})).
    rewrite (bool_decide_eq_true_2 _ Hf).
    destruct (or_str_some (find_row feeder_name fd f ≫= start_reading) "") as [s ->].
    destruct (or_str_some (find_row feeder_name fd f ≫= end_reading) "") as [e ->].
    eauto.
  - intros t Ht.
    rewrite (lookup_foldl_insert
               (fun t => {| previous := or_str (find_row turbine_name td t ≫= previous_reading) "";
                            present := or_str (find_row turbine_name td t ≫= present_reading) "";
                            hours := or_str (find_row turbine_name td t ≫= hours_col) "24" |})).
    rewrite (bool_decide_eq_true_2 _ Ht).
    destruct (or_str_some (find_row turbine_name td t ≫= previous_reading) "") as [p ->].
    destruct (or_str_some (find_row turbine_name td t ≫= present_reading) "") as [q ->].
    destruct (or_str_some (find_row turbine_name td t ≫= hours_col) "24") as [h ->].
    eauto.
Qed.

Lemma fetchDayFromSupabase_fully_valued (userId dk : string) (w : World) (day : DayData) :
  fst (fetchDayFromSupabase userId dk w) = Ok (Some day) -> fully_valued day.
Proof.
  Local Opaque foldl.
  assert (Hfin : forall fd td d,
            Ok (Some
                  {| dateKey := dk;
                     feeders :=
                       foldl (fun feeders f =>
                                let found := find_row feeder_name fd f in
                                <[f := {| start := or_str (found ≫= start_reading) "";
                                          end_ := or_str (found ≫= end_reading) "" |}]> feeders)
                         ∅ FEEDERS;
                     turbines :=
                       foldl (fun turbines t =>
                                let found := find_row turbine_name td t in
                                <[t := {| previous := or_str (found ≫= previous_reading) "";
                                          present := or_str (found ≫= present_reading) "";
                                          hours := or_str (found ≫= hours_col) "24" |}]> turbines)
                         ∅ TURBINES |}) = @Ok (option DayData) (Some d) ->
            fully_valued d).
  { intros fd td d [= <-]. apply fetched_fully_valued. }
  unfold fetchDayFromSupabase, try_catch, mbind, M_bind, supabase, row_id,
    when_error, console_error, emit, throw, mret, M_ret.
  destruct (net w) as [|[|d1 [c1|]] n1]; cbn [fst snd]; try discriminate.
  - destruct (String.eqb c1 "PGRST116"); discriminate.
  - destruct (data_day d1) as [row|]; cbn [fst snd]; [|discriminate].
    destruct n1 as [|[|d2 e2] n2]; cbn [fst snd net]; try discriminate.
    + apply (Hfin (data_feeders DNull) (data_turbines DNull)).
    + destruct e2; cbn [fst snd net];
        (destruct n2 as [|[|d3 e3] n3]; cbn [fst snd net]; try discriminate;
         [ apply (Hfin (data_feeders d2) (data_turbines DNull))
         | destruct e3; apply (Hfin (data_feeders d2) (data_turbines d3)) ]).
  Local Transparent foldl.
Qed.

(** A local read, by what the store holds and whether the read is
    rejected. *)
Lemma getDayData_run (dk : string) (w : World) :
  exists day w',
    getDayData dk w = (Ok day, w') /\
    store w' = store w /\ net w' = net w /\ now w' = now w /\
    disk w' = tail (disk w) /\
    trace w' = (trace w ++ [GetItem (storageKey dk)])%list /\
    day =
      (if hd false (disk w) then defaultDay dk
       else
         match store w !! storageKey dk with
         | Some (Json j) => spread_day (defaultDay dk) (as_day j)
         | _ => defaultDay dk
         end).
Proof.
  unfold getDayData, try_catch, mbind, M_bind, AsyncStorage.getItem, storage_call.
  destruct (disk w) as [|[|] d]; simpl;
    try (destruct (store w !! storageKey dk) as [[| |j]|]; simpl);
    eexists _, _; (split; [reflexivity|]); repeat split; reflexivity.
Qed.

(** The entries of the record a remote fetch builds. *)
Lemma fetchedDay_feeders (dk : string) fd td (f : string) :
  feeders (fetchedDay dk fd td) !! f
  = if bool_decide (f ∈ FEEDERS) then
      Some {| start := or_str (find_row feeder_name fd f ≫= start_reading) "";
              end_ := or_str (find_row feeder_name fd f ≫= end_reading) "" |}
    else None.
Proof.
  unfold fetchedDay; cbn [feeders].
  apply (lookup_foldl_insert
           (fun f => {| start := or_str (find_row feeder_name fd f ≫= start_reading) "";
                        end_ := or_str (find_row feeder_name fd f ≫= end_reading) "" |})).
Qed.

Lemma fetchedDay_turbines (dk : string) fd td (t : string) :
  turbines (fetchedDay dk fd td) !! t
  = if bool_decide (t ∈ TURBINES) then
      Some {| previous := or_str (find_row turbine_name td t ≫= previous_reading) "";
              present := or_str (find_row turbine_name td t ≫= present_reading) "";
              hours := or_str (find_row turbine_name td t ≫= hours_col) "24" |}
    else None.
Proof.
  unfold fetchedDay; cbn [turbines].
  apply (lookup_foldl_insert
           (fun t => {| previous := or_str (find_row turbine_name td t ≫= previous_reading) "";
                        present := or_str (find_row turbine_name td t ≫= present_reading) "";
                        hours := or_str (find_row turbine_name td t ≫= hours_col) "24" |})).
Qed.

(** The record a remote fetch returns, by the child rows the remote
    answered with. *)
Lemma fetchDayFromSupabase_fetched (userId dk : string) (w : World) (day : DayData) :
  fst (fetchDayFromSupabase userId dk w) = Ok (Some day) ->
  day = fetchedDay dk (data_feeders (reply_data (reply_at 1 w)))
          (data_turbines (reply_data (reply_at 2 w))).
Proof.
  Local Opaque foldl.
  unfold fetchDayFromSupabase, try_catch, mbind, M_bind, supabase, row_id,
    when_error, console_error, emit, throw, mret, M_ret, reply_at.
  destruct (net w) as [|[|d1 [c1|]] n1]; cbn [fst snd]; try discriminate.
  - destruct (String.eqb c1 "PGRST116"); discriminate.
  - destruct (data_day d1) as [row|]; cbn [fst snd]; [|discriminate].
    destruct n1 as [|[|d2 e2] n2]; cbn [fst snd net]; try discriminate.
    + intros [= <-]. reflexivity.
    + destruct e2; cbn [fst snd net];
        (destruct n2 as [|[|d3 e3] n3]; cbn [fst snd net]; try discriminate;
         [ intros [= <-]; reflexivity
         | destruct e3; intros [= <-]; reflexivity ]).
  Local Transparent foldl.
Qed.

Lemma defaultDay_entries (dk : string) :
  dateKey (defaultDay dk) = dk /\
  (forall f, f ∈ FEEDERS ->
     feeders (defaultDay dk) !! f = Some (mkFeeder (Some "") (Some ""))) /\
  (forall t, t ∈ TURBINES ->
     turbines (defaultDay dk) !! t = Some (mkTurbine (Some "") (Some "") (Some "24"))).
Proof.
  split; [reflexivity|]. split.
  - intros f Hf.
    repeat (apply elem_of_cons in Hf as [->|Hf]; [reflexivity|]).
    now apply elem_of_nil in Hf.
  - intros t Ht.
    repeat (apply elem_of_cons in Ht as [->|Ht]; [reflexivity|]).
    now apply elem_of_nil in Ht.
Qed.

Lemma local_read_can_be_partial :
  let w := snd (saveDayData partialDay emptyWorld) in
  fst (getDayData "2026-01-20" w) = Ok partialDay /\ ~ has_all_keys partialDay.
Proof.
  split.
  - vm_compute. reflexivity.
  - intros [Hf _]. specialize (Hf "F3"). destruct Hf as [x Hx].
    + set_solver.
    + vm_compute in Hx. discriminate.
Qed.

(** C10 (as amended).  The default record carries, for each of F2..F5,
    an entry with empty [start] and [end], and for each of A, B, C, S an
    entry with empty [previous] and [present] and [hours] 24.  Every
    record a remote fetch returns carries an entry for each of them as
    well: a field holds the text of the row the remote answered with for
    that name, and the empty text (24 for the hours) when there is no
    such row, when the row lacks the value or when the value is empty.
    A local read returns the default record when the read is rejected or
    finds nothing, an empty text or text that is not JSON; otherwise it
    returns the stored record with a missing [dateKey], [feeders] or
    [turbines] field replaced as a whole by the default one, so it has
    every key whenever the stored maps have. *)
Theorem records_complete_at_key_level :
  (forall dk,
      dateKey (defaultDay dk) = dk /\
      (forall f, f ∈ FEEDERS ->
         feeders (defaultDay dk) !! f = Some (mkFeeder (Some "") (Some ""))) /\
      (forall t, t ∈ TURBINES ->
         turbines (defaultDay dk) !! t
         = Some (mkTurbine (Some "") (Some "") (Some "24"))) /\
      fully_valued (defaultDay dk) /\ has_all_keys (defaultDay dk)) /\
  (forall userId dk w day,
      fst (fetchDayFromSupabase userId dk w) = Ok (Some day) ->
      let feedersData := data_feeders (reply_data (reply_at 1 w)) in
      let turbinesData := data_turbines (reply_data (reply_at 2 w)) in
      dateKey day = dk /\
      (forall f, f ∈ FEEDERS ->
         let found := find_row feeder_name feedersData f in
         feeders day !! f
         = Some (mkFeeder (or_str (found ≫= start_reading) "")
                   (or_str (found ≫= end_reading) ""))) /\
      (forall t, t ∈ TURBINES ->
         let found := find_row turbine_name turbinesData t in
         turbines day !! t
         = Some (mkTurbine (or_str (found ≫= previous_reading) "")
                   (or_str (found ≫= present_reading) "")
                   (or_str (found ≫= hours_col) "24"))) /\
      fully_valued day /\ has_all_keys day) /\
  (forall (v : option string) (d : string),
      or_str v d = match v with
                   | Some s => if isEmpty s then Some d else Some s
                   | None => Some d
                   end) /\
  (forall dk w,
      exists day,
        fst (getDayData dk w) = Ok day /\
        (hd false (disk w) = true -> day = defaultDay dk) /\
        (truthy_raw (store w !! storageKey dk) = false -> day = defaultDay dk) /\
        (store w !! storageKey dk = Some Malformed -> day = defaultDay dk) /\
        (forall j, hd false (disk w) = false ->
                   store w !! storageKey dk = Some (Json j) ->
                   day = spread_day (defaultDay dk) (as_day j))) /\
  (forall dk p,
      (forall m, p_feeders p = Some m -> forall f, f ∈ FEEDERS -> is_Some (m !! f)) ->
      (forall m, p_turbines p = Some m -> forall t, t ∈ TURBINES -> is_Some (m !! t)) ->
      has_all_keys (spread_day (defaultDay dk) p)).
Proof.
  split; [|split; [|split; [|split]]].
  - intros dk. destruct (defaultDay_entries dk) as (Hk & Hf & Ht).
    split; [exact Hk|]. split; [exact Hf|]. split; [exact Ht|].
    split; [|apply fully_valued_has_all_keys]; apply defaultDay_fully_valued.
  - intros userId dk w day Hd feedersData turbinesData.
    pose proof (fetchDayFromSupabase_fully_valued _ _ _ _ Hd) as Hv.
    pose proof (fetchDayFromSupabase_fetched _ _ _ _ Hd) as ->.
    split; [reflexivity|]. split.
    { intros f Hf found. rewrite fetchedDay_feeders.
      now rewrite (bool_decide_eq_true_2 _ Hf). }
    split.
    { intros t Ht found. rewrite fetchedDay_turbines.
      now rewrite (bool_decide_eq_true_2 _ Ht). }
    split; [exact Hv | now apply fully_valued_has_all_keys].
  - intros [s|] d; [|reflexivity]. unfold or_str, truthy_str.
    now destruct (isEmpty s).
  - intros dk w. destruct (getDayData_run dk w) as (day & w' & Hrun & _ & _ & _ & _ & _ & Hday).
    exists day. rewrite Hrun. split; [reflexivity|]. subst day.
    split; [|split; [|split]].
    + now intros ->.
    + intros Hr. destruct (hd false (disk w)); [reflexivity|].
      destruct (store w !! storageKey dk) as [[| |j]|]; try reflexivity. discriminate.
    + intros ->. now destruct (hd false (disk w)).
    + intros j -> ->. reflexivity.
  - intros dk p Hf Ht.
    destruct (fully_valued_has_all_keys _ (defaultDay_fully_valued dk)) as [Df Dt].
    split; simpl.
    + destruct (p_feeders p) as [m|]; simpl; [now apply Hf | exact Df].
    + destruct (p_turbines p) as [m|]; simpl; [now apply Ht | exact Dt].
Qed.

Lemma records_complete_at_key_level_witness :
  let w := mkWorld ∅ [] [Answers (DDay (mkDayRow "day-7" "2026-01-20")) None;
                         Answers (DFeeders [mkFeederRow "F2" (Some "500") None]) None;
                         Answers DNull (Some "57014")]
             "2026-01-21T08:00:00.000Z" [] in
  exists day,
    fst (fetchDayFromSupabase "user-1" "2026-01-20" w) = Ok (Some day) /\
    fully_valued day /\ has_all_keys day /\
    feeders day !! "F2" = Some (mkFeeder (Some "500") (Some "")) /\
    feeders day !! "F3" = Some (mkFeeder (Some "") (Some "")) /\
    turbines day !! "A" = Some (mkTurbine (Some "") (Some "") (Some "24")).
Proof.
  intros w.
  set (day := fetchedDay "2026-01-20" (Some [mkFeederRow "F2" (Some "500") None]) None).
  assert (Hd : fst (fetchDayFromSupabase "user-1" "2026-01-20" w) = Ok (Some day))
    by (vm_compute; reflexivity).
  destruct (proj1 (proj2 records_complete_at_key_level) "user-1" "2026-01-20" w day Hd)
    as (_ & HF & HT & Hv & Hk).
  exists day. split; [exact Hd|]. split; [exact Hv|]. split; [exact Hk|].
  rewrite (HF "F2") by repeat constructor.
  rewrite (HF "F3") by repeat constructor.
  rewrite (HT "A") by repeat constructor.
  repeat split; vm_compute; reflexivity.
Defined.

(** ** Carry-forward linking *)

Lemma linkedFeeder_explicit (prevEnd : option string) (today : option FeederData) :
  truthy_str (today ≫= start) = true -> linkedFeeder prevEnd today = today.
Proof. unfold linkedFeeder. intros ->. now rewrite andb_false_r. Qed.

Lemma linkedTurbine_explicit (prevPresent : option string) (today : option TurbineData) :
  truthy_str (today ≫= previous) = true -> linkedTurbine prevPresent today = today.
Proof. unfold linkedTurbine. intros ->. now rewrite andb_false_r. Qed.

Lemma linkedFeeder_end (prevEnd : option string) (today : option FeederData) :
  linkedFeeder prevEnd today ≫= end_ = today ≫= end_.
Proof. unfold linkedFeeder. now destruct (_ && _). Qed.

Lemma linkedTurbine_rest (prevPresent : option string) (today : option TurbineData) :
  linkedTurbine prevPresent today ≫= present = today ≫= present /\
  linkedTurbine prevPresent today ≫= hours = today ≫= hours.
Proof. unfold linkedTurbine. now destruct (_ && _). Qed.

(** A loop over keys whose round for a key settles that key's entry and
    leaves the other entries alone. *)
Lemma foldl_keyed {V} (step : gmap string V -> string -> gmap string V)
    (L : string -> option V) (cur : gmap string V) :
  (forall acc x f, x <> f -> step acc x !! f = acc !! f) ->
  (forall acc f, acc !! f = cur !! f \/ acc !! f = L f -> step acc f !! f = L f) ->
  forall l acc f,
    acc !! f = cur !! f \/ acc !! f = L f ->
    foldl step acc l !! f = if bool_decide (f ∈ l) then L f else acc !! f.
Proof.
  intros Hother Hown l. induction l as [|x l IH]; intros acc f Hacc; simpl;
    [reflexivity|].
  destruct (decide (x = f)) as [->|Hne].
  - rewrite bool_decide_eq_true_2 by (now left).
    pose proof (Hown acc f Hacc) as Hstep.
    rewrite (IH (step acc f) f (or_intror Hstep)), Hstep.
    now destruct (bool_decide (f ∈ l)).
  - rewrite (IH (step acc x) f) by (rewrite (Hother _ _ _ Hne); exact Hacc).
    rewrite (Hother _ _ _ Hne).
    destruct (decide (f ∈ l)) as [Hin|Hin].
    + rewrite (bool_decide_eq_true_2 _ Hin).
      rewrite bool_decide_eq_true_2 by (now right). reflexivity.
    + rewrite (bool_decide_eq_false_2 _ Hin).
      rewrite bool_decide_eq_false_2; [reflexivity|].
      intros Hk. apply elem_of_cons in Hk as [->|Hk]; tauto.
Qed.

Lemma linkFeeder_other prev cur acc (x f : string) :
  x <> f -> linkFeeder prev cur acc x !! f = acc !! f.
Proof.
  intros Hne. unfold linkFeeder. destruct (_ && _); [|reflexivity].
  now apply lookup_insert_ne.
Qed.

Lemma linkTurbine_other prev cur acc (x t : string) :
  x <> t -> linkTurbine prev cur acc x !! t = acc !! t.
Proof.
  intros Hne. unfold linkTurbine. destruct (_ && _); [|reflexivity].
  now apply lookup_insert_ne.
Qed.

(** The round of the local loop: the guard reads today's record. *)
Lemma linkFeeder_own prev (cur acc : gmap string FeederData) (f : string) :
  acc !! f = cur !! f \/ acc !! f = linkedFeeder (opt_lookup prev f ≫= end_) (cur !! f) ->
  linkFeeder prev cur acc f !! f = linkedFeeder (opt_lookup prev f ≫= end_) (cur !! f).
Proof.
  intros Hacc.
  assert (He : acc !! f ≫= end_ = cur !! f ≫= end_).
  { destruct Hacc as [->| ->]; [reflexivity | apply linkedFeeder_end]. }
  unfold linkFeeder. unfold linkedFeeder at 1.
  destruct (truthy_str (opt_lookup prev f ≫= end_)
            && negb (truthy_str (cur !! f ≫= start))) eqn:E.
  - rewrite lookup_insert_eq, He. reflexivity.
  - destruct Hacc as [->| ->]; [reflexivity|].
    unfold linkedFeeder. now rewrite E.
Qed.

Lemma linkTurbine_own prev (cur acc : gmap string TurbineData) (t : string) :
  acc !! t = cur !! t \/ acc !! t = linkedTurbine (opt_lookup prev t ≫= present) (cur !! t) ->
  linkTurbine prev cur acc t !! t = linkedTurbine (opt_lookup prev t ≫= present) (cur !! t).
Proof.
  intros Hacc.
  assert (He : acc !! t ≫= present = cur !! t ≫= present /\
               acc !! t ≫= hours = cur !! t ≫= hours).
  { destruct Hacc as [->| ->]; [now split | apply linkedTurbine_rest]. }
  destruct He as [He1 He2].
  unfold linkTurbine. unfold linkedTurbine at 1.
  destruct (truthy_str (opt_lookup prev t ≫= present)
            && negb (truthy_str (cur !! t ≫= previous))) eqn:E.
  - rewrite lookup_insert_eq, He1, He2. reflexivity.
  - destruct Hacc as [->| ->]; [reflexivity|].
    unfold linkedTurbine. now rewrite E.
Qed.

(** The round of the cloud loop: the guard reads the record being
    written. *)
Lemma linkFeeder_own_cloud prev (cur acc : gmap string FeederData) (f : string) :
  acc !! f = cur !! f \/ acc !! f = linkedFeeder (opt_lookup prev f ≫= end_) (cur !! f) ->
  linkFeeder prev acc acc f !! f = linkedFeeder (opt_lookup prev f ≫= end_) (cur !! f).
Proof.
  intros [Hacc|Hacc].
  - rewrite <- Hacc. apply linkFeeder_own. now left.
  - unfold linkFeeder. rewrite Hacc. unfold linkedFeeder.
    destruct (truthy_str (opt_lookup prev f ≫= end_)) eqn:Ep; simpl.
    + destruct (truthy_str (cur !! f ≫= start)) eqn:Ec; simpl.
      * rewrite Ec. simpl. rewrite Hacc. unfold linkedFeeder. rewrite Ep, Ec. reflexivity.
      * rewrite Ep. simpl. rewrite Hacc. unfold linkedFeeder. rewrite Ep, Ec. reflexivity.
    + rewrite Hacc. unfold linkedFeeder. rewrite Ep. reflexivity.
Qed.

Lemma linkTurbine_own_cloud prev (cur acc : gmap string TurbineData) (t : string) :
  acc !! t = cur !! t \/ acc !! t = linkedTurbine (opt_lookup prev t ≫= present) (cur !! t) ->
  linkTurbine prev acc acc t !! t = linkedTurbine (opt_lookup prev t ≫= present) (cur !! t).
Proof.
  intros [Hacc|Hacc].
  - rewrite <- Hacc. apply linkTurbine_own. now left.
  - unfold linkTurbine. rewrite Hacc. unfold linkedTurbine.
    destruct (truthy_str (opt_lookup prev t ≫= present)) eqn:Ep; simpl.
    + destruct (truthy_str (cur !! t ≫= previous)) eqn:Ec; simpl.
      * rewrite Ec. simpl. rewrite Hacc. unfold linkedTurbine. rewrite Ep, Ec. reflexivity.
      * rewrite Ep. simpl. rewrite Hacc. unfold linkedTurbine. rewrite Ep, Ec. reflexivity.
    + rewrite Hacc. unfold linkedTurbine. rewrite Ep. reflexivity.
Qed.

Lemma lookup_local_feeders prev (cur : gmap string FeederData) (f : string) :
  foldl (linkFeeder prev cur) cur FEEDERS !! f
    = if bool_decide (f ∈ FEEDERS)
      then linkedFeeder (opt_lookup prev f ≫= end_) (cur !! f) else cur !! f.
Proof.
  apply (foldl_keyed (linkFeeder prev cur)
           (fun f => linkedFeeder (opt_lookup prev f ≫= end_) (cur !! f)) cur).
  - intros. now apply linkFeeder_other.
  - intros. now apply linkFeeder_own.
  - now left.
Qed.

Lemma lookup_local_turbines prev (cur : gmap string TurbineData) (t : string) :
  foldl (linkTurbine prev cur) cur TURBINES !! t
    = if bool_decide (t ∈ TURBINES)
      then linkedTurbine (opt_lookup prev t ≫= present) (cur !! t) else cur !! t.
Proof.
  apply (foldl_keyed (linkTurbine prev cur)
           (fun t => linkedTurbine (opt_lookup prev t ≫= present) (cur !! t)) cur).
  - intros. now apply linkTurbine_other.
  - intros. now apply linkTurbine_own.
  - now left.
Qed.

Lemma lookup_cloud_feeders prev (cur : gmap string FeederData) (f : string) :
  foldl (fun fs f => linkFeeder prev fs fs f) cur FEEDERS !! f
    = if bool_decide (f ∈ FEEDERS)
      then linkedFeeder (opt_lookup prev f ≫= end_) (cur !! f) else cur !! f.
Proof.
  apply (foldl_keyed (fun fs f => linkFeeder prev fs fs f)
           (fun f => linkedFeeder (opt_lookup prev f ≫= end_) (cur !! f)) cur).
  - intros. now apply linkFeeder_other.
  - intros. now apply linkFeeder_own_cloud.
  - now left.
Qed.

Lemma lookup_cloud_turbines prev (cur : gmap string TurbineData) (t : string) :
  foldl (fun ts t => linkTurbine prev ts ts t) cur TURBINES !! t
    = if bool_decide (t ∈ TURBINES)
      then linkedTurbine (opt_lookup prev t ≫= present) (cur !! t) else cur !! t.
Proof.
  apply (foldl_keyed (fun ts t => linkTurbine prev ts ts t)
           (fun t => linkedTurbine (opt_lookup prev t ≫= present) (cur !! t)) cur).
  - intros. now apply linkTurbine_other.
  - intros. now apply linkTurbine_own_cloud.
  - now left.
Qed.

Section LinkingProperties.

Context `{DateEngine}.

(** The local linking in closed form. *)
Lemma getDayDataWithLinkedValues_run (dk : string) (w : World) :
  exists today w1 linked w',
    getDayData dk w = (Ok today, w1) /\
    getDayDataWithLinkedValues dk w = (Ok linked, w') /\
    store w' = store w /\
    linked =
      (if isEmpty (getPreviousDateKey dk) then today
       else if nth 1 (disk w) false then today
       else
         match store w !! storageKey (getPreviousDateKey dk) with
         | Some (Json j) =>
             {| dateKey := dateKey today;
                feeders :=
                  foldl (linkFeeder (p_feeders (as_day j)) (feeders today))
                    (feeders today) FEEDERS;
                turbines :=
                  foldl (linkTurbine (p_turbines (as_day j)) (turbines today))
                    (turbines today) TURBINES |}
         | _ => today
         end).
Proof.
  assert (Hnull : forall today : DayData,
            today =
              {| dateKey := dateKey today;
                 feeders :=
                   foldl (linkFeeder (p_feeders (as_day JNull)) (feeders today))
                     (feeders today) FEEDERS;
                 turbines :=
                   foldl (linkTurbine (p_turbines (as_day JNull)) (turbines today))
                     (turbines today) TURBINES |}).
  { intros [dk0 fs ts]. reflexivity. }
  Local Opaque foldl.
  destruct (getDayData_run dk w) as (today & w1 & Hrun & Hst & _ & _ & Hdisk & _ & _).
  exists today, w1.
  unfold getDayDataWithLinkedValues, mbind, M_bind. rewrite Hrun.
  destruct (isEmpty (getPreviousDateKey dk)).
  { exists today, w1. repeat split; [exact Hst]. }
  unfold try_catch, mbind, M_bind, AsyncStorage.getItem, storage_call.
  rewrite Hdisk, Hst.
  assert (Hhd : nth 1 (disk w) false = hd false (tail (disk w))).
  { destruct (disk w) as [|b0 [|b1 d]]; reflexivity. }
  rewrite Hhd.
  destruct (tail (disk w)) as [|[|] d']; cbn [hd];
    try (destruct (store w !! storageKey (getPreviousDateKey dk)) as [[| |j]|];
         cbn [truthy_raw negb default JSON_parse];
         try destruct j);
    eexists _, _; (split; [reflexivity|]); (split; [reflexivity|]);
    (split; [first [exact Hst | reflexivity] | first [reflexivity | apply Hnull]]).
  Local Transparent foldl.
Qed.

(** The linking rule, for whatever date key the engine gives as the
    previous one.  Linking returns today's record with, for each feeder
    of the fixed set, [start] replaced by the [end] of the record stored
    under that key exactly when today's [start] is empty and that [end]
    is not, and for each turbine [previous] replaced by that record's
    [present] under the same condition; every other field and entry is
    today's.  A value already entered is kept.  The store is left as it
    was.  Without a record under that key, or when the date does not
    parse, the result is today's record.  The linking of cloud records
    in [loadDay] follows the same rule. *)
Lemma linking_rule (dk : string) (w : World) :
  exists today w1 linked w',
    getDayData dk w = (Ok today, w1) /\
    getDayDataWithLinkedValues dk w = (Ok linked, w') /\
    store w' = store w /\
    dateKey linked = dateKey today /\
    (forall f, truthy_str (feeders today !! f ≫= start) = true ->
               feeders linked !! f = feeders today !! f) /\
    (forall t, truthy_str (turbines today !! t ≫= previous) = true ->
               turbines linked !! t = turbines today !! t) /\
    (forall f, f ∉ FEEDERS -> feeders linked !! f = feeders today !! f) /\
    (forall t, t ∉ TURBINES -> turbines linked !! t = turbines today !! t) /\
    (Date_new dk = None -> linked = today) /\
    (store w !! storageKey (getPreviousDateKey dk) = None -> linked = today) /\
    (forall j,
        getPreviousDateKey dk <> "" ->
        nth 1 (disk w) false = false ->
        store w !! storageKey (getPreviousDateKey dk) = Some (Json j) ->
        (forall f, f ∈ FEEDERS ->
           feeders linked !! f
             = linkedFeeder (opt_lookup (p_feeders (as_day j)) f ≫= end_)
                 (feeders today !! f)) /\
        (forall t, t ∈ TURBINES ->
           turbines linked !! t
             = linkedTurbine (opt_lookup (p_turbines (as_day j)) t ≫= present)
                 (turbines today !! t))) /\
    (forall prevCloudData cloudData,
        dateKey (linkCloud prevCloudData cloudData) = dateKey cloudData /\
        (forall f,
           feeders (linkCloud prevCloudData cloudData) !! f
             = if bool_decide (f ∈ FEEDERS)
               then linkedFeeder (feeders prevCloudData !! f ≫= end_)
                      (feeders cloudData !! f)
               else feeders cloudData !! f) /\
        (forall t,
           turbines (linkCloud prevCloudData cloudData) !! t
             = if bool_decide (t ∈ TURBINES)
               then linkedTurbine (turbines prevCloudData !! t ≫= present)
                      (turbines cloudData !! t)
               else turbines cloudData !! t)).
Proof.
  destruct (getDayDataWithLinkedValues_run dk w)
    as (today & w1 & linked & w' & Hrun & Hlink & Hst & Hl).
  exists today, w1, linked, w'.
  split; [exact Hrun|]. split; [exact Hlink|]. split; [exact Hst|].
  assert (Hempty : isEmpty (getPreviousDateKey dk) = true -> getPreviousDateKey dk = "").
  { destruct (getPreviousDateKey dk); [reflexivity | discriminate]. }
  assert (Hparse : Date_new dk = None -> isEmpty (getPreviousDateKey dk) = true).
  { intros Hd. unfold getPreviousDateKey. now rewrite Hd. }
  assert (Hcloud : forall prevCloudData cloudData,
        dateKey (linkCloud prevCloudData cloudData) = dateKey cloudData /\
        (forall f,
           feeders (linkCloud prevCloudData cloudData) !! f
             = if bool_decide (f ∈ FEEDERS)
               then linkedFeeder (feeders prevCloudData !! f ≫= end_)
                      (feeders cloudData !! f)
               else feeders cloudData !! f) /\
        (forall t,
           turbines (linkCloud prevCloudData cloudData) !! t
             = if bool_decide (t ∈ TURBINES)
               then linkedTurbine (turbines prevCloudData !! t ≫= present)
                      (turbines cloudData !! t)
               else turbines cloudData !! t)).
  { intros prevCloudData cloudData. split; [reflexivity|]. split.
    - intros f. unfold linkCloud; cbn [feeders].
      apply (lookup_cloud_feeders (Some (feeders prevCloudData))).
    - intros t. unfold linkCloud; cbn [turbines].
      apply (lookup_cloud_turbines (Some (turbines prevCloudData))). }
  assert (Hsame : linked = today ->
            (forall j,
                getPreviousDateKey dk <> "" ->
                nth 1 (disk w) false = false ->
                store w !! storageKey (getPreviousDateKey dk) = Some (Json j) ->
                False) ->
            dateKey linked = dateKey today /\
            (forall f, truthy_str (feeders today !! f ≫= start) = true ->
                       feeders linked !! f = feeders today !! f) /\
            (forall t, truthy_str (turbines today !! t ≫= previous) = true ->
                       turbines linked !! t = turbines today !! t) /\
            (forall f, f ∉ FEEDERS -> feeders linked !! f = feeders today !! f) /\
            (forall t, t ∉ TURBINES -> turbines linked !! t = turbines today !! t) /\
            (Date_new dk = None -> linked = today) /\
            (store w !! storageKey (getPreviousDateKey dk) = None -> linked = today) /\
            (forall j,
                getPreviousDateKey dk <> "" ->
                nth 1 (disk w) false = false ->
                store w !! storageKey (getPreviousDateKey dk) = Some (Json j) ->
                (forall f, f ∈ FEEDERS ->
                   feeders linked !! f
                     = linkedFeeder (opt_lookup (p_feeders (as_day j)) f ≫= end_)
                         (feeders today !! f)) /\
                (forall t, t ∈ TURBINES ->
                   turbines linked !! t
                     = linkedTurbine (opt_lookup (p_turbines (as_day j)) t ≫= present)
                         (turbines today !! t)))).
  { intros -> Hno. repeat split; try reflexivity; exfalso; eauto. }
  destruct (isEmpty (getPreviousDateKey dk)) eqn:E1.
  { destruct (Hsame Hl) as (?&?&?&?&?&?&?&?);
      [intros j Hp; specialize (Hempty eq_refl); congruence|].
    split_and!; try assumption; exact Hcloud. }
  destruct (nth 1 (disk w) false) eqn:E2.
  { destruct (Hsame Hl) as (?&?&?&?&?&?&?&?); [intros; discriminate|].
    split_and!; try assumption; exact Hcloud. }
  destruct (store w !! storageKey (getPreviousDateKey dk)) as [[| |j]|] eqn:E3.
  1, 2, 4: (destruct (Hsame Hl) as (?&?&?&?&?&?&?&?); [intros; discriminate|];
            split_and!; try assumption; exact Hcloud).
  subst linked. cbn [dateKey feeders turbines].
  split; [reflexivity|]. split.
  { intros f Hs. rewrite lookup_local_feeders.
    destruct (bool_decide (f ∈ FEEDERS)); [|reflexivity].
    now apply linkedFeeder_explicit. }
  split.
  { intros t Hs. rewrite lookup_local_turbines.
    destruct (bool_decide (t ∈ TURBINES)); [|reflexivity].
    now apply linkedTurbine_explicit. }
  split.
  { intros f Hn. rewrite lookup_local_feeders.
    now rewrite (bool_decide_eq_false_2 _ Hn). }
  split.
  { intros t Hn. rewrite lookup_local_turbines.
    now rewrite (bool_decide_eq_false_2 _ Hn). }
  split; [intros Hd; apply Hparse in Hd; discriminate|].
  split; [discriminate|].
  split; [|exact Hcloud].
  intros j' _ _ [= <-]. split.
  - intros f Hin. rewrite lookup_local_feeders.
    now rewrite (bool_decide_eq_true_2 _ Hin).
  - intros t Hin. rewrite lookup_local_turbines.
    now rewrite (bool_decide_eq_true_2 _ Hin).
Qed.

End LinkingProperties.

(** The previous date key is read off the engine's [Date]: the key is
    parsed as midnight UTC, and the day is stepped and read back with
    the local-time accessors.  East of Greenwich and at Greenwich the key
    of 2026-01-20 steps to 2026-01-19; five hours west it steps to
    2026-01-18.  A key that does not parse gives the empty string. *)
Lemma getPreviousDateKey_by_zone :
  @getPreviousDateKey (JsDate.engine 180) "2026-01-20" = "2026-01-19" /\
  @getPreviousDateKey (JsDate.engine 0) "2026-01-20" = "2026-01-19" /\
  @getPreviousDateKey (JsDate.engine (-300)) "2026-01-20" = "2026-01-18" /\
  @getPreviousDateKey (JsDate.engine 180) "2026-03-01" = "2026-02-28" /\
  @getPreviousDateKey (JsDate.engine 180) "2024-03-01" = "2024-02-29" /\
  @getPreviousDateKey (JsDate.engine 180) "2026-01-01" = "2025-12-31" /\
  @getPreviousDateKey (JsDate.engine 180) "20260101" = "".
Proof. repeat split; vm_compute; reflexivity. Qed.

(** ** Export and import *)

Global Instance read_step_preorder : PreOrder read_step.
Proof.
  split; [intros w; unfold read_step; reflexivity
         | intros w1 w2 w3; unfold read_step; congruence].
Qed.

Global Instance quiet_step_preorder : PreOrder quiet_step.
Proof.
  split; [intros w; unfold quiet_step; tauto
         | intros w1 w2 w3; unfold quiet_step; tauto].
Qed.

Lemma quiet_step_storage_call {A} (e : event) (run : gmap string text -> A * gmap string text) :
  steps quiet_step (storage_call e run).
Proof.
  unfold steps, quiet_step. intros w Hd. unfold storage_call. rewrite Hd.
  now destruct (run (store w)).
Qed.

Lemma quiet_step_emit (e : event) : steps quiet_step (emit e).
Proof. unfold steps, quiet_step. intros w Hd. exact Hd. Qed.

Lemma read_step_emit (e : event) : steps read_step (emit e).
Proof. intros w. reflexivity. Qed.

Lemma read_step_getItem (key : string) : steps read_step (AsyncStorage.getItem key).
Proof.
  intros w. unfold read_step, AsyncStorage.getItem, storage_call.
  destruct (disk w) as [|[|] d]; reflexivity.
Qed.

Ltac quiet_leaf :=
  first [ apply quiet_step_storage_call | apply quiet_step_emit ].

Ltac read_leaf :=
  first [ apply read_step_getItem | apply read_step_emit ].

Ltac settings_leaf :=
  first [ apply write_step_getItem
        | apply write_step_setItem; reflexivity
        | apply write_step_emit ].

Lemma quiet_step_upsertDayIndex (dk : string) : steps quiet_step (upsertDayIndex dk).
Proof.
  unfold upsertDayIndex, getDayIndex, AsyncStorage.getItem, AsyncStorage.setItem.
  steps_by quiet_leaf.
Qed.

Lemma read_step_getSettings : steps read_step getSettings.
Proof. unfold getSettings. steps_by read_leaf. Qed.

Lemma quiet_step_getSettings : steps quiet_step getSettings.
Proof. unfold getSettings, AsyncStorage.getItem. steps_by quiet_leaf. Qed.

Lemma no_throw_getSettings : no_throw getSettings.
Proof. apply no_throw_try_catch. intros e. apply no_throw_ret. Qed.

Lemma settings_only_getSettings :
  steps (write_step (fun k => k = SETTINGS_KEY)) getSettings.
Proof. unfold getSettings. steps_by settings_leaf. Qed.

(** Reading with no call rejected. *)
Lemma getDayData_quiet (dk : string) (w : World) :
  disk w = [] ->
  exists w',
    getDayData dk w = (Ok (read_day (store w) dk), w') /\
    store w' = store w /\ disk w' = [] /\ net w' = net w /\ now w' = now w.
Proof.
  intros Hd.
  destruct (getDayData_run dk w) as (day & w' & Hrun & Hst & Hn & Ho & Hdk & _ & Hday).
  exists w'. rewrite Hrun, Hday, Hd. unfold read_day. repeat split; try assumption.
  now rewrite Hdk, Hd.
Qed.

Lemma getDays_quiet (index : list string) (w : World) :
  disk w = [] ->
  exists w',
    getDays index w = (Ok (read_day (store w) <$> index), w') /\
    store w' = store w /\ disk w' = [] /\ net w' = net w /\ now w' = now w.
Proof.
  revert w. induction index as [|dk index IH]; intros w Hd.
  - exists w. repeat split; assumption.
  - destruct (getDayData_quiet dk w Hd) as (w1 & Hrun & Hst & Hd1 & Hn1 & Ho1).
    destruct (IH w1 Hd1) as (w2 & Hrest & Hst2 & Hd2 & Hn2 & Ho2).
    exists w2. simpl. unfold mbind, M_bind. rewrite Hrun, Hrest, Hst.
    repeat split; try congruence.
Qed.

Lemma getAllDaysData_quiet (w : World) :
  disk w = [] ->
  exists w',
    getAllDaysData w = (Ok (read_day (store w) <$> index_of (store w)), w') /\
    store w' = store w /\ disk w' = [] /\ net w' = net w /\ now w' = now w.
Proof.
  intros Hd.
  set (w0 := mkWorld (store w) [] (net w) (now w) (trace w ++ [GetItem listKey])).
  assert (Hget : AsyncStorage.getItem listKey w = (Ok (store w !! listKey), w0)).
  { unfold AsyncStorage.getItem, storage_call. now rewrite Hd. }
  unfold getAllDaysData, getDayIndex, try_catch, mbind, M_bind. rewrite Hget.
  unfold index_of.
  destruct (store w !! listKey) as [[| |[p|arr|s|b|]]|]; simpl;
    try (exists w0; repeat split; reflexivity).
  destruct (getDays_quiet arr w0 eq_refl) as (w1 & Hrun & Hst & Hd1 & Hn1 & Ho1).
  exists w1. rewrite Hrun. repeat split; assumption.
Qed.

Lemma exportAllData_quiet (w : World) :
  disk w = [] ->
  exists settings w',
    exportAllData w =
      (Ok (Json (JBundle (mkBundle (Some (read_day (store w) <$> index_of (store w)))
                            (Some settings) (Some (now w))))), w') /\
    store w' = store w /\ disk w' = [].
Proof.
  intros Hd.
  destruct (getAllDaysData_quiet w Hd) as (w1 & Hdays & Hst1 & Hd1 & _ & Ho1).
  destruct (no_throw_getSettings w1) as [st Hs].
  pose proof (read_step_getSettings w1) as Hst2.
  pose proof (quiet_step_getSettings w1 Hd1) as Hd2.
  destruct (getSettings w1) as [r w2] eqn:Hg. simpl in *. subst r.
  exists (to_partial_settings st), w2.
  unfold exportAllData, try_catch, mbind, M_bind. rewrite Hdays, Hg.
  unfold toISOString_now. simpl.
  assert (Hnow : now w2 = now w).
  { rewrite <- Ho1. clear -Hg.
    revert Hg. unfold getSettings, try_catch, mbind, M_bind, AsyncStorage.getItem,
      storage_call.
    destruct (disk w1) as [|[|] d]; simpl;
      try (destruct (store w1 !! SETTINGS_KEY) as [[| |j]|]; simpl);
      intros [= _ <-]; reflexivity. }
  rewrite Hnow. repeat split; [unfold read_step in Hst2; congruence | exact Hd2].
Qed.

Lemma quiet_step_saveDayData (day : DayData) : steps quiet_step (saveDayData day).
Proof.
  unfold saveDayData, upsertDayIndex, getDayIndex, AsyncStorage.getItem,
    AsyncStorage.setItem.
  steps_by quiet_leaf.
Qed.

Lemma saveDayData_quiet (day : DayData) (w : World) :
  disk w = [] ->
  exists w',
    saveDayData day w = (Ok tt, w') /\
    disk w' = [] /\
    store w' !! storageKey (dateKey day) = Some (stringify_day day) /\
    (forall k, k <> storageKey (dateKey day) -> k <> listKey ->
               store w' !! k = store w !! k).
Proof.
  intros Hd.
  assert (Hhd : hd false (disk w) = false) by now rewrite Hd.
  destruct (saveDayData_committed day w Hhd) as (w1 & tl & Hs & Hk & Hother & _).
  pose proof (quiet_step_saveDayData day w Hd) as Hq. rewrite Hs in Hq.
  exists w1. repeat split; assumption.
Qed.

(** Importing a list of days: a date none of them carries keeps its
    slot; a date some of them carry ends with the last such record. *)
Lemma saveDays_other (days : list DayData) (w : World) (dk : string) :
  disk w = [] ->
  Forall (fun d => dateKey d <> dk) days ->
  exists w',
    saveDays days w = (Ok tt, w') /\ disk w' = [] /\
    store w' !! storageKey dk = store w !! storageKey dk /\
    store w' !! SETTINGS_KEY = store w !! SETTINGS_KEY.
Proof.
  revert w. induction days as [|d days IH]; intros w Hd Hall.
  - exists w. repeat split; assumption.
  - apply Forall_cons in Hall as [Hne Hall].
    destruct (saveDayData_quiet d w Hd) as (w1 & Hs & Hd1 & _ & Hother).
    destruct (IH w1 Hd1 Hall) as (w2 & Hrest & Hd2 & Hk & Hset).
    exists w2. simpl. unfold mbind, M_bind. rewrite Hs, Hrest.
    repeat split; [assumption| |].
    + rewrite Hk. apply Hother; [|apply storageKey_ne_listKey].
      intros E. apply storageKey_inj in E. congruence.
    + rewrite Hset. apply Hother.
      * intros E. symmetry in E. now apply storageKey_ne_settings in E.
      * intros E. symmetry in E. now apply listKey_ne_settings in E.
Qed.

Lemma saveDays_quiet (days : list DayData) (w : World) (dk : string) (d : DayData) :
  disk w = [] ->
  (forall d', d' ∈ days -> dateKey d' = dk -> d' = d) ->
  Exists (fun d' => dateKey d' = dk) days ->
  exists w',
    saveDays days w = (Ok tt, w') /\ disk w' = [] /\
    store w' !! storageKey dk = Some (stringify_day d).
Proof.
  revert w. induction days as [|d0 days IH]; intros w Hd Hsame Hex.
  - now apply Exists_nil in Hex.
  - destruct (saveDayData_quiet d0 w Hd) as (w1 & Hs & Hd1 & Hk & Hother).
    simpl. unfold mbind, M_bind. rewrite Hs.
    destruct (decide (Exists (fun d' => dateKey d' = dk) days)) as [Hin|Hout].
    + destruct (IH w1 Hd1) as (w2 & Hrest & Hd2 & Hk2); [|exact Hin|].
      * intros d' Hd' E. apply Hsame; [now right | exact E].
      * exists w2. rewrite Hrest. repeat split; assumption.
    + apply Exists_cons in Hex as [E|Hex]; [|tauto].
      apply not_Exists_Forall in Hout; [|intros x; apply _].
      destruct (saveDays_other days w1 dk Hd1) as (w2 & Hrest & Hd2 & Hk2 & _).
      { eapply Forall_impl; [exact Hout|]. simpl. tauto. }
      exists w2. rewrite Hrest. repeat split; [assumption|].
      rewrite Hk2. rewrite <- (Hsame d0); [|now left | exact E].
      rewrite <- E. exact Hk.
Qed.

Lemma quiet_step_saveSettings (ps : PartialSettings) : steps quiet_step (saveSettings ps).
Proof.
  unfold saveSettings, getSettings, AsyncStorage.getItem, AsyncStorage.setItem.
  steps_by quiet_leaf.
Qed.

Lemma settings_only_saveSettings (ps : PartialSettings) :
  steps (write_step (fun k => k = SETTINGS_KEY)) (saveSettings ps).
Proof. unfold saveSettings, getSettings. steps_by settings_leaf. Qed.

Lemma saveSettings_quiet (ps : PartialSettings) (w : World) :
  disk w = [] -> exists u, fst (saveSettings ps w) = Ok u.
Proof.
  intros Hd.
  destruct (no_throw_getSettings w) as [st Hs].
  pose proof (quiet_step_getSettings w Hd) as Hq.
  unfold saveSettings, try_catch, mbind, M_bind.
  destruct (getSettings w) as [r w1]. simpl in *. subst r.
  unfold AsyncStorage.setItem, storage_call. rewrite Hq. simpl. eauto.
Qed.

Lemma spread_day_full (dk : string) (d : DayData) :
  spread_day (defaultDay dk) (as_day (JDay (mkPartialDay (Some (dateKey d))
                                              (Some (feeders d)) (Some (turbines d)))))
    = d.
Proof. now destruct d. Qed.

Lemma read_day_dateKey (st : gmap string text) (dk : string) :
  keyed_store st -> dateKey (read_day st dk) = dk.
Proof.
  intros Hk. unfold read_day.
  destruct (st !! storageKey dk) as [[| |[p|arr|s|b|]]|] eqn:E; try reflexivity.
  simpl. destruct (Hk dk p E) as [-> | ->]; reflexivity.
Qed.

(** C8. With a store in which every record sits under the key of its
    own date and no storage call rejected, exporting and importing the
    exported text into an empty store succeeds, and for every date of the
    index the imported store holds exactly the record the export read
    for it; reading that date gives the same record before and after.  A
    record that was stored whole is stored again as the same text. *)
Theorem export_import_round_trip (w w0 : World) :
  disk w = [] ->
  keyed_store (store w) ->
  store w0 = ∅ ->
  disk w0 = [] ->
  exists bundle w1 w2,
    exportAllData w = (Ok bundle, w1) /\
    importData bundle w0 = (Ok true, w2) /\
    forall dk, dk ∈ index_of (store w) ->
      store w2 !! storageKey dk = Some (stringify_day (read_day (store w) dk)) /\
      fst (getDayData dk w2) = fst (getDayData dk w) /\
      fst (getDayData dk w) = Ok (read_day (store w) dk) /\
      (forall d, store w !! storageKey dk = Some (stringify_day d) ->
                 store w2 !! storageKey dk = Some (stringify_day d)).
Proof.
  intros Hd Hkeyed Hst0 Hd0.
  destruct (exportAllData_quiet w Hd) as (settings & w1 & Hexp & _ & _).
  set (days := read_day (store w) <$> index_of (store w)) in *.
  (* the days are saved one by one *)
  assert (Hdays : exists wa, saveDays days w0 = (Ok tt, wa) /\ disk wa = [] /\
            forall dk, dk ∈ index_of (store w) ->
              store wa !! storageKey dk = Some (stringify_day (read_day (store w) dk))).
  { assert (Htot : forall l v, disk v = [] ->
              exists v', saveDays l v = (Ok tt, v') /\ disk v' = []).
    { induction l as [|d l IH]; intros v Hv; [now exists v|].
      destruct (saveDayData_quiet d v Hv) as (v1 & Hs & Hv1 & _).
      destruct (IH v1 Hv1) as (v2 & Hr & Hv2).
      exists v2. simpl. unfold mbind, M_bind. now rewrite Hs, Hr. }
    destruct (Htot days w0 Hd0) as (wa & Hrun & Hda).
    exists wa. split; [exact Hrun|]. split; [exact Hda|].
    intros dk Hin.
    destruct (saveDays_quiet days w0 dk (read_day (store w) dk) Hd0)
      as (wa' & Hrun' & _ & Hk).
    - intros d' Hd' E. unfold days in Hd'.
      apply list_elem_of_fmap in Hd' as (k' & -> & Hk').
      rewrite (read_day_dateKey _ _ Hkeyed) in E. now subst k'.
    - apply Exists_exists. exists (read_day (store w) dk). split.
      + unfold days. apply list_elem_of_In, in_map, list_elem_of_In, Hin.
      + now apply read_day_dateKey.
    - rewrite Hrun in Hrun'. injection Hrun' as <-. exact Hk. }
  destruct Hdays as (wa & Hsave & Hda & Hka).
  (* then the settings *)
  destruct (saveSettings_quiet settings wa Hda) as [u Hu].
  pose proof (settings_only_saveSettings settings wa) as Hw.
  pose proof (quiet_step_saveSettings settings wa Hda) as Hq.
  destruct (saveSettings settings wa) as [r w2] eqn:Hss. simpl in *. subst r.
  exists (Json (JBundle (mkBundle (Some days) (Some settings) (Some (now w))))), w1, w2.
  split; [exact Hexp|]. split.
  { unfold importData, try_catch, mbind, M_bind. simpl.
    unfold mbind, M_bind. rewrite Hsave, Hss. reflexivity. }
  intros dk Hin.
  assert (Hstored : store w2 !! storageKey dk
                    = Some (stringify_day (read_day (store w) dk))).
  { rewrite (Hw (storageKey dk) (storageKey_ne_settings dk)). now apply Hka. }
  destruct (getDayData_quiet dk w Hd) as (wb & Hrb & _).
  destruct (getDayData_quiet dk w2 Hq) as (wc & Hrc & _).
  split; [exact Hstored|]. split; [|split].
  - rewrite Hrb, Hrc. simpl. f_equal.
    unfold read_day at 1. rewrite Hstored. unfold stringify_day.
    rewrite spread_day_full. reflexivity.
  - now rewrite Hrb.
  - intros d Hs. rewrite Hstored. do 2 f_equal.
    unfold read_day. rewrite Hs. unfold stringify_day. apply spread_day_full.
Qed.

Lemma keyed_store_saveDayData (day : DayData) (w : World) :
  keyed_store (store w) -> keyed_store (store (snd (saveDayData day w))).
Proof.
  intros Hk.
  destruct (hd false (disk w)) eqn:Hd.
  - destruct (disk w) as [|[|] d] eqn:E; try discriminate.
    now rewrite (saveDayData_rejected day w d E).
  - destruct (saveDayData_committed day w Hd) as (w1 & tl & Hs & Hkey & Hother & _).
    rewrite Hs. simpl. intros dk p Hp.
    destruct (decide (dk = dateKey day)) as [->|Hne].
    + rewrite Hkey in Hp. injection Hp as <-. now left.
    + rewrite Hother in Hp; [now apply Hk| |apply storageKey_ne_listKey].
      intros E. now apply storageKey_inj in E.
Qed.

Lemma export_import_round_trip_witness :
  disk twoDaysWorld = [] /\
  keyed_store (store twoDaysWorld) /\
  "2026-01-19" ∈ index_of (store twoDaysWorld) /\
  exists bundle w1 w2,
    exportAllData twoDaysWorld = (Ok bundle, w1) /\
    importData bundle emptyWorld = (Ok true, w2) /\
    store w2 !! storageKey "2026-01-19" = Some (stringify_day yesterdayDay).
Proof.
  assert (Hk : keyed_store (store twoDaysWorld)).
  { apply keyed_store_saveDayData, keyed_store_saveDayData. intros dk d Hd.
    simpl in Hd. now rewrite lookup_empty in Hd. }
  assert (Hin : "2026-01-19" ∈ index_of (store twoDaysWorld)).
  { vm_compute. apply list_elem_of_here. }
  split; [reflexivity|]. split; [exact Hk|]. split; [exact Hin|].
  destruct (export_import_round_trip twoDaysWorld emptyWorld eq_refl Hk eq_refl eq_refl)
    as (bundle & w1 & w2 & Hexp & Himp & Hall).
  exists bundle, w1, w2. split; [exact Hexp|]. split; [exact Himp|].
  destruct (Hall "2026-01-19" Hin) as (_ & _ & _ & Hsame).
  apply Hsame. vm_compute. reflexivity.
Defined.

(** ** Monthly sheet *)

Lemma sumf_snoc (l : list number) (x : number) : sumf (l ++ [x]) = (sumf l + x)%float.
Proof. unfold sumf. now rewrite foldl_snoc. Qed.

Lemma Map_get_set {V} (m : list (string * V)) (k k' : string) (v : V) :
  Map_get (Map_set m k v) k' = if String.eqb k k' then Some v else Map_get m k'.
Proof.
  induction m as [|[k0 v0] m IH]; simpl.
  - now destruct (String.eqb k k').
  - destruct (String.eqb k0 k) eqn:E0; simpl.
    + apply String.eqb_eq in E0. subst k0.
      now destruct (String.eqb k k').
    + rewrite IH.
      destruct (String.eqb k0 k') eqn:E1; [|reflexivity].
      destruct (String.eqb k k') eqn:E2; [|reflexivity].
      apply String.eqb_eq in E1, E2. subst. now rewrite String.eqb_refl in E0.
Qed.





Lemma elem_of_slice_last {A} (n : nat) (l : list A) (x : A) :
  x ∈ slice_last n l -> x ∈ l.
Proof.
  unfold slice_last. generalize (List.length l - n)%nat. intros k. revert l.
  induction k as [|k IH]; intros [|y l]; simpl; auto.
  - intros Hx. right. now apply IH.
Qed.

Lemma elem_of_insert_by {A} (cmp : A -> A -> number) (x y : A) (l : list A) :
  y ∈ insert_by cmp x l -> y = x \/ y ∈ l.
Proof.
  induction l as [|z l IH]; simpl.
  - intros Hy. apply list_elem_of_singleton in Hy. now left.
  - destruct (lt (cmp x z) 0).
    + intros Hy. apply elem_of_cons in Hy as [->|Hy]; [now left | now right].
    + intros Hy. apply elem_of_cons in Hy as [->|Hy].
      * right. now left.
      * destruct (IH Hy) as [->|Hl]; [now left | right; now right].
Qed.

Lemma elem_of_sort_by {A} (cmp : A -> A -> number) (l : list A) (y : A) :
  y ∈ sort_by cmp l -> y ∈ l.
Proof.
  unfold sort_by.
  assert (Hgen : forall acc, y ∈ foldl (fun acc x => insert_by cmp x acc) acc l ->
                             y ∈ acc \/ y ∈ l).
  { induction l as [|x l IH]; intros acc; simpl; [now left|].
    intros Hy. destruct (IH _ Hy) as [Ha|Hl].
    - destruct (elem_of_insert_by _ _ _ _ Ha) as [->|Ha']; [right; now left | now left].
    - right. now right. }
  intros Hy. destruct (Hgen [] Hy) as [Hn|Hl]; [now apply elem_of_nil in Hn | exact Hl].
Qed.

Lemma Map_set_keys_in {V} (m : list (string * V)) (k : string) (v : V) :
  k ∈ (fst <$> m) -> fst <$> Map_set m k v = fst <$> m.
Proof.
  induction m as [|[k0 v0] m IH]; intros Hin.
  - now apply elem_of_nil in Hin.
  - cbn [Map_set]. destruct (String.eqb k0 k) eqn:E0; [reflexivity|].
    apply String.eqb_neq in E0. cbn. f_equal. apply IH.
    cbn in Hin. apply elem_of_cons in Hin as [->|Hin]; [congruence | exact Hin].
Qed.

Lemma Map_set_keys_out {V} (m : list (string * V)) (k : string) (v : V) :
  k ∉ (fst <$> m) -> fst <$> Map_set m k v = ((fst <$> m) ++ [k])%list.
Proof.
  induction m as [|[k0 v0] m IH]; intros Hout; [reflexivity|].
  cbn [Map_set]. cbn in Hout. apply not_elem_of_cons in Hout as [Hne Hout].
  destruct (String.eqb k0 k) eqn:E0.
  - apply String.eqb_eq in E0. congruence.
  - cbn. f_equal. now apply IH.
Qed.

Lemma Map_set_NoDup {V} (m : list (string * V)) (k : string) (v : V) :
  NoDup (fst <$> m) -> NoDup (fst <$> Map_set m k v).
Proof.
  intros Hnd.
  destruct (decide (k ∈ (fst <$> m))) as [Hin|Hin].
  - now rewrite (Map_set_keys_in _ _ _ Hin).
  - rewrite (Map_set_keys_out _ _ _ Hin).
    apply NoDup_app. split; [exact Hnd|]. split.
    + intros x Hx Hk. apply list_elem_of_singleton in Hk. now subst.
    + apply NoDup_singleton.
Qed.


Lemma Map_get_of_elem {V} (m : list (string * V)) (k : string) (v : V) :
  NoDup (fst <$> m) -> (k, v) ∈ m -> Map_get m k = Some v.
Proof.
  induction m as [|[k0 v0] m IH]; intros Hnd Hin.
  - now apply elem_of_nil in Hin.
  - simpl in *. apply NoDup_cons in Hnd as [Hk0 Hnd].
    apply elem_of_cons in Hin as [[= -> ->]|Hin].
    + now rewrite String.eqb_refl.
    + destruct (String.eqb k0 k) eqn:E; [|now apply IH].
      apply String.eqb_eq in E. subst k0. exfalso. apply Hk0.
      apply list_elem_of_fmap. exists (k, v). split; [reflexivity | exact Hin].
Qed.







(** * Further properties *)

(** A save followed by a read. *)
(** X1. A day that was saved is read back as it was saved: once the
    write of the record is accepted, every later read of that date that is
    not rejected, over a store that still holds the record, returns the
    saved day; a rejected read returns the default day instead, without
    an error. *)
Theorem saveDayData_then_getDayData (day : DayData) (w : World) :
  hd false (disk w) = false ->
  exists w1,
    saveDayData day w = (Ok tt, w1) /\
    forall w2,
      store w2 !! storageKey (dateKey day) = store w1 !! storageKey (dateKey day) ->
      (hd false (disk w2) = false -> fst (getDayData (dateKey day) w2) = Ok day) /\
      (hd false (disk w2) = true ->
       fst (getDayData (dateKey day) w2) = Ok (defaultDay (dateKey day))).
Proof.
  intros Hd.
  destruct (saveDayData_committed day w Hd) as (w1 & tl & Hsave & Hrec & _).
  exists w1. split; [exact Hsave|].
  intros w2 Hst.
  destruct (getDayData_run (dateKey day) w2)
    as (d & w3 & Hrun & _ & _ & _ & _ & _ & Hday).
  rewrite Hrun; simpl. rewrite Hst, Hrec in Hday.
  split; intros Hh; rewrite Hh in Hday; subst d; [|reflexivity].
  destruct day; reflexivity.
Qed.

Lemma saveDayData_then_getDayData_witness :
  hd false (disk emptyWorld) = false /\
  exists w1,
    saveDayData scenarioDay emptyWorld = (Ok tt, w1) /\
    forall w2,
      store w2 !! storageKey "2026-01-20" = store w1 !! storageKey "2026-01-20" ->
      disk w2 = [] ->
      fst (getDayData "2026-01-20" w2) = Ok scenarioDay.
Proof.
  split; [reflexivity|].
  destruct (saveDayData_then_getDayData scenarioDay emptyWorld eq_refl)
    as (w1 & Hsave & Hread).
  exists w1. split; [exact Hsave|].
  intros w2 Hst Hd. apply (Hread w2 Hst). now rewrite Hd.
Defined.

Lemma ltb_asym (a b : string) : String.ltb a b = true -> String.ltb b a = false.
Proof.
  unfold String.ltb. rewrite (String.compare_antisym a b).
  destruct (String.compare b a); simpl; congruence.
Qed.

Lemma insert_sorted_perm (x : string) (l : list string) : insert_sorted x l ≡ₚ x :: l.
Proof.
  induction l as [|y l IH]; simpl; [reflexivity|].
  destruct (String.ltb x y); [reflexivity|].
  rewrite IH. apply Permutation_swap.
Qed.

Lemma insert_sorted_in_order (x : string) (l : list string) :
  in_order l -> in_order (insert_sorted x l).
Proof.
  induction l as [|y l IH]; [intros _; exact I|].
  intros Hl. cbn [insert_sorted]. destruct (String.ltb x y) eqn:E.
  - split; [now apply ltb_asym | exact Hl].
  - destruct l as [|z l]; [split; [exact E | exact I]|].
    destruct Hl as [Hzy Hl]. specialize (IH Hl). cbn [insert_sorted] in *.
    destruct (String.ltb x z) eqn:E2.
    + split; [exact E|]. exact IH.
    + split; [exact Hzy | exact IH].
Qed.

Lemma sort_default_acc (l acc : list string) :
  foldl (fun acc x => insert_sorted x acc) acc l ≡ₚ (acc ++ l)%list /\
  (in_order acc -> in_order (foldl (fun acc x => insert_sorted x acc) acc l)).
Proof.
  revert acc. induction l as [|x l IH]; intros acc; simpl.
  - now rewrite app_nil_r.
  - destruct (IH (insert_sorted x acc)) as [Hp Hs]. split.
    + rewrite Hp, insert_sorted_perm. simpl. apply Permutation_middle.
    + intros Ha. apply Hs. now apply insert_sorted_in_order.
Qed.

Lemma sort_default_perm (l : list string) : sort_default l ≡ₚ l.
Proof. apply (sort_default_acc l []). Qed.

Lemma sort_default_in_order (l : list string) : in_order (sort_default l).
Proof. apply (sort_default_acc l []). exact I. Qed.

Lemma upsertDayIndex_run (dk : string) (w : World) :
  disk w = [] -> index_ok (store w) ->
  exists w',
    upsertDayIndex dk w = (Ok tt, w') /\ disk w' = [] /\
    store w' =
      if bool_decide (dk ∈ index_of (store w)) then store w
      else <[listKey := stringify_index (sort_default (index_of (store w) ++ [dk]))]>
             (store w).
Proof.
  intros Hd Hok.
  unfold upsertDayIndex, getDayIndex, try_catch, mbind, M_bind,
    AsyncStorage.getItem, AsyncStorage.setItem, storage_call, index_of, includes.
  rewrite Hd. cbn [tail].
  destruct (store w !! listKey) as [[| |j]|] eqn:E; cbn.
  1, 2, 4: (eexists; split; [reflexivity|]; split; reflexivity).
  destruct (Hok j E) as [arr ->]. cbn.
  destruct (bool_decide (dk ∈ arr)); cbn;
    (eexists; split; [reflexivity|]; split; reflexivity).
Qed.

Lemma index_of_insert_day (st : gmap string text) (dk : string) (v : text) :
  index_of (<[storageKey dk := v]> st) = index_of st.
Proof.
  unfold index_of. rewrite lookup_insert_ne; [reflexivity|apply storageKey_ne_listKey].
Qed.

Lemma index_ok_insert_day (st : gmap string text) (dk : string) (v : text) :
  index_ok st -> index_ok (<[storageKey dk := v]> st).
Proof.
  intros H j. rewrite lookup_insert_ne; [apply H|apply storageKey_ne_listKey].
Qed.

Lemma saveDayData_run (day : DayData) (w : World) :
  disk w = [] -> index_ok (store w) ->
  exists w',
    saveDayData day w = (Ok tt, w') /\ disk w' = [] /\
    store w' =
      let st := <[storageKey (dateKey day) := stringify_day day]> (store w) in
      if bool_decide (dateKey day ∈ index_of (store w)) then st
      else <[listKey := stringify_index
                          (sort_default (index_of (store w) ++ [dateKey day]))]> st.
Proof.
  intros Hd Hok.
  set (st := <[storageKey (dateKey day) := stringify_day day]> (store w)).
  set (w0 := mkWorld st [] (net w) (now w)
               (trace w ++ [SetItem (storageKey (dateKey day)) (stringify_day day)])).
  destruct (upsertDayIndex_run (dateKey day) w0 eq_refl) as (w' & Hup & Hd' & Hst).
  { now apply index_ok_insert_day. }
  exists w'. split; [|split; [exact Hd'|]].
  - unfold saveDayData, try_catch, mbind, M_bind, AsyncStorage.setItem, storage_call.
    rewrite Hd. cbn [tail]. fold st. fold w0. now rewrite Hup.
  - rewrite Hst. cbn [store w0]. cbn zeta. fold st.
    assert (Hi : index_of st = index_of (store w)) by apply index_of_insert_day.
    now rewrite Hi.
Qed.

(** X2. With no storage call rejected and a readable index, saving a
    day lists its date in the index: the index after the save holds the
    date and what it held before, a date already listed leaves the index
    as it was, a new date is added and the index is then sorted by
    character codes; an index without duplicates stays without, a sorted
    index stays sorted, and saving the same day again changes nothing in
    the store. *)
Theorem saveDayData_maintains_index (day : DayData) (w : World) :
  disk w = [] -> index_ok (store w) ->
  exists w',
    saveDayData day w = (Ok tt, w') /\
    index_ok (store w') /\
    (forall k, k ∈ index_of (store w') <-> k = dateKey day \/ k ∈ index_of (store w)) /\
    (dateKey day ∈ index_of (store w) -> index_of (store w') = index_of (store w)) /\
    (dateKey day ∉ index_of (store w) ->
     index_of (store w') ≡ₚ dateKey day :: index_of (store w) /\
     in_order (index_of (store w'))) /\
    (NoDup (index_of (store w)) -> NoDup (index_of (store w'))) /\
    (in_order (index_of (store w)) -> in_order (index_of (store w'))) /\
    (exists w'', saveDayData day w' = (Ok tt, w'') /\ store w'' = store w').
Proof.
  intros Hd Hok.
  destruct (saveDayData_run day w Hd Hok) as (w' & Hsave & Hd' & Hst).
  cbn zeta in Hst.
  set (idx := index_of (store w)) in *.
  assert (Hidx : index_of (store w') =
                 if bool_decide (dateKey day ∈ idx) then idx
                 else sort_default (idx ++ [dateKey day])).
  { rewrite Hst. destruct (bool_decide (dateKey day ∈ idx)).
    - apply index_of_insert_day.
    - unfold index_of at 1. now rewrite lookup_insert_eq. }
  assert (Hok' : index_ok (store w')).
  { rewrite Hst. destruct (bool_decide (dateKey day ∈ idx)).
    - now apply index_ok_insert_day.
    - intros j. rewrite lookup_insert_eq. intros [= <-]. eauto. }
  exists w'. split; [exact Hsave|]. split; [exact Hok'|].
  rewrite Hidx.
  destruct (bool_decide (dateKey day ∈ idx)) eqn:E.
  - apply bool_decide_eq_true in E.
    split; [intros k; split; [now right | now intros [->|]]|].
    split; [reflexivity|]. split; [tauto|]. split; [tauto|]. split; [tauto|].
    destruct (saveDayData_run day w' Hd' Hok') as (w'' & Hsave' & _ & Hst').
    exists w''. split; [exact Hsave'|]. rewrite Hst'. cbn zeta.
    rewrite Hidx, (bool_decide_eq_true_2 _ E), Hst. apply insert_insert_eq.
  - apply bool_decide_eq_false in E.
    assert (Hp : sort_default (idx ++ [dateKey day]) ≡ₚ dateKey day :: idx).
    { rewrite sort_default_perm. symmetry. apply Permutation_cons_append. }
    split; [intros k; rewrite Hp; apply elem_of_cons|].
    split; [tauto|].
    split; [intros _; split; [exact Hp | apply sort_default_in_order]|].
    split; [intros Hn; rewrite Hp; now constructor|].
    split; [intros _; apply sort_default_in_order|].
    destruct (saveDayData_run day w' Hd' Hok') as (w'' & Hsave' & _ & Hst').
    exists w''. split; [exact Hsave'|]. rewrite Hst'. cbn zeta.
    assert (Hin : dateKey day ∈ index_of (store w')).
    { rewrite Hidx, Hp. left. }
    rewrite (bool_decide_eq_true_2 _ Hin), Hst.
    apply map_eq. intros k.
    destruct (decide (k = storageKey (dateKey day))) as [->|Hk].
    + rewrite lookup_insert_eq.
      rewrite lookup_insert_ne by (apply not_eq_sym, storageKey_ne_listKey).
      now rewrite lookup_insert_eq.
    + now rewrite lookup_insert_ne by congruence.
Qed.

Lemma saveDayData_maintains_index_witness :
  disk twoDaysWorld = [] /\ index_ok (store twoDaysWorld) /\
  index_of (store twoDaysWorld) = ["2026-01-19"; "2026-01-20"] /\
  exists w',
    saveDayData (defaultDay "2026-01-05") twoDaysWorld = (Ok tt, w') /\
    "2026-01-05" ∈ index_of (store w') /\ "2026-01-20" ∈ index_of (store w') /\
    in_order (index_of (store w')) /\ NoDup (index_of (store w')).
Proof.
  assert (Hok : index_ok (store twoDaysWorld)).
  { intros j Hj. vm_compute in Hj. injection Hj as <-. eauto. }
  assert (Hidx : index_of (store twoDaysWorld) = ["2026-01-19"; "2026-01-20"])
    by (vm_compute; reflexivity).
  split; [reflexivity|]. split; [exact Hok|]. split; [exact Hidx|].
  destruct (saveDayData_maintains_index (defaultDay "2026-01-05") twoDaysWorld
              eq_refl Hok) as (w' & Hsave & _ & Hmem & _ & Hnew & Hnd & _).
  rewrite Hidx in Hmem, Hnew, Hnd.
  exists w'. split; [exact Hsave|].
  split; [apply Hmem; now left|].
  split; [apply Hmem; right; right; left|].
  split.
  - apply Hnew. intros H.
    repeat (apply elem_of_cons in H as [H|H]; [discriminate|]).
    now apply elem_of_nil in H.
  - apply Hnd. repeat constructor; intros H;
      repeat (apply elem_of_cons in H as [H|H]; [discriminate|]);
      now apply elem_of_nil in H.
Defined.

Lemma deleteDayData_run (dk : string) (w : World) :
  disk w = [] -> index_ok (store w) ->
  exists w',
    deleteDayData dk w = (Ok tt, w') /\ disk w' = [] /\
    store w' =
      <[listKey := stringify_index (filter (fun d => d ≠ dk) (index_of (store w)))]>
        (delete (storageKey dk) (store w)).
Proof.
  intros Hd Hok.
  unfold deleteDayData, getDayIndex, try_catch, mbind, M_bind,
    AsyncStorage.getItem, AsyncStorage.setItem, AsyncStorage.removeItem,
    storage_call, index_of.
  rewrite Hd. cbn [tail store disk].
  rewrite lookup_delete_ne by (apply storageKey_ne_listKey).
  destruct (store w !! listKey) as [[| |j]|] eqn:E; cbn.
  1, 2, 4: (eexists; split; [reflexivity|]; split; reflexivity).
  destruct (Hok j E) as [arr ->]. cbn.
  eexists; split; [reflexivity|]; split; reflexivity.
Qed.

(** X3. With no storage call rejected and a readable index, deleting
    a day removes its record and its index entry and nothing else: the
    date then reads as the default day, the index is the old one without
    the date, in the same order, and every other record and the settings
    are untouched. *)
Theorem deleteDayData_removes_record_and_entry (dk : string) (w : World) :
  disk w = [] -> index_ok (store w) ->
  exists w',
    deleteDayData dk w = (Ok tt, w') /\
    store w' !! storageKey dk = None /\
    fst (getDayData dk w') = Ok (defaultDay dk) /\
    index_of (store w') = filter (fun d => d ≠ dk) (index_of (store w)) /\
    (dk ∉ index_of (store w')) /\
    (forall k, k ≠ storageKey dk -> k ≠ listKey -> store w' !! k = store w !! k).
Proof.
  intros Hd Hok.
  destruct (deleteDayData_run dk w Hd Hok) as (w' & Hdel & Hd' & Hst).
  exists w'. split; [exact Hdel|].
  assert (Hnone : store w' !! storageKey dk = None).
  { rewrite Hst, lookup_insert_ne by (apply not_eq_sym, storageKey_ne_listKey).
    apply lookup_delete_eq. }
  assert (Hidx : index_of (store w') = filter (fun d => d ≠ dk) (index_of (store w))).
  { unfold index_of at 1. now rewrite Hst, lookup_insert_eq. }
  split; [exact Hnone|]. split.
  { destruct (getDayData_run dk w') as (d & w2 & Hrun & _ & _ & _ & _ & _ & Hday).
    rewrite Hrun; simpl. rewrite Hd', Hnone in Hday. simpl in Hday. now subst d. }
  split; [exact Hidx|]. split.
  { rewrite Hidx. intros Hin. apply list_elem_of_filter in Hin. now destruct Hin. }
  intros k Hk Hl. rewrite Hst, lookup_insert_ne by congruence.
  now apply lookup_delete_ne.
Qed.

Lemma deleteDayData_removes_record_and_entry_witness :
  disk twoDaysWorld = [] /\ index_ok (store twoDaysWorld) /\
  index_of (store twoDaysWorld) = ["2026-01-19"; "2026-01-20"] /\
  exists w',
    deleteDayData "2026-01-19" twoDaysWorld = (Ok tt, w') /\
    index_of (store w') = ["2026-01-20"] /\
    store w' !! storageKey "2026-01-20" = Some (stringify_day todayDay).
Proof.
  assert (Hok : index_ok (store twoDaysWorld)).
  { intros j Hj. vm_compute in Hj. injection Hj as <-. eauto. }
  split; [reflexivity|]. split; [exact Hok|]. split; [vm_compute; reflexivity|].
  destruct (deleteDayData_removes_record_and_entry "2026-01-19" twoDaysWorld eq_refl Hok)
    as (w' & Hdel & _ & _ & Hidx & _ & Hoth).
  exists w'. split; [exact Hdel|]. split.
  - rewrite Hidx. vm_compute. reflexivity.
  - rewrite Hoth.
    + vm_compute. reflexivity.
    + intros Hk. apply storageKey_inj in Hk. discriminate.
    + apply storageKey_ne_listKey.
Defined.

(** X4. A rejected read of the index is taken for an empty index and
    written back: a save whose index read is rejected leaves an index
    that lists the saved date alone, and a delete whose index read is
    rejected leaves an empty index; both report success. *)
Theorem rejected_index_read_truncates_index (d : list bool) (w : World) :
  disk w = false :: true :: false :: d ->
  (forall day, exists w',
      saveDayData day w = (Ok tt, w') /\
      store w' !! storageKey (dateKey day) = Some (stringify_day day) /\
      index_of (store w') = [dateKey day]) /\
  (forall dk, exists w',
      deleteDayData dk w = (Ok tt, w') /\
      store w' !! storageKey dk = None /\
      store w' !! listKey = Some (stringify_index [])).
Proof.
  intros Hd. split.
  - intros day.
    unfold saveDayData, upsertDayIndex, getDayIndex, try_catch, mbind, M_bind,
      AsyncStorage.getItem, AsyncStorage.setItem, storage_call, index_of.
    rewrite Hd. cbn.
    eexists. split; [reflexivity|]. cbn. split.
    + rewrite lookup_insert_ne by (apply not_eq_sym, storageKey_ne_listKey).
      apply lookup_insert_eq.
    + now rewrite lookup_insert_eq.
  - intros dk.
    unfold deleteDayData, getDayIndex, try_catch, mbind, M_bind,
      AsyncStorage.getItem, AsyncStorage.setItem, AsyncStorage.removeItem,
      storage_call.
    rewrite Hd. cbn.
    eexists. split; [reflexivity|]. cbn. split.
    + rewrite lookup_insert_ne by (apply not_eq_sym, storageKey_ne_listKey).
      apply lookup_delete_eq.
    + apply lookup_insert_eq.
Qed.

Lemma rejected_index_read_truncates_index_witness :
  disk flakyTwoDaysWorld = [false; true; false] /\
  index_of (store flakyTwoDaysWorld) = ["2026-01-19"; "2026-01-20"] /\
  exists w',
    saveDayData scenarioDay flakyTwoDaysWorld = (Ok tt, w') /\
    index_of (store w') = ["2026-01-20"].
Proof.
  split; [reflexivity|]. split; [vm_compute; reflexivity|].
  destruct (proj1 (rejected_index_read_truncates_index [] flakyTwoDaysWorld eq_refl)
              scenarioDay) as (w' & Hsave & _ & Hidx).
  exists w'. split; [exact Hsave | exact Hidx].
Defined.

Lemma getDays_run (index : list string) (w : World) :
  exists days w',
    getDays index w = (Ok days, w') /\
    store w' = store w /\ net w' = net w /\ now w' = now w /\
    Forall2 (day_read (store w)) index days.
Proof.
  revert w. induction index as [|dk index IH]; intros w; simpl.
  - exists [], w. repeat split; constructor.
  - destruct (getDayData_run dk w) as (day & w1 & Hrun & Hst & Hn & Ho & _ & _ & Hday).
    destruct (IH w1) as (days & w' & Hrest & Hst' & Hn' & Ho' & Hall).
    exists (day :: days), w'. unfold mbind, M_bind. rewrite Hrun, Hrest.
    split; [reflexivity|]. split; [congruence|]. split; [congruence|].
    split; [congruence|].
    constructor; [|now rewrite <- Hst].
    subst day. unfold day_read, read_day.
    destruct (hd false (disk w)); [now right | now left].
Qed.

Lemma getDayIndex_run (w : World) :
  exists w',
    getDayIndex w =
      (Ok (if hd false (disk w) then JIndex []
           else match store w !! listKey with
                | Some (Json j) => j
                | _ => JIndex []
                end), w') /\
    store w' = store w /\ net w' = net w /\ now w' = now w /\
    disk w' = tail (disk w).
Proof.
  unfold getDayIndex, try_catch, mbind, M_bind, AsyncStorage.getItem, storage_call.
  destruct (disk w) as [|[|] d]; cbn;
    try destruct (store w !! listKey) as [[| |j]|]; cbn;
    eexists; (split; [reflexivity|]); repeat split.
Qed.

(** X5. [getAllDaysData] never throws and never writes.  With the
    index read rejected it returns no day; otherwise it returns one
    record per date of the index, in index order, each the record stored
    for the date or, when its read is rejected, the default day; with no
    call rejected it returns exactly the stored records. *)
Theorem getAllDaysData_lists_index (w : World) :
  exists days w',
    getAllDaysData w = (Ok days, w') /\
    store w' = store w /\ net w' = net w /\ now w' = now w /\
    (hd false (disk w) = true -> days = []) /\
    (hd false (disk w) = false ->
     Forall2 (day_read (store w)) (index_of (store w)) days) /\
    (disk w = [] -> days = read_day (store w) <$> index_of (store w)).
Proof.
  destruct (getDayIndex_run w) as (w1 & Hidx & Hst & Hn & Ho & Hd).
  unfold getAllDaysData, try_catch, mbind, M_bind. rewrite Hidx.
  assert (Hq : disk w = [] ->
               forall days w', getDays (index_of (store w)) w1 = (Ok days, w') ->
                               days = read_day (store w) <$> index_of (store w)).
  { intros Hw days w' Hrun.
    destruct (getDays_quiet (index_of (store w)) w1) as (w2 & Hrun' & _).
    { now rewrite Hd, Hw. }
    rewrite Hrun' in Hrun. injection Hrun as <- _. now rewrite Hst. }
  destruct (hd false (disk w)) eqn:Hh.
  - cbn. exists [], w1. split; [reflexivity|]. repeat split; try assumption.
    + discriminate.
    + intros Hw. rewrite Hw in Hh. discriminate.
  - unfold index_of in *.
    destruct (store w !! listKey) as [[| |[]]|] eqn:E; cbn;
      try (exists [], w1; split; [reflexivity|]; repeat split; try assumption;
           first [discriminate | constructor]).
    destruct (getDays_run arr w1) as (days & w' & Hrun & Hst' & Hn' & Ho' & Hall).
    rewrite Hrun. exists days, w'. split; [reflexivity|].
    split; [congruence|]. split; [congruence|]. split; [congruence|].
    split; [discriminate|]. split; [intros _; now rewrite <- Hst|].
    intros Hw. now apply (Hq Hw days w').
Qed.

Lemma getSettings_run (w : World) :
  exists w',
    getSettings w =
      (Ok (if hd false (disk w) then default_settings else settings_of (store w)), w') /\
    store w' = store w /\ net w' = net w /\ now w' = now w /\
    disk w' = tail (disk w) /\
    trace w' = (trace w ++ [GetItem SETTINGS_KEY])%list.
Proof.
  unfold getSettings, try_catch, mbind, M_bind, AsyncStorage.getItem, storage_call,
    settings_of.
  destruct (disk w) as [|[|] d]; cbn;
    try destruct (store w !! SETTINGS_KEY) as [[| |j]|]; cbn;
    eexists; (split; [reflexivity|]); repeat split.
Qed.

(** X6. [getSettings] never throws and never writes; it returns the
    defaults (name Engineer, precision 2) when the read is rejected or
    nothing readable is stored, and otherwise the stored fields, each
    missing one replaced by its default. *)
Theorem getSettings_falls_back_to_defaults (w : World) :
  exists st w',
    getSettings w = (Ok st, w') /\
    store w' = store w /\
    (hd false (disk w) = true -> st = default_settings) /\
    (store w !! SETTINGS_KEY = None \/ store w !! SETTINGS_KEY = Some Blank \/
     store w !! SETTINGS_KEY = Some Malformed \/
     store w !! SETTINGS_KEY = Some (Json JNull) ->
     st = default_settings) /\
    (forall ps, hd false (disk w) = false ->
                store w !! SETTINGS_KEY = Some (Json (JSettings ps)) ->
                displayName st = default "Engineer" (p_displayName ps) /\
                decimalPrecision st = default 2%float (p_decimalPrecision ps)).
Proof.
  destruct (getSettings_run w) as (w' & Hrun & Hst & _).
  eexists _, w'. split; [exact Hrun|]. split; [exact Hst|].
  unfold settings_of.
  split; [intros ->; reflexivity|]. split.
  - intros [H|[H|[H|H]]]; rewrite H; destruct (hd false (disk w)); reflexivity.
  - intros ps -> ->. split; reflexivity.
Qed.

(** X7. With no storage call rejected, [saveSettings] merges the
    given fields over the current settings, stores the result and returns
    it, and no other key of the store changes; when the precision of the
    result is a number JSON can write (finite and not the negative
    zero), a following [getSettings] returns the same settings. *)
Theorem saveSettings_then_getSettings (ps : PartialSettings) (w : World) :
  disk w = [] ->
  exists u w',
    saveSettings ps w = (Ok u, w') /\
    u = spread_settings (settings_of (store w)) ps /\
    displayName u = default (displayName (settings_of (store w))) (p_displayName ps) /\
    decimalPrecision u
      = default (decimalPrecision (settings_of (store w))) (p_decimalPrecision ps) /\
    (json_number (decimalPrecision u) = true -> fst (getSettings w') = Ok u) /\
    (forall k, k ≠ SETTINGS_KEY -> store w' !! k = store w !! k).
Proof.
  intros Hd.
  destruct (getSettings_run w) as (w1 & Hrun & Hst & Hn & Ho & Hd1 & Ht).
  rewrite Hd in Hrun, Hd1. cbn in Hrun, Hd1.
  set (u := spread_settings (settings_of (store w)) ps).
  set (w' := mkWorld (<[SETTINGS_KEY := stringify_settings u]> (store w1)) []
               (net w1) (now w1)
               (trace w1 ++ [SetItem SETTINGS_KEY (stringify_settings u)])).
  exists u, w'. split.
  { unfold saveSettings, try_catch, mbind, M_bind. rewrite Hrun. fold u.
    unfold AsyncStorage.setItem, storage_call. rewrite Hd1. reflexivity. }
  split; [reflexivity|]. split; [reflexivity|]. split; [reflexivity|].
  clearbody u. split.
  - intros _. destruct (getSettings_run w') as (w2 & Hrun' & _).
    rewrite Hrun'. cbn. unfold settings_of. cbn. rewrite lookup_insert_eq. cbn.
    destruct u; reflexivity.
  - intros k Hk. cbn. rewrite lookup_insert_ne by congruence. now rewrite Hst.
Qed.

Lemma saveSettings_then_getSettings_witness :
  disk emptyWorld = [] /\
  json_number 2%float = true /\
  exists w',
    saveSettings (mkPartialSettings (Some "Shift B") None) emptyWorld
      = (Ok (mkSettings "Shift B" 2%float), w') /\
    fst (getSettings w') = Ok (mkSettings "Shift B" 2%float).
Proof.
  split; [reflexivity|]. split; [vm_compute; reflexivity|].
  destruct (saveSettings_then_getSettings (mkPartialSettings (Some "Shift B") None)
              emptyWorld eq_refl) as (u & w' & Hsave & Hu & _ & _ & Hget & _).
  exists w'. vm_compute in Hu. subst u. split; [exact Hsave|].
  apply Hget. vm_compute. reflexivity.
Defined.

Lemma local_step_getSettings : steps local_step getSettings.
Proof. unfold getSettings, AsyncStorage.getItem. steps_by local_leaf. Qed.

(** X8. [exportAllData] never throws, never writes and never returns
    its fallback text: it always returns a bundle with the days, the
    settings and the time of the export, because the reads it makes
    handle their own failures. *)
Theorem exportAllData_always_bundles (w : World) :
  exists days settings w',
    exportAllData w =
      (Ok (Json (JBundle (mkBundle (Some days) (Some (to_partial_settings settings))
                            (Some (now w))))), w') /\
    store w' = store w /\
    (hd false (disk w) = false ->
     Forall2 (day_read (store w)) (index_of (store w)) days) /\
    (disk w = [] ->
     days = read_day (store w) <$> index_of (store w) /\
     settings = settings_of (store w)).
Proof.
  destruct (getAllDaysData_lists_index w)
    as (days & w1 & Hdays & Hst1 & Hn1 & Ho1 & _ & Hall & Hq).
  destruct (getSettings_run w1) as (w2 & Hset & Hst2 & Hn2 & Ho2 & _).
  eexists days, _, w2. split.
  { unfold exportAllData, try_catch, mbind, M_bind. rewrite Hdays, Hset.
    unfold toISOString_now. now rewrite Ho2, Ho1. }
  split; [congruence|]. split; [exact Hall|].
  intros Hw. split; [now apply Hq|].
  destruct (getAllDaysData_quiet w Hw) as (w1' & Hdays' & _ & Hd1 & _).
  rewrite Hdays' in Hdays. injection Hdays as _ <-.
  rewrite Hd1. cbn. now rewrite Hst1.
Qed.

(** X9. [importData] never throws.  Text that does not parse, and the
    text [null], give [false] without a single storage call; any other
    value that carries neither days nor settings gives [true], equally
    without a storage call. *)
Theorem importData_rejects_unreadable_text (w : World) :
  (forall jsonString,
      jsonString = Blank \/ jsonString = Malformed \/ jsonString = Json JNull ->
      importData jsonString w = (Ok false, w)) /\
  (forall j, j ≠ JNull -> b_days (as_bundle j) = None ->
             b_settings (as_bundle j) = None ->
             importData (Json j) w = (Ok true, w)) /\
  (forall jsonString, exists ok w', importData jsonString w = (Ok ok, w')).
Proof.
  split; [|split].
  - intros js [->|[->| ->]]; reflexivity.
  - intros j Hj Hdays Hset.
    unfold importData, try_catch, mbind, M_bind, JSON_parse. cbn.
    destruct j; try congruence; cbn in *; try reflexivity.
    now rewrite Hdays, Hset.
  - intros js. unfold importData, try_catch.
    match goal with |- context [?m w] =>
      match m with mbind _ _ => destruct (m w) as [[b|e] w'] end end;
      cbn; eauto.
Qed.

(** X10. An import is not undone when it fails: if the first day of
    the bundle is saved and the next storage call is rejected, the import
    returns [false] and the first day stays in the store. *)
Theorem importData_keeps_days_saved_before_a_failure (d1 d2 : DayData)
    (rest : list DayData) (settings : option PartialSettings)
    (exportedAt : option string) (w : World) :
  hd false (disk w) = false ->
  hd false (disk (snd (saveDayData d1 w))) = true ->
  exists w',
    importData (Json (JBundle (mkBundle (Some (d1 :: d2 :: rest)) settings exportedAt))) w
      = (Ok false, w') /\
    store w' !! storageKey (dateKey d1) = Some (stringify_day d1).
Proof.
  intros Hd Hd1.
  destruct (saveDayData_committed d1 w Hd) as (w1 & tl & Hsave & Hrec & _).
  rewrite Hsave in Hd1. cbn in Hd1.
  destruct (disk w1) as [|[|] d] eqn:E; try discriminate.
  pose proof (saveDayData_rejected d2 w1 d E) as Hrej.
  assert (Hdays : saveDays (d1 :: d2 :: rest) w
                  = (Throw StorageError, snd (saveDayData d2 w1))).
  { cbn [saveDays]. unfold mbind at 1, M_bind at 1. rewrite Hsave.
    unfold mbind at 1, M_bind at 1. now rewrite Hrej. }
  eexists. split.
  - unfold importData, try_catch, mbind, M_bind, JSON_parse, fields_of.
    cbn [mret M_ret as_bundle b_days]. rewrite Hdays. reflexivity.
  - rewrite Hrej. exact Hrec.
Qed.

Lemma importData_keeps_days_saved_before_a_failure_witness :
  hd false (disk (mkWorld ∅ [false; false; false; true] [] "" [])) = false /\
  hd false (disk (snd (saveDayData yesterdayDay
                         (mkWorld ∅ [false; false; false; true] [] "" [])))) = true /\
  exists w',
    importData (Json (JBundle (mkBundle (Some [yesterdayDay; todayDay]) None None)))
      (mkWorld ∅ [false; false; false; true] [] "" [])
      = (Ok false, w') /\
    store w' !! storageKey "2026-01-19" = Some (stringify_day yesterdayDay).
Proof.
  assert (Hd : hd false (disk (snd (saveDayData yesterdayDay
                 (mkWorld ∅ [false; false; false; true] [] "" [])))) = true)
    by (vm_compute; reflexivity).
  split; [reflexivity|]. split; [exact Hd|].
  exact (importData_keeps_days_saved_before_a_failure yesterdayDay todayDay []
           None None (mkWorld ∅ [false; false; false; true] [] "" []) eq_refl Hd).
Defined.

Lemma remote_queries_snoc (tl : list event) (q : query) :
  remote_queries (tl ++ [Remote q]) = (remote_queries tl ++ [q])%list.
Proof. unfold remote_queries. now rewrite omap_app. Qed.

Lemma upsert_loop_run {A} (q : A -> query) (msg : A -> string) (names : list A)
    (w : World) :
  Forall answers (take (length names) (net w)) ->
  exists w' tl,
    for_each names (fun n => '(_, error) ← supabase (q n); when_error error (msg n)) w
      = (Ok tt, w') /\
    store w' = store w /\ disk w' = disk w /\ now w' = now w /\
    net w' = drop (length names) (net w) /\
    trace w' = (trace w ++ tl)%list /\
    remote_queries tl = q <$> names.
Proof.
  revert w. induction names as [|n names IH]; intros w Hans.
  - exists w, []. cbn. rewrite app_nil_r. repeat split.
  - cbn [for_each length].
    assert (Hcall : exists w1,
               ('(_, error) ← supabase (q n); when_error error (msg n)) w = (Ok tt, w1) /\
               store w1 = store w /\ disk w1 = disk w /\ now w1 = now w /\
               net w1 = tail (net w) /\
               exists tl1, trace w1 = (trace w ++ tl1)%list /\ remote_queries tl1 = [q n]).
    { unfold mbind, M_bind, supabase, when_error, console_error, emit.
      destruct (net w) as [|[|d [c|]] rest] eqn:E; cbn.
      - eexists. split; [reflexivity|]. repeat split.
        exists [Remote (q n)]. split; reflexivity.
      - exfalso. cbn in Hans. inversion Hans as [|? ? Hr _]. now apply Hr.
      - eexists. split; [reflexivity|]. repeat split.
        exists [Remote (q n); ConsoleError (msg n)]. cbn.
        split; [now rewrite <- app_assoc | reflexivity].
      - eexists. split; [reflexivity|]. repeat split.
        exists [Remote (q n)]. split; reflexivity. }
    destruct Hcall as (w1 & Hrun & Hst & Hd & Ho & Hn & tl1 & Ht & Hq).
    destruct (IH w1) as (w' & tl & Hrest & Hst' & Hd' & Ho' & Hn' & Ht' & Hq').
    { rewrite Hn. destruct (net w) as [|r rest]; cbn in *; [now rewrite take_nil|].
      now inversion Hans. }
    exists w', (tl1 ++ tl)%list.
    unfold mbind at 1, M_bind at 1. rewrite Hrun, Hrest.
    split; [reflexivity|]. split; [congruence|]. split; [congruence|].
    split; [congruence|]. split.
    { rewrite Hn', Hn. destruct (net w); cbn; [now rewrite drop_nil | reflexivity]. }
    split; [rewrite Ht', Ht; now rewrite app_assoc|].
    rewrite remote_queries_app, Hq, Hq'. reflexivity.
Qed.

Lemma take_take_le {A} (n m : nat) (l : list A) :
  (n <= m)%nat -> take n (take m l) = take n l.
Proof. intros H. rewrite take_take. f_equal. lia. Qed.

Lemma upsertRows_run (dailyDataId : string) (day : DayData) (w : World) :
  Forall answers (take 8 (net w)) ->
  exists w' tl,
    upsertRows dailyDataId day w = (Ok true, w') /\
    store w' = store w /\ disk w' = disk w /\ now w' = now w /\
    net w' = drop 8 (net w) /\
    trace w' = (trace w ++ tl)%list /\
    remote_queries tl = upsertsOf dailyDataId day.
Proof.
  intros Hans.
  destruct (upsert_loop_run
              (fun feederName =>
                 UpsertFeeder dailyDataId feederName
                   (start (default {| start := Some ""; end_ := Some "" |}
                             (feeders day !! feederName)))
                   (end_ (default {| start := Some ""; end_ := Some "" |}
                            (feeders day !! feederName))))
              (fun feederName => "Error upserting feeder " ++ feederName ++ ":")
              FEEDERS w)
    as (w1 & tl1 & Hrun1 & Hst1 & Hd1 & Ho1 & Hn1 & Ht1 & Hq1).
  { rewrite <- (take_take_le 4 8) by (cbn; lia). now apply Forall_take. }
  destruct (upsert_loop_run
              (fun turbineName =>
                 UpsertTurbine dailyDataId turbineName
                   (previous (default {| previous := Some ""; present := Some "";
                                         hours := Some "24" |}
                                (turbines day !! turbineName)))
                   (present (default {| previous := Some ""; present := Some "";
                                        hours := Some "24" |}
                               (turbines day !! turbineName)))
                   (hours (default {| previous := Some ""; present := Some "";
                                      hours := Some "24" |}
                             (turbines day !! turbineName))))
              (fun turbineName => "Error upserting turbine " ++ turbineName ++ ":")
              TURBINES w1)
    as (w2 & tl2 & Hrun2 & Hst2 & Hd2 & Ho2 & Hn2 & Ht2 & Hq2).
  { rewrite Hn1. cbn [length TURBINES FEEDERS].
    rewrite take_drop_commute. apply Forall_drop. exact Hans. }
  exists w2, (tl1 ++ tl2)%list.
  unfold upsertRows.
  unfold mbind at 1, M_bind at 1. cbv zeta. rewrite Hrun1.
  unfold mbind at 1, M_bind at 1. rewrite Hrun2.
  split; [reflexivity|]. split; [congruence|]. split; [congruence|].
  split; [congruence|]. split.
  { rewrite Hn2, Hn1. now rewrite drop_drop. }
  split; [rewrite Ht2, Ht1; now rewrite app_assoc|].
  rewrite remote_queries_app, Hq1, Hq2. reflexivity.
Qed.

Lemma syncDayToSupabase_found (userId : string) (day : DayData) (row : DayRow)
    (rest : list reply) (w : World) :
  net w = Answers (DDay row) None :: rest ->
  syncDayToSupabase userId day w
  = sync_after
      (upsertRows (id row) day
         (mkWorld (store w) (disk w) rest (now w)
            (trace w ++ [Remote (SelectDailyId userId (dateKey day))]))).
Proof.
  intros Hnet.
  unfold syncDayToSupabase, sync_after, upsertRows, try_catch, mbind, M_bind, supabase.
  rewrite Hnet. reflexivity.
Qed.

Lemma syncDayToSupabase_inserted (userId : string) (day : DayData) (row : DayRow)
    (missing : rdata) (rest : list reply) (w : World) :
  net w = Answers missing (Some "PGRST116") :: Answers (DDay row) None :: rest ->
  syncDayToSupabase userId day w
  = sync_after
      (upsertRows (id row) day
         (mkWorld (store w) (disk w) rest (now w)
            ((trace w ++ [Remote (SelectDailyId userId (dateKey day))])
               ++ [Remote (InsertDaily userId (dateKey day))]))).
Proof.
  intros Hnet.
  unfold syncDayToSupabase, sync_after, upsertRows, try_catch, mbind, M_bind, supabase.
  rewrite Hnet. reflexivity.
Qed.

(** X11. Once the day row is known, found or newly inserted after a
    "not found" answer, [syncDayToSupabase] upserts the four feeder rows
    and then the four turbine rows of the day, in the order of the fixed
    sets, with the day's values and the defaults for entries the day
    lacks; as long as the eight upserts are answered it returns [true],
    whatever errors the answers carry, and the local store is not
    touched. *)
Theorem syncDayToSupabase_upserts_every_row (userId : string) (day : DayData)
    (row : DayRow) (rest : list reply) :
  Forall answers (take 8 rest) ->
  (forall w, net w = Answers (DDay row) None :: rest ->
     exists w' tl,
       syncDayToSupabase userId day w = (Ok true, w') /\
       store w' = store w /\ net w' = drop 8 rest /\
       trace w' = (trace w ++ tl)%list /\
       remote_queries tl
         = SelectDailyId userId (dateKey day) :: upsertsOf (id row) day) /\
  (forall w missing, net w = Answers missing (Some "PGRST116")
                               :: Answers (DDay row) None :: rest ->
     exists w' tl,
       syncDayToSupabase userId day w = (Ok true, w') /\
       store w' = store w /\ net w' = drop 8 rest /\
       trace w' = (trace w ++ tl)%list /\
       remote_queries tl
         = SelectDailyId userId (dateKey day) :: InsertDaily userId (dateKey day)
           :: upsertsOf (id row) day).
Proof.
  intros Hans. split.
  - intros w Hnet. rewrite (syncDayToSupabase_found _ _ _ _ _ Hnet).
    match goal with |- context [upsertRows _ _ ?w0] =>
      destruct (upsertRows_run (id row) day w0 Hans)
        as (w' & tl & Hrun & Hst & _ & _ & Hn & Ht & Hq) end.
    exists w', (Remote (SelectDailyId userId (dateKey day)) :: tl).
    rewrite Hrun. split; [reflexivity|].
    split; [exact Hst|]. split; [exact Hn|]. split.
    + rewrite Ht. cbn. now rewrite <- app_assoc.
    + rewrite <- Hq. reflexivity.
  - intros w missing Hnet. rewrite (syncDayToSupabase_inserted _ _ _ _ _ _ Hnet).
    match goal with |- context [upsertRows _ _ ?w0] =>
      destruct (upsertRows_run (id row) day w0 Hans)
        as (w' & tl & Hrun & Hst & _ & _ & Hn & Ht & Hq) end.
    exists w', (Remote (SelectDailyId userId (dateKey day))
                  :: Remote (InsertDaily userId (dateKey day)) :: tl).
    rewrite Hrun. split; [reflexivity|].
    split; [exact Hst|]. split; [exact Hn|]. split.
    + rewrite Ht. cbn. now rewrite <- !app_assoc.
    + rewrite <- Hq. reflexivity.
Qed.

Lemma syncDayToSupabase_upserts_every_row_witness :
  Forall answers (take 8 [Answers DNull (Some "23505")]) /\
  exists w' tl,
    syncDayToSupabase "u1" scenarioDay
      (mkWorld ∅ [] [Answers (DDay (mkDayRow "d1" "2026-01-20")) None;
                     Answers DNull (Some "23505")] "" [])
      = (Ok true, w') /\
    trace w' = tl /\
    remote_queries tl
      = SelectDailyId "u1" "2026-01-20" :: upsertsOf "d1" scenarioDay.
Proof.
  assert (H : Forall answers (take 8 [Answers DNull (Some "23505")])).
  { repeat constructor. discriminate. }
  split; [exact H|].
  destruct (proj1 (syncDayToSupabase_upserts_every_row "u1" scenarioDay
                     (mkDayRow "d1" "2026-01-20") _ H)
              (mkWorld ∅ [] [Answers (DDay (mkDayRow "d1" "2026-01-20")) None;
                             Answers DNull (Some "23505")] "" []) eq_refl)
    as (w' & tl & Hrun & _ & _ & Ht & Hq).
  exists w', tl. split; [exact Hrun|]. split; [exact Ht | exact Hq].
Defined.

(** X12. Without a day row [syncDayToSupabase] returns [false] and
    upserts nothing: when the lookup answers with an error other than
    "not found", when the insertion answers with an error or without a
    row, when the lookup answers without error and without a row, and
    when the lookup rejects; each case logs one line. *)
Theorem syncDayToSupabase_gives_up_without_day_row (userId : string) (day : DayData)
    (w : World) :
  let select := Remote (SelectDailyId userId (dateKey day)) in
  let insert := Remote (InsertDaily userId (dateKey day)) in
  let gives_up (rest : list reply) (tl : list event) :=
    syncDayToSupabase userId day w
    = (Ok false, mkWorld (store w) (disk w) rest (now w) (trace w ++ tl)) in
  (forall d code rest,
      net w = Answers d (Some code) :: rest -> code ≠ "PGRST116" ->
      gives_up rest [select; ConsoleError "Error fetching daily_data:"]) /\
  (forall d0 d e rest,
      net w = Answers d0 (Some "PGRST116") :: Answers d e :: rest ->
      is_Some e \/ data_day d = None ->
      gives_up rest [select; insert; ConsoleError "Error creating daily_data:"]) /\
  (forall d rest,
      net w = Answers d None :: rest -> data_day d = None ->
      gives_up rest [select; ConsoleError "Error syncing day to Supabase:"]) /\
  (forall rest,
      net w = Rejects :: rest ->
      gives_up rest [select; ConsoleError "Error syncing day to Supabase:"]).
Proof.
  cbv zeta.
  assert (Happ : forall (l : list event) a b, ((l ++ [a]) ++ [b] = l ++ [a; b])%list).
  { intros. now rewrite <- app_assoc. }
  assert (Happ3 : forall (l : list event) a b c,
             (((l ++ [a]) ++ [b]) ++ [c] = l ++ [a; b; c])%list).
  { intros. now rewrite <- !app_assoc. }
  split; [|split; [|split]].
  - intros d code rest Hnet Hcode.
    unfold syncDayToSupabase, try_catch, mbind, M_bind, supabase.
    rewrite Hnet. rewrite (proj2 (String.eqb_neq code "PGRST116") Hcode).
    cbn. now rewrite Happ.
  - intros d0 d e rest Hnet Hbad.
    unfold syncDayToSupabase, try_catch, mbind, M_bind, supabase.
    rewrite Hnet. cbn.
    destruct e as [c|]; cbn; [now rewrite Happ3|].
    destruct Hbad as [[? [=]]|Hd]. rewrite Hd. cbn. now rewrite Happ3.
  - intros d rest Hnet Hd.
    unfold syncDayToSupabase, try_catch, mbind, M_bind, supabase, row_id.
    rewrite Hnet, Hd. cbn. now rewrite Happ.
  - intros rest Hnet.
    unfold syncDayToSupabase, try_catch, mbind, M_bind, supabase.
    rewrite Hnet. cbn. now rewrite Happ.
Qed.

Lemma or_str_empty (v : option string) : or_str v "" = Some (default "" v).
Proof.
  destruct v as [s|]; [|reflexivity]. unfold or_str, truthy_str.
  destruct s; reflexivity.
Qed.

(** X13. A fetch that is answered with the rows a sync upserts gives
    back the day: every reading of the fixed sets as it was sent, a
    missing reading as the empty text, missing or empty hours as 24, and
    no entry outside the fixed sets; a day that holds text in every field
    and non-empty hours comes back entry for entry. *)
Theorem fetchDayFromSupabase_reads_back_upserted_rows (userId dk : string)
    (day : DayData) (row : DayRow) (rest : list reply) (w : World) :
  net w = Answers (DDay row) None
          :: Answers (DFeeders (feederRowsOf day)) None
          :: Answers (DTurbines (turbineRowsOf day)) None :: rest ->
  exists fetched w',
    fetchDayFromSupabase userId dk w = (Ok (Some fetched), w') /\
    dateKey fetched = dk /\
    (forall f, f ∈ FEEDERS ->
       feeders fetched !! f
       = Some {| start := Some (default "" (feeders day !! f ≫= start));
                 end_ := Some (default "" (feeders day !! f ≫= end_)) |}) /\
    (forall t, t ∈ TURBINES ->
       turbines fetched !! t
       = Some {| previous := Some (default "" (turbines day !! t ≫= previous));
                 present := Some (default "" (turbines day !! t ≫= present));
                 hours := or_str (turbines day !! t ≫= hours) "24" |}) /\
    (forall f, f ∉ FEEDERS -> feeders fetched !! f = None) /\
    (forall t, t ∉ TURBINES -> turbines fetched !! t = None) /\
    (fully_valued day ->
     (forall t, t ∈ TURBINES -> truthy_str (turbines day !! t ≫= hours) = true) ->
     (forall f, f ∈ FEEDERS -> feeders fetched !! f = feeders day !! f) /\
     (forall t, t ∈ TURBINES -> turbines fetched !! t = turbines day !! t)).
Proof.
  intros Hnet.
  exists (fetchedDay dk (Some (feederRowsOf day)) (Some (turbineRowsOf day))).
  eexists. split.
  { unfold fetchDayFromSupabase, try_catch, mbind, M_bind, supabase.
    rewrite Hnet. reflexivity. }
  set (fetched := fetchedDay _ _ _).
  assert (HF : forall f, f ∈ FEEDERS ->
             feeders fetched !! f
             = Some {| start := Some (default "" (feeders day !! f ≫= start));
                       end_ := Some (default "" (feeders day !! f ≫= end_)) |}).
  { intros f E. unfold fetched.
    rewrite fetchedDay_feeders, (bool_decide_eq_true_2 _ E), !or_str_empty.
    repeat (apply elem_of_cons in E as [->|E];
            [cbn; destruct (feeders day !! _) as [[]|]; reflexivity|]).
    now apply elem_of_nil in E. }
  assert (HT : forall t, t ∈ TURBINES ->
             turbines fetched !! t
             = Some {| previous := Some (default "" (turbines day !! t ≫= previous));
                       present := Some (default "" (turbines day !! t ≫= present));
                       hours := or_str (turbines day !! t ≫= hours) "24" |}).
  { intros t E. unfold fetched.
    rewrite fetchedDay_turbines, (bool_decide_eq_true_2 _ E), !or_str_empty.
    repeat (apply elem_of_cons in E as [->|E];
            [cbn; destruct (turbines day !! _) as [[? ? [h|]]|]; reflexivity|]).
    now apply elem_of_nil in E. }
  split; [reflexivity|]. split; [exact HF|]. split; [exact HT|].
  split; [intros f Hf; unfold fetched;
          now rewrite fetchedDay_feeders, (bool_decide_eq_false_2 _ Hf)|].
  split; [intros t Ht; unfold fetched;
          now rewrite fetchedDay_turbines, (bool_decide_eq_false_2 _ Ht)|].
  intros [Hfv Htv] Hh. split.
  - intros f Hf. rewrite (HF f Hf).
    destruct (Hfv f Hf) as (s & e & ->). reflexivity.
  - intros t Ht. rewrite (HT t Ht).
    specialize (Hh t Ht). destruct (Htv t Ht) as (p & q & h & Heq).
    rewrite Heq in *. cbn in *. unfold or_str. cbn. now rewrite Hh.
Qed.

Lemma fetchedDay_without_rows (dk : string) : fetchedDay dk None None = defaultDay dk.
Proof. reflexivity. Qed.

(** X14. What [fetchDayFromSupabase] makes of failures: a day that
    is not found gives [null] silently, any other error of the lookup and
    a rejected lookup give [null] with a line logged, and child queries
    that answer with errors give the default day, with a line logged for
    each. *)
Theorem fetchDayFromSupabase_masks_failures (userId dk : string) (w : World) :
  let select := Remote (SelectDailyId userId dk) in
  let answer (r : option DayData) (rest : list reply) (tl : list event) :=
    fetchDayFromSupabase userId dk w
    = (Ok r, mkWorld (store w) (disk w) rest (now w) (trace w ++ tl)) in
  (forall d rest,
      net w = Answers d (Some "PGRST116") :: rest -> answer None rest [select]) /\
  (forall d code rest,
      net w = Answers d (Some code) :: rest -> code ≠ "PGRST116" ->
      answer None rest [select; ConsoleError "Error fetching daily_data:"]) /\
  (forall rest,
      net w = Rejects :: rest ->
      answer None rest [select; ConsoleError "Error fetching day from Supabase:"]) /\
  (forall row d1 c1 d2 c2 rest,
      net w = Answers (DDay row) None :: Answers d1 (Some c1)
              :: Answers d2 (Some c2) :: rest ->
      data_feeders d1 = None -> data_turbines d2 = None ->
      answer (Some (defaultDay dk)) rest
        [select; Remote (SelectFeeders (id row));
         ConsoleError "Error fetching feeders:";
         Remote (SelectTurbines (id row));
         ConsoleError "Error fetching turbines:"]).
Proof.
  cbv zeta.
  split; [|split; [|split]].
  - intros d rest Hnet.
    unfold fetchDayFromSupabase, try_catch, mbind, M_bind, supabase.
    rewrite Hnet. reflexivity.
  - intros d code rest Hnet Hcode.
    unfold fetchDayFromSupabase, try_catch, mbind, M_bind, supabase.
    rewrite Hnet, (proj2 (String.eqb_neq code "PGRST116") Hcode).
    cbn. now rewrite <- app_assoc.
  - intros rest Hnet.
    unfold fetchDayFromSupabase, try_catch, mbind, M_bind, supabase.
    rewrite Hnet. cbn. now rewrite <- app_assoc.
  - intros row d1 c1 d2 c2 rest Hnet H1 H2.
    rewrite <- fetchedDay_without_rows, <- H1 at 1. rewrite <- H2 at 1.
    unfold fetchDayFromSupabase, try_catch, mbind, M_bind, supabase.
    rewrite Hnet. cbn [row_id data_day mret M_ret when_error console_error emit
                         net store disk now trace fst snd].
    rewrite <- !app_assoc. reflexivity.
Qed.

Lemma fetchDayFromSupabase_reads_back_upserted_rows_witness :
  exists fetched w',
    fetchDayFromSupabase "u1" "2026-01-20"
      (mkWorld ∅ [] [Answers (DDay (mkDayRow "d1" "2026-01-20")) None;
                     Answers (DFeeders (feederRowsOf scenarioDay)) None;
                     Answers (DTurbines (turbineRowsOf scenarioDay)) None] "" [])
      = (Ok (Some fetched), w') /\
    feeders fetched !! "F2" = Some (mkFeeder (Some "500") (Some "300")) /\
    turbines fetched !! "A" = Some (mkTurbine (Some "1000") (Some "1100") (Some "24")).
Proof.
  destruct (fetchDayFromSupabase_reads_back_upserted_rows "u1" "2026-01-20"
              scenarioDay (mkDayRow "d1" "2026-01-20") []
              (mkWorld ∅ [] [Answers (DDay (mkDayRow "d1" "2026-01-20")) None;
                             Answers (DFeeders (feederRowsOf scenarioDay)) None;
                             Answers (DTurbines (turbineRowsOf scenarioDay)) None]
                 "" []) eq_refl)
    as (fetched & w' & Hrun & _ & HF & HT & _).
  exists fetched, w'. split; [exact Hrun|]. split.
  - rewrite (HF "F2") by repeat constructor. vm_compute. reflexivity.
  - rewrite (HT "A") by repeat constructor. vm_compute. reflexivity.
Defined.

Lemma syncDays_run (userId : string) (localDays : list DayData) (synced : Z) (w : World) :
  exists n w',
    syncDays userId localDays synced w = (Ok n, w') /\
    remote_step w w' /\
    synced <= n <= synced + Z.of_nat (length localDays) /\
    (net w = [] -> n = synced).
Proof.
  revert synced w. induction localDays as [|day rest IH]; intros synced w.
  - exists synced, w. cbn. split; [reflexivity|]. split; [reflexivity|]. split; [lia|].
    reflexivity.
  - cbn [syncDays length]. unfold mbind, M_bind.
    pose proof (remote_step_syncDayToSupabase userId day w) as Hs.
    destruct (no_throw_syncDayToSupabase userId day w) as [b Hb].
    assert (Hnone : net w = [] ->
                    fst (syncDayToSupabase userId day w) = Ok false /\
                    net (snd (syncDayToSupabase userId day w)) = []).
    { intros Hn.
      unfold syncDayToSupabase, try_catch, mbind, M_bind, supabase, row_id.
      rewrite Hn. cbn. split; reflexivity. }
    destruct (syncDayToSupabase userId day w) as [r w1]. cbn in *. subst r.
    destruct (IH (if b then synced + 1 else synced) w1) as (n & w' & Hrun & Hr & Hb & Hz).
    exists n, w'. split; [exact Hrun|]. split; [now transitivity w1|].
    split; [destruct b; lia|].
    intros Hn. destruct (Hnone Hn) as [[= ->] Hn1]. now apply Hz.
Qed.

(** X15. [syncLocalDataToSupabase] never throws and leaves the local
    store and the script of storage outcomes alone; the count it returns
    lies between 0 and the number of days given, and is 0 with no call
    made when no day is given. *)
Theorem syncLocalDataToSupabase_counts_synced_days (userId : string)
    (localDays : list DayData) (w : World) :
  exists n w',
    syncLocalDataToSupabase userId localDays w = (Ok n, w') /\
    0 <= n <= Z.of_nat (length localDays) /\
    store w' = store w /\ disk w' = disk w /\
    (localDays = [] -> n = 0 /\ w' = w).
Proof.
  destruct (syncDays_run userId localDays 0 w) as (n & w' & Hrun & Hr & Hb & _).
  exists n, w'. split; [exact Hrun|]. split; [lia|].
  destruct Hr as (Hst & Hd & _). split; [exact Hst|]. split; [exact Hd|].
  intros ->. cbn in Hrun. now injection Hrun as <- <-.
Qed.

Lemma supabase_answers (q : query) (w : World) :
  Forall answers (take 1 (net w)) ->
  exists d e,
    supabase q w = (Ok (d, e), mkWorld (store w) (disk w) (tail (net w)) (now w)
                                 (trace w ++ [Remote q])).
Proof.
  intros Hans. unfold supabase.
  destruct (net w) as [|[|d e] n]; cbn; eauto.
  exfalso. inversion Hans as [|? ? Hr _]. now apply Hr.
Qed.

Lemma answers_take_le (n m : nat) (l : list reply) :
  (m <= n)%nat -> Forall answers (take n l) -> Forall answers (take m l).
Proof.
  intros Hle H. rewrite <- (take_take_le m n) by exact Hle. now apply Forall_take.
Qed.

Lemma answers_drop (k n : nat) (l : list reply) :
  Forall answers (take (k + n) l) -> Forall answers (take n (drop k l)).
Proof. intros H. rewrite take_drop_commute. now apply Forall_drop. Qed.

Lemma tail_drop {A} (l : list A) : tail l = drop 1 l.
Proof. destruct l; [reflexivity|]. cbn. now rewrite drop_0. Qed.

Lemma summarize_run (rows : list DayRow) (w : World) :
  Forall answers (take (2 * length rows) (net w)) ->
  exists summaries w' tl,
    summarize rows w = (Ok summaries, w') /\
    store w' = store w /\ disk w' = disk w /\ now w' = now w /\
    net w' = drop (2 * length rows) (net w) /\
    trace w' = (trace w ++ tl)%list /\
    Forall remote_event tl /\
    remote_queries tl = childQueries rows /\
    Forall2 summary_of rows summaries.
Proof.
  revert w. induction rows as [|day rows IH]; intros w Hans.
  - exists [], w, []. cbn. rewrite app_nil_r. repeat split; constructor.
  - cbn [summarize]. unfold mbind at 1, M_bind at 1.
    cbn [length] in Hans.
    destruct (supabase_answers (SelectFeeders (id day)) w) as (d1 & e1 & ->).
    { apply (answers_take_le (2 * S (length rows)) 1); [lia | exact Hans]. }
    set (w1 := mkWorld _ _ _ _ _).
    unfold mbind at 1, M_bind at 1.
    destruct (supabase_answers (SelectTurbines (id day)) w1) as (d2 & e2 & ->).
    { unfold w1; cbn [net]. rewrite tail_drop. apply answers_drop.
      apply (answers_take_le (2 * S (length rows)) (1 + 1)); [lia | exact Hans]. }
    set (w2 := mkWorld _ _ _ _ _).
    assert (Hnet2 : net w2 = drop 2 (net w)).
    { unfold w2, w1; cbn [net]. rewrite !tail_drop. now rewrite drop_drop. }
    destruct (IH w2) as (summaries & w' & tl & Hrun & Hst & Hd & Ho & Hn & Ht & Hev & Hq & Hall).
    { rewrite Hnet2. apply answers_drop.
      apply (answers_take_le (2 * S (length rows)) (2 + 2 * length rows));
        [lia | exact Hans]. }
    unfold mbind at 1, M_bind at 1. rewrite Hrun.
    exists (daySummary day (data_feeders d1) (data_turbines d2) :: summaries), w',
      (Remote (SelectFeeders (id day)) :: Remote (SelectTurbines (id day)) :: tl).
    split; [reflexivity|]. split; [exact Hst|]. split; [exact Hd|].
    split; [exact Ho|]. split.
    { rewrite Hn, Hnet2, drop_drop. f_equal. cbn [length]. lia. }
    split; [rewrite Ht; unfold w2, w1; cbn; now rewrite <- !app_assoc|].
    split; [repeat constructor; exact Hev|].
    split; [change (childQueries (day :: rows)) with
              (SelectFeeders (id day) :: SelectTurbines (id day) :: childQueries rows);
            rewrite <- Hq; reflexivity|].
    constructor; [|exact Hall]. repeat split.
Qed.

(** X16. [fetchMonthDaysFromSupabase] never throws and never touches
    the local store.  When the listing and the child queries are
    answered, it returns one summary per listed day row, in the order of
    the listing, each with the row's id and date and with consumption
    equal to production minus [exportVal], after two child queries per
    day; when the listing answers with an error or without rows it
    returns no summary and logs a line. *)
Theorem fetchMonthDaysFromSupabase_lists_each_day (userId monthKey : string)
    (w : World) :
  (exists summaries w',
      fetchMonthDaysFromSupabase userId monthKey w = (Ok summaries, w') /\
      store w' = store w /\ disk w' = disk w) /\
  (forall rows rest,
      net w = Answers (DDays rows) None :: rest ->
      Forall answers (take (2 * length rows) rest) ->
      exists summaries w' tl,
        fetchMonthDaysFromSupabase userId monthKey w = (Ok summaries, w') /\
        Forall2 summary_of rows summaries /\
        trace w' = (trace w ++ Remote (SelectMonthDays userId monthKey) :: tl)%list /\
        Forall remote_event tl /\
        remote_queries tl = childQueries rows) /\
  (forall d e rest,
      net w = Answers d e :: rest -> is_Some e \/ data_days d = None ->
      fetchMonthDaysFromSupabase userId monthKey w
      = (Ok [], mkWorld (store w) (disk w) rest (now w)
                  (trace w ++ [Remote (SelectMonthDays userId monthKey);
                               ConsoleError "Error fetching month days:"]))).
Proof.
  split; [|split].
  - assert (Hr : steps remote_step (fetchMonthDaysFromSupabase userId monthKey)).
    { assert (Hs : forall rows, steps remote_step (summarize rows)).
      { induction rows as [|day rows IH]; cbn [summarize];
          steps_by ltac:(first [exact IH | apply remote_step_supabase]). }
      unfold fetchMonthDaysFromSupabase.
      steps_by ltac:(first [apply Hs | apply remote_step_supabase
                           | apply remote_step_emit; exact I]). }
    specialize (Hr w). destruct Hr as (Hst & Hd & _).
    assert (Hn : no_throw (fetchMonthDaysFromSupabase userId monthKey)).
    { apply no_throw_try_catch. intros e.
      apply no_throw_bind; [apply no_throw_emit | intros _; apply no_throw_ret]. }
    destruct (Hn w) as [s Hs].
    destruct (fetchMonthDaysFromSupabase userId monthKey w) as [r w']. cbn in *.
    subst r. exists s, w'. repeat split; assumption.
  - intros rows rest Hnet Hans.
    unfold fetchMonthDaysFromSupabase, try_catch.
    unfold mbind at 1, M_bind at 1. unfold supabase at 1. rewrite Hnet.
    cbn [data_days].
    set (w0 := mkWorld _ _ _ _ _).
    destruct (summarize_run rows w0 Hans)
      as (summaries & w' & tl & Hrun & _ & _ & _ & _ & Ht & Hev & Hq & Hall).
    rewrite Hrun. exists summaries, w', tl.
    split; [reflexivity|]. split; [exact Hall|]. split.
    { rewrite Ht. unfold w0; cbn. now rewrite <- app_assoc. }
    split; assumption.
  - intros d e rest Hnet Hbad.
    unfold fetchMonthDaysFromSupabase, try_catch, mbind, M_bind, supabase.
    rewrite Hnet.
    destruct e as [c|]; cbn; [now rewrite <- app_assoc|].
    destruct Hbad as [[? [=]]|Hd]. rewrite Hd. cbn. now rewrite <- app_assoc.
Qed.

Global Instance silent_step_preorder : PreOrder silent_step.
Proof.
  split.
  - intros w. exists []. split; [now rewrite app_nil_r | constructor].
  - intros w1 w2 w3 (tl1 & Ht1 & Hf1) (tl2 & Ht2 & Hf2).
    exists (tl1 ++ tl2)%list. split.
    + rewrite Ht2, Ht1. now rewrite app_assoc.
    + apply Forall_app. now split.
Qed.

Lemma silent_step_emit (e : event) : ~ notification e -> steps silent_step (emit e).
Proof. intros He w. exists [e]. split; [reflexivity | now repeat constructor]. Qed.

Lemma silent_step_storage_call {A} (e : event)
    (run : gmap string text -> A * gmap string text) :
  ~ notification e -> steps silent_step (storage_call e run).
Proof.
  intros He w. unfold storage_call.
  destruct (disk w) as [|[|] d]; simpl; try destruct (run (store w)); simpl;
    exists [e]; (split; [reflexivity | now repeat constructor]).
Qed.

Lemma silent_step_supabase (q : query) : steps silent_step (supabase q).
Proof.
  intros w. unfold supabase.
  destruct (net w) as [|[|d e] n]; simpl;
    exists [Remote q]; (split; [reflexivity | repeat constructor; tauto]).
Qed.

Ltac silent_leaf :=
  first [ apply silent_step_storage_call; simpl; tauto
        | apply silent_step_supabase
        | apply silent_step_emit; simpl; tauto ].

Lemma silent_step_saveDay (user : option string) (day : DayData) (dk : string) :
  steps silent_step (saveDay user day dk).
Proof.
  unfold saveDay, saveDayData, upsertDayIndex, getDayIndex, syncDayToSupabase,
    AsyncStorage.getItem, AsyncStorage.setItem.
  steps_by silent_leaf.
Qed.

(** X17. [handleSave] on a screen that is already saving does
    nothing.  Otherwise it resolves and shows exactly one message, as the
    last thing it does: the error message when the write of the record is
    rejected, in which case nothing was stored or sent, and the success
    message when it is accepted, whatever the remote did. *)
Theorem handleSave_reports_the_local_write (t : string -> string)
    (user : option string) (day : DayData) (dk : string) (w : World) :
  handleSave t true (saveDay user day dk) w = (Ok tt, w) /\
  exists w' tl,
    handleSave t false (saveDay user day dk) w = (Ok tt, w') /\
    Forall (fun e => ~ notification e) tl /\
    (hd false (disk w) = true ->
     trace w' = (trace w ++ tl ++ [ShowError (t "msg_error_generic")])%list /\
     store w' = store w /\ remote_queries tl = []) /\
    (hd false (disk w) = false ->
     trace w' = (trace w ++ tl ++ [ShowSuccess (t "msg_saved_success")])%list /\
     store w' !! storageKey dk
       = Some (stringify_day {| dateKey := dk; feeders := feeders day;
                                turbines := turbines day |})).
Proof.
  split; [reflexivity|].
  set (dayToSave := {| dateKey := dk; feeders := feeders day; turbines := turbines day |}).
  destruct (hd false (disk w)) eqn:Hh.
  - destruct (disk w) as [|[|] d] eqn:Hd; try discriminate.
    pose proof (saveDayData_rejected dayToSave w d Hd) as Hrej.
    eexists _, [SetItem (storageKey dk) (stringify_day dayToSave);
                ConsoleError "Error saving day data:"].
    assert (Hrun : saveDay user day dk w
                   = (Throw StorageError, snd (saveDayData dayToSave w))).
    { unfold saveDay. fold dayToSave. unfold mbind at 1, M_bind at 1.
      now rewrite Hrej. }
    split.
    { unfold handleSave, try_finally, try_catch.
      unfold mbind at 1, M_bind at 1. rewrite Hrun, Hrej. cbn. reflexivity. }
    split; [repeat constructor; simpl; tauto|].
    split; [|discriminate].
    intros _. cbn. split; [now rewrite <- app_assoc|]. split; reflexivity.
  - destruct (saveDayData_committed dayToSave w) as (w1 & tl1 & Hsave & Hrec & _).
    { exact Hh. }
    pose proof (silent_step_saveDay user day dk w) as (tl & Ht & Hf).
    assert (Hok : exists w2, saveDay user day dk w = (Ok tt, w2) /\
                             store w2 !! storageKey dk = Some (stringify_day dayToSave)).
    { unfold saveDay. fold dayToSave. unfold mbind at 1, M_bind at 1. rewrite Hsave.
      destruct user as [userId|]; [|eauto].
      destruct (mirror_ok userId dayToSave w1) as (w2 & Hm & Hs & _).
      exists w2. split; [exact Hm|]. now rewrite Hs. }
    destruct Hok as (w2 & Hrun & Hst). rewrite Hrun in Ht. cbn in Ht.
    eexists _, tl. split.
    { unfold handleSave, try_finally, try_catch.
      unfold mbind at 1, M_bind at 1. rewrite Hrun. cbn. reflexivity. }
    split; [exact Hf|]. split; [discriminate|].
    intros _. cbn. split; [now rewrite Ht, <- app_assoc | exact Hst].
Qed.

Lemma num_finite (v : option string) : isFinite (num v) = true.
Proof. unfold num. destruct (isFinite (Number v)) eqn:E; [exact E | reflexivity]. Qed.

Lemma finite_not_nan (x : number) : isFinite x = true -> is_nan x = false.
Proof.
  unfold isFinite, is_finite. destruct (is_nan x); [discriminate | reflexivity].
Qed.

Lemma lt_le (a b : number) : lt a b = true -> le a b = true.
Proof.
  unfold lt, le. rewrite ltb_spec, leb_spec. unfold SFltb, SFleb.
  destruct (SFcompare (Prim2SF a) (Prim2SF b)) as [[]|]; congruence.
Qed.

Lemma le_not_lt (a b : number) : le b a = true -> lt a b = false.
Proof.
  intros H. destruct (lt a b) eqn:E; [|reflexivity].
  apply lt_not_le in E. congruence.
Qed.

(** X19. The hours [turbineRowComputed] divides by are a finite
    number not below 0.000001: 24 when the hours are absent or empty,
    0.000001 when they read as a number at or below that, and the number
    they read as otherwise; the two readings are finite as well. *)
Theorem turbineRowComputed_hours_are_positive (day : DayData) (t : string) :
  let row := turbineRowComputed day t in
  isFinite (TurbineComputed.prev row) = true /\
  isFinite (TurbineComputed.pres row) = true /\
  isFinite (TurbineComputed.hours row) = true /\
  le 0.000001 (TurbineComputed.hours row) = true /\
  (truthy_str (turbine_hours day t) = false -> TurbineComputed.hours row = 24%float) /\
  (truthy_str (turbine_hours day t) = true ->
   le (num (turbine_hours day t)) 0.000001 = true ->
   TurbineComputed.hours row = 0.000001%float) /\
  (truthy_str (turbine_hours day t) = true ->
   lt 0.000001 (num (turbine_hours day t)) = true ->
   TurbineComputed.hours row = num (turbine_hours day t)).
Proof.
  cbv zeta. unfold turbineRowComputed. cbn [TurbineComputed.prev TurbineComputed.pres
                                             TurbineComputed.hours].
  split; [apply num_finite|]. split; [apply num_finite|].
  set (h := num (or_str (turbine_hours day t) "24")).
  assert (Hfin : isFinite h = true) by apply num_finite.
  assert (Hmax : Math_max 0.000001 h = if lt 0.000001 h then h else 0.000001%float).
  { unfold Math_max. rewrite (finite_not_nan h Hfin). cbn [is_nan orb].
    change (is_nan 0.000001) with false. cbn [orb].
    fold (lt 0.000001 h). destruct (lt 0.000001 h); [reflexivity|].
    destruct (h <? 0.000001)%float; reflexivity. }
  rewrite Hmax.
  split; [destruct (lt 0.000001 h); [exact Hfin | reflexivity]|].
  split; [destruct (lt 0.000001 h) eqn:E; [now apply lt_le | reflexivity]|].
  split; [|split].
  - intros Hf. unfold h, or_str. rewrite Hf. reflexivity.
  - intros Ht Hle. unfold h, or_str in *. rewrite Ht in *.
    now rewrite (le_not_lt _ _ Hle).
  - intros Ht Hlt. unfold h, or_str in *. rewrite Ht in *. now rewrite Hlt.
Qed.

Lemma opp_abs_of_not_ge (x : number) : ge x 0 = false -> (- Math_abs x)%float = x.
Proof.
  unfold ge, Math_abs. rewrite leb_spec. intros H.
  apply Prim2SF_inj. rewrite opp_spec, abs_spec.
  change (Prim2SF 0) with (S754_zero false) in H.
  destruct (Prim2SF x) as [s|s| |s m e]; try destruct s; try reflexivity;
    discriminate.
Qed.

Lemma length_insert_by {A} (cmp : A -> A -> number) (x : A) (l : list A) :
  length (insert_by cmp x l) = S (length l).
Proof.
  induction l as [|y l IH]; simpl; [reflexivity|].
  destruct (lt (cmp x y) 0); simpl; [reflexivity | now rewrite IH].
Qed.

Lemma length_sort_by {A} (cmp : A -> A -> number) (l : list A) :
  length (sort_by cmp l) = length l.
Proof.
  unfold sort_by.
  enough (H : forall acc, length (foldl (fun acc x => insert_by cmp x acc) acc l)
                          = (length acc + length l)%nat) by apply (H []).
  induction l as [|x l IH]; intros acc; simpl; [lia|].
  rewrite IH, length_insert_by. lia.
Qed.

(** X20. The daily sheet of the Excel report has a header and one
    row for each of the given days, up to 31; each row belongs to one of
    the given days and holds its formatted date, its production, its
    feeder net flow with its sign (negative on a withdrawal day), its
    consumption and its gas total, each rounded to two decimals. *)
Theorem daily_sheet_flow_is_signed (t : string -> string) (language : string)
    (localeCompare : string -> string -> number)
    (formatDate : string -> string -> string) (allDays : list DayData) :
  length (dailyData t language localeCompare formatDate allDays)
    = S (Nat.min 31 (length allDays)) /\
  (forall row, row ∈ tail (dailyData t language localeCompare formatDate allDays) ->
     exists day, day ∈ allDays /\
       row = [ Str (formatDate (dateKey day) language);
               Num (round2 (turbineProductionMwh day));
               Num (round2 (feederExport day));
               Num (round2 (turbineProductionMwh day - feederExport day)%float);
               Num (round2 (totalGas day)) ]).
Proof.
  split.
  - unfold dailyData, sortedDaysOf, slice_last. cbn [length].
    rewrite length_fmap, length_drop, length_sort_by. lia.
  - intros row Hrow. unfold dailyData in Hrow. cbn [tail] in Hrow.
    apply list_elem_of_fmap in Hrow as (day & -> & Hday).
    exists day. split.
    + unfold sortedDaysOf in Hday. apply elem_of_slice_last in Hday.
      now apply elem_of_sort_by in Hday.
    + unfold dailyRow, computeDayStats.
      cbn [DayStats.isExport DayStats.exportVal DayStats.production
             DayStats.consumption DayStats.gasConsumed].
      destruct (ge (feederExport day) 0) eqn:E; [reflexivity|].
      now rewrite (opp_abs_of_not_ge _ E).
Qed.

Lemma split_on_prefix (sep : ascii) (a b : string) :
  Forall (fun c => c ≠ sep) (list_ascii_of_string a) ->
  split_on sep (a ++ String sep b) = a :: split_on sep b.
Proof.
  induction a as [|c a IH]; intros Ha.
  - change ("" ++ String sep b) with (String sep b).
    change (split_on sep (String sep b))
      with (if Ascii.eqb sep sep then EmptyString :: split_on sep b
            else match split_on sep b with
                 | p :: ps => String sep p :: ps
                 | [] => [String sep EmptyString]
                 end).
    now rewrite Ascii.eqb_refl.
  - cbn in Ha. inversion Ha as [|? ? Hc Hrest]; subst.
    change (String c a ++ String sep b) with (String c (a ++ String sep b)).
    change (split_on sep (String c (a ++ String sep b)))
      with (if Ascii.eqb c sep then EmptyString :: split_on sep (a ++ String sep b)
            else match split_on sep (a ++ String sep b) with
                 | p :: ps => String c p :: ps
                 | [] => [String c EmptyString]
                 end).
    rewrite (proj2 (Ascii.eqb_neq c sep) Hc).
    now rewrite (IH Hrest).
Qed.

(** X21. [formatMonth] returns the month key itself in Arabic; in
    any other language, for a year text without a dash, it returns the
    English short name of the month followed by the year for the months
    01 to 12, and the text [undefined] followed by the year for the
    months 00 and 13 and for a key without a month. *)
Theorem formatMonth_names_the_month (language year : string) :
  (language = "ar" -> forall monthStr, formatMonth language monthStr = monthStr) /\
  (language ≠ "ar" ->
   Forall (fun c => c ≠ "-"%char) (list_ascii_of_string year) ->
   (forall m name, 1 <= m <= 12 ->
      monthNames !! Z.to_nat (m - 1) = Some name ->
      formatMonth language (year ++ "-" ++ padStart2 (String_of_int m))
      = name ++ " " ++ year) /\
   formatMonth language (year ++ "-" ++ "00") = "undefined " ++ year /\
   formatMonth language (year ++ "-" ++ "13") = "undefined " ++ year /\
   formatMonth language year = "undefined " ++ year).
Proof.
  split.
  - intros -> monthStr. reflexivity.
  - intros Hl Hy. unfold formatMonth.
    rewrite (proj2 (String.eqb_neq language "ar") Hl).
    assert (Hsplit : forall mm, split_on "-" (year ++ "-" ++ mm)
                                = year :: split_on "-" mm).
    { intros mm. apply (split_on_prefix "-" year mm Hy). }
    assert (Hone : split_on "-" year = [year]).
    { clear Hsplit. induction year as [|c y IH]; [reflexivity|].
      cbn in Hy. inversion Hy as [|? ? Hc Hrest]; subst.
      change (split_on "-" (String c y))
        with (if Ascii.eqb c "-" then EmptyString :: split_on "-" y
              else match split_on "-" y with
                   | p :: ps => String c p :: ps
                   | [] => [String c EmptyString]
                   end).
      rewrite (proj2 (Ascii.eqb_neq c "-") Hc). now rewrite (IH Hrest). }
    split; [|split; [|split]].
    + intros m name Hm Hname. rewrite Hsplit.
      assert (Hcases : m = 1 \/ m = 2 \/ m = 3 \/ m = 4 \/ m = 5 \/ m = 6 \/
                       m = 7 \/ m = 8 \/ m = 9 \/ m = 10 \/ m = 11 \/ m = 12) by lia.
      repeat (destruct Hcases as [->|Hcases]; [cbn in Hname |- *; now injection Hname as <-|]).
      subst m. cbn in Hname |- *. now injection Hname as <-.
    + rewrite Hsplit. reflexivity.
    + rewrite Hsplit. reflexivity.
    + rewrite Hone. reflexivity.
Qed.

Lemma formatMonth_names_the_month_witness :
  "en" ≠ "ar" /\
  formatMonth "en" "2026-01" = "Jan 2026" /\ formatMonth "en" "2026-12" = "Dec 2026".
Proof.
  assert (Hl : "en" ≠ "ar") by discriminate.
  assert (Hy : Forall (fun c => c ≠ "-"%char) (list_ascii_of_string "2026")).
  { repeat constructor; discriminate. }
  split; [exact Hl|].
  pose proof (proj1 (proj2 (formatMonth_names_the_month "en" "2026") Hl Hy)) as H.
  split.
  - apply (H 1 "Jan"); [lia | reflexivity].
  - apply (H 12 "Dec"); [lia | reflexivity].
Defined.

Lemma reportTotals_snoc (mk : string) (days : list DayData) (d : DayData) :
  reportTotals mk (days ++ [d]) =
    if inMonth mk d then
      ReportMonth.mk mk
        (ReportMonth.days (reportTotals mk days) + 1)%float
        (ReportMonth.totalProduction (reportTotals mk days) + turbineProductionMwh d)%float
        (ReportMonth.totalExport (reportTotals mk days) + feederExport d)%float
        (ReportMonth.totalConsumption (reportTotals mk days)
         + (turbineProductionMwh d - feederExport d))%float
    else reportTotals mk days.
Proof.
  unfold reportTotals. rewrite List.filter_app. simpl.
  destruct (inMonth mk d); [|now rewrite app_nil_r].
  rewrite !fmap_app. simpl. now rewrite !sumf_snoc.
Qed.

Lemma reportTotals_no_day (mk : string) (days : list DayData) :
  existsb (inMonth mk) days = false ->
  reportTotals mk days = ReportMonth.mk mk 0%float 0%float 0%float 0%float.
Proof.
  intros Hno. unfold reportTotals.
  assert (E : List.filter (inMonth mk) days = []).
  { induction days as [|d days IH]; [reflexivity|]. simpl in *.
    apply orb_false_iff in Hno as [-> Hno]. now apply IH. }
  now rewrite E.
Qed.

Lemma reportMap_lookup (allDays : list DayData) (mk : string) :
  Map_get (foldl reportMonthStep [] allDays) mk =
    if existsb (inMonth mk) allDays then Some (reportTotals mk allDays) else None.
Proof.
  induction allDays as [|d days IH] using rev_ind; [reflexivity|].
  rewrite foldl_snoc, existsb_app. simpl.
  rewrite orb_false_r, reportTotals_snoc.
  set (mp := foldl reportMonthStep [] days) in *.
  assert (Hin : inMonth mk d = String.eqb (monthKey (dateKey d)) mk) by reflexivity.
  rewrite Hin. clear Hin.
  unfold reportMonthStep, Map_has.
  set (kd := monthKey (dateKey d)).
  destruct (String.eqb kd mk) eqn:Ek.
  - apply String.eqb_eq in Ek. subst mk. rewrite orb_true_r.
    destruct (Map_get mp kd) as [m1|] eqn:E1.
    + rewrite bool_decide_eq_true_2 by eauto. cbn [negb]. rewrite E1.
      rewrite Map_get_set, String.eqb_refl.
      destruct (existsb (inMonth kd) days); [|discriminate].
      injection IH as ->. reflexivity.
    + rewrite bool_decide_eq_false_2 by (intros [? ?]; discriminate). cbn [negb].
      rewrite Map_get_set, String.eqb_refl, Map_get_set, String.eqb_refl.
      destruct (existsb (inMonth kd) days) eqn:Ex; [discriminate|].
      now rewrite (reportTotals_no_day _ _ Ex).
  - rewrite orb_false_r.
    destruct (Map_get mp kd) as [m1|] eqn:E1.
    + rewrite bool_decide_eq_true_2 by eauto. cbn [negb]. rewrite E1.
      now rewrite Map_get_set, Ek.
    + rewrite bool_decide_eq_false_2 by (intros [? ?]; discriminate). cbn [negb].
      rewrite Map_get_set, String.eqb_refl, !Map_get_set, Ek. exact IH.
Qed.

Lemma insert_by_perm {A} (cmp : A -> A -> number) (x : A) (l : list A) :
  insert_by cmp x l ≡ₚ x :: l.
Proof.
  induction l as [|y l IH]; simpl; [reflexivity|].
  destruct (lt (cmp x y) 0); [reflexivity|].
  rewrite IH. apply Permutation_swap.
Qed.

Lemma sort_by_perm {A} (cmp : A -> A -> number) (l : list A) : sort_by cmp l ≡ₚ l.
Proof.
  unfold sort_by.
  enough (H : forall acc, foldl (fun acc x => insert_by cmp x acc) acc l
                          ≡ₚ (acc ++ l)%list) by apply (H []).
  induction l as [|x l IH]; intros acc; simpl.
  - now rewrite app_nil_r.
  - rewrite IH, insert_by_perm. simpl. apply Permutation_middle.
Qed.

Lemma reportMap_NoDup (allDays : list DayData) :
  NoDup (fst <$> foldl reportMonthStep [] allDays).
Proof.
  induction allDays as [|d days IH] using rev_ind; [apply NoDup_nil_2|].
  rewrite foldl_snoc.
  set (mp := foldl reportMonthStep [] days) in *.
  unfold reportMonthStep.
  set (mp1 := if negb (Map_has mp (monthKey (dateKey d)))
              then Map_set mp (monthKey (dateKey d)) _ else mp).
  assert (H1 : NoDup (fst <$> mp1)).
  { unfold mp1. destruct (negb _); [now apply Map_set_NoDup | exact IH]. }
  destruct (Map_get mp1 (monthKey (dateKey d))); [now apply Map_set_NoDup | exact H1].
Qed.

Lemma Map_get_elem {V} (m : list (string * V)) (k : string) (v : V) :
  Map_get m k = Some v -> (k, v) ∈ m.
Proof.
  induction m as [|[k0 v0] m IH]; simpl; [discriminate|].
  destruct (String.eqb k0 k) eqn:E.
  - apply String.eqb_eq in E. subst k0. intros [= ->]. left.
  - intros H. right. now apply IH.
Qed.

Lemma existsb_inMonth (mk : string) (allDays : list DayData) :
  existsb (inMonth mk) allDays = true <->
  exists d, d ∈ allDays /\ monthKey (dateKey d) = mk.
Proof.
  rewrite existsb_exists. split.
  - intros (d & Hd & Hin). exists d. split; [now apply list_elem_of_In|].
    now apply String.eqb_eq in Hin.
  - intros (d & Hd & Hk). exists d. split; [now apply list_elem_of_In|].
    unfold inMonth. fold (monthKey (dateKey d)). now apply String.eqb_eq.
Qed.

(** X22. The reports screen shows one card per month key that
    occurs among the days, none twice; the card of a month counts its
    days and sums their production, their signed feeder net flow and
    their consumption, in the order the days are given. *)
Theorem report_month_cards_total_the_signed_flow
    (localeCompare : string -> string -> number) (allDays : list DayData) :
  let cards := reportMonthlyStats localeCompare allDays in
  (forall card,
      card ∈ cards <->
      exists d, d ∈ allDays /\ card = reportTotals (monthKey (dateKey d)) allDays) /\
  NoDup (ReportMonth.month <$> cards).
Proof.
  cbv zeta. unfold reportMonthlyStats.
  set (mp := foldl reportMonthStep [] allDays).
  assert (Hval : forall k v, (k, v) ∈ mp <->
             existsb (inMonth k) allDays = true /\ v = reportTotals k allDays).
  { intros k v. split.
    - intros Hin. pose proof (Map_get_of_elem _ _ _ (reportMap_NoDup allDays) Hin) as Hg.
      unfold mp in Hg. rewrite reportMap_lookup in Hg.
      destruct (existsb (inMonth k) allDays); [|discriminate].
      injection Hg as <-. now split.
    - intros [Hex ->]. apply Map_get_elem. unfold mp.
      now rewrite reportMap_lookup, Hex. }
  split.
  - intros card. rewrite sort_by_perm. unfold Map_values. rewrite list_elem_of_fmap.
    split.
    + intros ([k v] & -> & Hin). apply Hval in Hin as [Hex ->].
      apply existsb_inMonth in Hex as (d & Hd & <-). now exists d.
    + intros (d & Hd & ->). exists (monthKey (dateKey d), reportTotals (monthKey (dateKey d)) allDays).
      split; [reflexivity|]. apply Hval. split; [|reflexivity].
      apply existsb_inMonth. now exists d.
  - rewrite sort_by_perm. unfold Map_values. rewrite <- list_fmap_compose.
    assert (Hk : (ReportMonth.month ∘ snd) <$> mp = fst <$> mp).
    { apply Forall_fmap_ext_1. apply Forall_forall. intros [k v] Hin.
      apply Hval in Hin as [_ ->]. reflexivity. }
    rewrite Hk. apply reportMap_NoDup.
Qed.

Lemma civil_from_days_spec (z : Z) :
  let '(y, m, d) := JsDate.civil_from_days z in
  1 <= m <= 12 /\ 1 <= d <= 31 /\ JsDate.days_from_civil y m d = z.
Proof.
  unfold JsDate.civil_from_days, JsDate.days_from_civil.
  set (Z0 := z + 719468).
  set (era := Z0 / 146097).
  set (doe := Z0 - era * 146097).
  assert (Hdoe : 0 <= doe <= 146096) by (unfold doe, era; Z.div_mod_to_equations; lia).
  set (yoe := (doe - doe / 1460 + doe / 36524 - doe / 146096) / 365).
  set (doy := doe - (365 * yoe + yoe / 4 - yoe / 100)).
  assert (Hy : 0 <= yoe <= 399 /\ 0 <= doy <= 365).
  { unfold doy, yoe. Z.div_mod_to_equations; lia. }
  set (mp := (5 * doy + 2) / 153).
  assert (Hmp : 0 <= mp <= 11) by (unfold mp; Z.div_mod_to_equations; lia).
  set (d := doy - (153 * mp + 2) / 5 + 1).
  assert (Hd : 1 <= d <= 31) by (unfold d, mp; Z.div_mod_to_equations; lia).
  destruct (Z.ltb_spec mp 10) as [Hlt|Hge].
  - assert (Hm : (mp + 3 <=? 2) = false) by lia. rewrite Hm.
    assert (H2 : (2 <? mp + 3) = true) by lia. rewrite H2.
    split; [lia|]. split; [lia|].
    replace (mp + 3 - 3) with mp by lia.
    replace ((yoe + era * 400) / 400) with era by (Z.div_mod_to_equations; lia).
    replace (yoe + era * 400 - era * 400) with yoe by lia.
    clear Hdoe Hy Hmp Hd. clearbody mp yoe era. unfold d, doy, doe, Z0. lia.
  - assert (Hm : (mp - 9 <=? 2) = true) by lia. rewrite Hm.
    assert (H2 : (2 <? mp - 9) = false) by lia. rewrite H2.
    split; [lia|]. split; [lia|].
    replace (mp - 9 + 9) with mp by lia.
    replace (yoe + era * 400 + 1 - 1) with (yoe + era * 400) by lia.
    replace ((yoe + era * 400) / 400) with era by (Z.div_mod_to_equations; lia).
    replace (yoe + era * 400 - era * 400) with yoe by lia.
    clear Hdoe Hy Hmp Hd. clearbody mp yoe era. unfold d, doy, doe, Z0. lia.
Qed.

Lemma digit_in_char (k : Z) : 0 <= k <= 9 -> digit_in 10 (digit_char k) = Some (Z.to_N k).
Proof.
  intros H.
  assert (Hc : k = 0 \/ k = 1 \/ k = 2 \/ k = 3 \/ k = 4 \/ k = 5 \/ k = 6 \/ k = 7
               \/ k = 8 \/ k = 9) by lia.
  repeat (destruct Hc as [->|Hc]; [reflexivity|]). subst k. reflexivity.
Qed.

Lemma digit_char_not_dash (k : Z) : digit_char k ≠ "-"%char.
Proof. unfold digit_char, pretty_N_char. repeat case_match; discriminate. Qed.

Lemma pretty_Z_pos (y : Z) :
  0 < y -> pretty y = pretty_N_go (Z.to_N y) "".
Proof.
  intros H. destruct y as [|p|p]; try lia.
  cbn. unfold pretty, pretty_positive, pretty, pretty_N. cbn.
  reflexivity.
Qed.

Ltac zdiv := zify; Z.to_euclidean_division_equations; lia.

Lemma pretty_N_go_digit (x : N) (s : string) :
  (0 < x < 10)%N -> pretty_N_go x s = String (pretty_N_char x) s.
Proof.
  intros H. rewrite pretty_N_go_step by lia.
  replace (x `div` 10)%N with 0%N by zdiv.
  replace (x `mod` 10)%N with x by zdiv.
  apply pretty_N_go_0.
Qed.

Lemma pretty_four_digits (y : Z) :
  1000 <= y <= 9999 ->
  pretty y = String (digit_char (y / 1000))
               (String (digit_char (y / 100 mod 10))
                  (String (digit_char (y / 10 mod 10))
                     (String (digit_char (y mod 10)) ""))).
Proof.
  intros H. rewrite pretty_Z_pos by lia. unfold digit_char.
  rewrite pretty_N_go_step by lia.
  rewrite pretty_N_go_step by zdiv.
  rewrite pretty_N_go_step by zdiv.
  rewrite pretty_N_go_digit by zdiv.
  repeat f_equal; zdiv.
Qed.

Lemma padStart2_two_digits (n : Z) :
  0 <= n <= 99 ->
  padStart2 (String_of_int n)
  = String (digit_char (n / 10)) (String (digit_char (n mod 10)) "").
Proof.
  intros H. unfold String_of_int.
  destruct (Z.eq_dec n 0) as [->|Hn]; [reflexivity|].
  rewrite pretty_Z_pos by lia. unfold digit_char.
  destruct (Z_lt_le_dec n 10) as [Hlt|Hge].
  - rewrite pretty_N_go_digit by lia. cbn.
    replace (Z.to_N (n / 10)) with 0%N by zdiv.
    replace (Z.to_N (n mod 10)) with (Z.to_N n) by zdiv. reflexivity.
  - rewrite pretty_N_go_step by lia.
    rewrite pretty_N_go_digit by zdiv. cbn.
    repeat f_equal; zdiv.
Qed.

Lemma all_digits_four (a b c e : Z) :
  0 <= a <= 9 -> 0 <= b <= 9 -> 0 <= c <= 9 -> 0 <= e <= 9 ->
  JsDate.all_digits
    (String (digit_char a) (String (digit_char b)
       (String (digit_char c) (String (digit_char e) ""))))
  = Some (1000 * a + 100 * b + 10 * c + e).
Proof.
  intros Ha Hb Hc He. unfold JsDate.all_digits. cbn [scan_digits].
  rewrite !digit_in_char by assumption. cbn [scan_digits].
  unfold digits_value. cbn [foldl]. f_equal. lia.
Qed.

Lemma all_digits_two (a b : Z) :
  0 <= a <= 9 -> 0 <= b <= 9 ->
  JsDate.all_digits (String (digit_char a) (String (digit_char b) ""))
  = Some (10 * a + b).
Proof.
  intros Ha Hb. unfold JsDate.all_digits. cbn [scan_digits].
  rewrite !digit_in_char by assumption. cbn [scan_digits].
  unfold digits_value. cbn [foldl]. f_equal. lia.
Qed.

Lemma year_of_key_day (z : Z) :
  firstKeyDay <= z <= lastKeyDay ->
  1000 <= fst (fst (JsDate.civil_from_days z)) <= 9999.
Proof.
  intros Hz. pose proof (civil_from_days_spec z) as Hs.
  destruct (JsDate.civil_from_days z) as [[y m] d]. cbn [fst].
  destruct Hs as (Hm & Hd & Hday). subst z.
  unfold firstKeyDay, lastKeyDay in Hz.
  change (JsDate.days_from_civil 1000 1 1) with (-354285) in Hz.
  change (JsDate.days_from_civil 9999 12 31) with 2932896 in Hz.
  unfold JsDate.days_from_civil in Hz.
  destruct (Z.leb_spec m 2), (Z.ltb_spec 2 m); try lia;
    Z.div_mod_to_equations; lia.
Qed.

Lemma keyOfDay_chars (z : Z) :
  firstKeyDay <= z <= lastKeyDay ->
  let '(y, m, d) := JsDate.civil_from_days z in
  keyOfDay z =
    String (digit_char (y / 1000)) (String (digit_char (y / 100 mod 10))
      (String (digit_char (y / 10 mod 10)) (String (digit_char (y mod 10))
        (String "-" (String (digit_char (m / 10)) (String (digit_char (m mod 10))
          (String "-" (String (digit_char (d / 10)) (String (digit_char (d mod 10))
            ""))))))))).
Proof.
  intros Hz. pose proof (year_of_key_day z Hz) as Hy.
  pose proof (civil_from_days_spec z) as Hs. unfold keyOfDay.
  destruct (JsDate.civil_from_days z) as [[y m] d]. cbn [fst] in Hy.
  destruct Hs as (Hm & Hd & _).
  unfold String_of_int at 1. rewrite (pretty_four_digits y Hy).
  rewrite (padStart2_two_digits m) by lia. rewrite (padStart2_two_digits d) by lia.
  reflexivity.
Qed.

Lemma parse_keyOfDay (z : Z) :
  firstKeyDay <= z <= lastKeyDay ->
  JsDate.parse (keyOfDay z) = Some (z * JsDate.msPerDay).
Proof.
  intros Hz. pose proof (year_of_key_day z Hz) as Hy.
  pose proof (keyOfDay_chars z Hz) as Hk.
  pose proof (civil_from_days_spec z) as Hs.
  destruct (JsDate.civil_from_days z) as [[y m] d]. cbn [fst] in Hy.
  destruct Hs as (Hm & Hd & Hday). rewrite Hk. unfold JsDate.parse.
  cbn [String.length Nat.eqb String.substring String.eqb Ascii.eqb Bool.eqb andb].
  rewrite all_digits_four by (Z.div_mod_to_equations; lia).
  cbn [mbind option_bind].
  rewrite !all_digits_two by (Z.div_mod_to_equations; lia).
  cbn [mbind option_bind].
  replace (1000 * (y / 1000) + 100 * (y / 100 mod 10) + 10 * (y / 10 mod 10) + y mod 10)
    with y by (Z.div_mod_to_equations; lia).
  replace (10 * (m / 10) + m mod 10) with m by (Z.div_mod_to_equations; lia).
  replace (10 * (d / 10) + d mod 10) with d by (Z.div_mod_to_equations; lia).
  assert (Hr : (1 <=? m) && (m <=? 12) && (1 <=? d) && (d <=? 31) = true).
  { rewrite !andb_true_iff. repeat split; lia. }
  rewrite Hr. now rewrite Hday.
Qed.

Lemma local_date_east (offsetMinutes z : Z) :
  0 <= offsetMinutes < 1440 ->
  JsDate.local_date offsetMinutes (z * JsDate.msPerDay) = JsDate.civil_from_days z.
Proof.
  intros H. unfold JsDate.local_date, JsDate.msPerDay. f_equal.
  Z.div_mod_to_equations; lia.
Qed.

Lemma local_date_west (offsetMinutes z : Z) :
  -1440 <= offsetMinutes < 0 ->
  JsDate.local_date offsetMinutes (z * JsDate.msPerDay) = JsDate.civil_from_days (z - 1).
Proof.
  intros H. unfold JsDate.local_date, JsDate.msPerDay. f_equal.
  Z.div_mod_to_equations; lia.
Qed.

Lemma days_from_civil_shift (y m d k : Z) :
  JsDate.days_from_civil y m (d + k) = JsDate.days_from_civil y m d + k.
Proof. unfold JsDate.days_from_civil. lia. Qed.

(** The time value [setDate] leaves, for a date at UTC midnight of day [z]
    whose local date is day [zl]. *)
Lemma setDate_run (offsetMinutes z zl k : Z) :
  JsDate.local_date offsetMinutes (z * JsDate.msPerDay) = JsDate.civil_from_days zl ->
  z * JsDate.msPerDay + offsetMinutes * 60000 - zl * JsDate.msPerDay
    = (z * JsDate.msPerDay + offsetMinutes * 60000) mod JsDate.msPerDay ->
  let E := JsDate.engine offsetMinutes in
  @setDate E (z * JsDate.msPerDay) (@getDate E (z * JsDate.msPerDay) + k)
  = (z + k) * JsDate.msPerDay.
Proof.
  intros Hl Hmod. cbn [setDate getDate JsDate.engine]. rewrite Hl.
  pose proof (civil_from_days_spec zl) as Hs.
  destruct (JsDate.civil_from_days zl) as [[y m] d]. destruct Hs as (_ & _ & Hday).
  rewrite days_from_civil_shift, Hday, <- Hmod. lia.
Qed.

Lemma getPreviousDateKey_run (offsetMinutes z zl : Z) :
  firstKeyDay <= z <= lastKeyDay ->
  JsDate.local_date offsetMinutes (z * JsDate.msPerDay) = JsDate.civil_from_days zl ->
  JsDate.local_date offsetMinutes ((z - 1) * JsDate.msPerDay)
    = JsDate.civil_from_days (zl - 1) ->
  z * JsDate.msPerDay + offsetMinutes * 60000 - zl * JsDate.msPerDay
    = (z * JsDate.msPerDay + offsetMinutes * 60000) mod JsDate.msPerDay ->
  @getPreviousDateKey (JsDate.engine offsetMinutes) (keyOfDay z) = keyOfDay (zl - 1).
Proof.
  intros Hz Hl Hl' Hmod. unfold getPreviousDateKey.
  change (@Date_new (JsDate.engine offsetMinutes)) with JsDate.parse.
  rewrite (parse_keyOfDay z Hz).
  cbv zeta.
  change (@getDate (JsDate.engine offsetMinutes) (z * JsDate.msPerDay) - 1)
    with (@getDate (JsDate.engine offsetMinutes) (z * JsDate.msPerDay) + -1).
  rewrite (setDate_run offsetMinutes z zl (-1) Hl Hmod).
  replace (z + -1) with (z - 1) by lia.
  cbn [getFullYear getMonth getDate JsDate.engine]. rewrite Hl'.
  unfold keyOfDay. destruct (JsDate.civil_from_days (zl - 1)) as [[y m] d].
  now replace (m - 1 + 1) with m by lia.
Qed.

(** X23. For a date key with a four-digit year,
    [getPreviousDateKey] returns the key of the day before in a zone at
    or east of Greenwich (offset below 24 hours), and the key of the day
    before that in a zone west of Greenwich, where the key, read as
    midnight UTC, falls on the evening before. *)
Theorem getPreviousDateKey_steps_back_by_zone (offsetMinutes z : Z) :
  firstKeyDay <= z <= lastKeyDay ->
  (0 <= offsetMinutes < 1440 ->
   @getPreviousDateKey (JsDate.engine offsetMinutes) (keyOfDay z) = keyOfDay (z - 1)) /\
  (-1440 <= offsetMinutes < 0 ->
   @getPreviousDateKey (JsDate.engine offsetMinutes) (keyOfDay z) = keyOfDay (z - 2)).
Proof.
  intros Hz. split; intros Ho.
  - apply getPreviousDateKey_run; try assumption.
    + now apply local_date_east.
    + now apply local_date_east.
    + unfold JsDate.msPerDay. Z.div_mod_to_equations; lia.
  - replace (z - 2) with (z - 1 - 1) by lia.
    apply getPreviousDateKey_run; try assumption.
    + now apply local_date_west.
    + now apply local_date_west.
    + unfold JsDate.msPerDay. Z.div_mod_to_equations; lia.
Qed.

Lemma getPreviousDateKey_steps_back_by_zone_witness :
  firstKeyDay <= 20473 <= lastKeyDay /\
  keyOfDay 20473 = "2026-01-20" /\
  @getPreviousDateKey (JsDate.engine 180) "2026-01-20" = "2026-01-19" /\
  @getPreviousDateKey (JsDate.engine (-300)) "2026-01-20" = "2026-01-18".
Proof.
  assert (Hz : firstKeyDay <= 20473 <= lastKeyDay) by (vm_compute; split; discriminate).
  split; [exact Hz|]. split; [vm_compute; reflexivity|].
  pose proof (getPreviousDateKey_steps_back_by_zone 180 20473 Hz) as [He _].
  pose proof (getPreviousDateKey_steps_back_by_zone (-300) 20473 Hz) as [_ Hw].
  split; [apply He; lia | apply Hw; lia].
Defined.

(** ** Linking across zones *)

Lemma keyOfDay_not_empty (z : Z) : isEmpty (keyOfDay z) = false.
Proof.
  unfold keyOfDay. destruct (JsDate.civil_from_days z) as [[y m] d].
  destruct (String_of_int y); reflexivity.
Qed.

Lemma previous_key_east (offsetMinutes z : Z) :
  firstKeyDay <= z <= lastKeyDay -> 0 <= offsetMinutes < 1440 ->
  @getPreviousDateKey (JsDate.engine offsetMinutes) (keyOfDay z) = keyOfDay (z - 1).
Proof.
  intros Hz Ho. apply getPreviousDateKey_run; try assumption.
  - now apply local_date_east.
  - now apply local_date_east.
  - unfold JsDate.msPerDay. Z.div_mod_to_equations; lia.
Qed.

Lemma previous_key_west (offsetMinutes z : Z) :
  firstKeyDay <= z <= lastKeyDay -> -1440 <= offsetMinutes < 0 ->
  @getPreviousDateKey (JsDate.engine offsetMinutes) (keyOfDay z) = keyOfDay (z - 2).
Proof.
  intros Hz Ho. replace (z - 2) with (z - 1 - 1) by lia.
  apply getPreviousDateKey_run; try assumption.
  - now apply local_date_west.
  - now apply local_date_west.
  - unfold JsDate.msPerDay. Z.div_mod_to_equations; lia.
Qed.

Section LoadDaySteps.

Context `{DateEngine}.

Lemma local_step_getDayDataWithLinkedValues (dk : string) :
  steps local_step (getDayDataWithLinkedValues dk).
Proof.
  unfold getDayDataWithLinkedValues, getDayData, day_fields_of, AsyncStorage.getItem.
  steps_by local_leaf.
Qed.

(** Without a user [loadDay] hands out what the local linking gives. *)
Lemma loadDay_without_user (dk : string) (w : World) :
  loadDay None dk w = getDayDataWithLinkedValues dk w.
Proof.
  unfold loadDay, mbind, M_bind.
  destruct (getDayDataWithLinkedValues dk w) as [[a|e] w']; reflexivity.
Qed.

End LoadDaySteps.

(** A fetch whose three queries are answered, the first with a row and
    without an error. *)
Lemma fetchDayFromSupabase_answered (userId dk : string) (row : DayRow)
    (fd td : rdata) (fe te : option string) (rest : list reply) (w : World) :
  net w = Answers (DDay row) None :: Answers fd fe :: Answers td te :: rest ->
  exists tl,
    fetchDayFromSupabase userId dk w
    = (Ok (Some (fetchedDay dk (data_feeders fd) (data_turbines td))),
       mkWorld (store w) (disk w) rest (now w) (trace w ++ tl)) /\
    remote_queries tl
    = [SelectDailyId userId dk; SelectFeeders (id row); SelectTurbines (id row)].
Proof.
  intros Hnet.
  unfold fetchDayFromSupabase, try_catch, mbind, M_bind, supabase.
  rewrite Hnet.
  cbn [row_id data_day mret M_ret net store disk now trace fst snd].
  destruct fe as [c1|], te as [c2|];
    cbn [when_error console_error emit mret M_ret net store disk now trace fst snd];
    eexists; (split; [rewrite <- !app_assoc; cbn [app]; reflexivity | reflexivity]).
Qed.

(** Every fetch asks for the day row of its date first, and for no other
    day row. *)
Lemma fetchDayFromSupabase_queries (userId dk : string) (w : World) :
  exists cloud w' tl more,
    fetchDayFromSupabase userId dk w = (Ok cloud, w') /\
    store w' = store w /\
    trace w' = (trace w ++ tl)%list /\
    remote_queries tl = SelectDailyId userId dk :: more /\
    Forall (fun q => forall u d, q <> SelectDailyId u d) more.
Proof.
  unfold fetchDayFromSupabase, try_catch, mbind, M_bind, supabase, row_id,
    when_error, console_error, emit, throw, mret, M_ret.
  destruct (net w) as [|[|d1 [c1|]] n1]; cbn [fst snd net store disk now trace].
  - eexists _, _, _, _. split; [reflexivity|]. split; [reflexivity|].
    split; [cbn; rewrite <- !app_assoc; reflexivity|].
    split; [reflexivity | constructor].
  - eexists _, _, _, _. split; [reflexivity|]. split; [reflexivity|].
    split; [cbn; rewrite <- !app_assoc; reflexivity|].
    split; [reflexivity | constructor].
  - destruct (String.eqb c1 "PGRST116");
      eexists _, _, _, _; (split; [reflexivity|]); (split; [reflexivity|]);
      (split; [cbn; rewrite <- ?app_assoc; reflexivity|]);
      (split; [reflexivity | constructor]).
  - destruct (data_day d1) as [row|]; cbn [fst snd net store disk now trace].
    + destruct n1 as [|[|d2 e2] n2]; cbn [fst snd net store disk now trace].
      * eexists _, _, _, _. split; [reflexivity|]. split; [reflexivity|].
        split; [cbn; rewrite <- !app_assoc; reflexivity|].
        split; [reflexivity | repeat constructor; discriminate].
      * eexists _, _, _, _. split; [reflexivity|]. split; [reflexivity|].
        split; [cbn; rewrite <- !app_assoc; reflexivity|].
        split; [reflexivity | repeat constructor; discriminate].
      * destruct e2; cbn [fst snd net store disk now trace];
          (destruct n2 as [|[|d3 e3] n3]; cbn [fst snd net store disk now trace];
           [ | | destruct e3 ];
           eexists _, _, _, _; (split; [reflexivity|]); (split; [reflexivity|]);
           (split; [cbn; rewrite <- !app_assoc; reflexivity|]);
           (split; [reflexivity | repeat constructor; discriminate])).
    + eexists _, _, _, _. split; [reflexivity|]. split; [reflexivity|].
      split; [cbn; rewrite <- !app_assoc; reflexivity|].
      split; [reflexivity | constructor].
Qed.

(** The in-place linking of cloud records, entry by entry. *)
Lemma linkCloud_entries (prevCloudData cloudData : DayData) :
  dateKey (linkCloud prevCloudData cloudData) = dateKey cloudData /\
  (forall f,
     feeders (linkCloud prevCloudData cloudData) !! f
     = if bool_decide (f ∈ FEEDERS)
       then linkedFeeder (feeders prevCloudData !! f ≫= end_) (feeders cloudData !! f)
       else feeders cloudData !! f) /\
  (forall t,
     turbines (linkCloud prevCloudData cloudData) !! t
     = if bool_decide (t ∈ TURBINES)
       then linkedTurbine (turbines prevCloudData !! t ≫= present)
              (turbines cloudData !! t)
       else turbines cloudData !! t).
Proof.
  split; [reflexivity|]. split.
  - intros f. unfold linkCloud; cbn [feeders].
    apply (lookup_cloud_feeders (Some (feeders prevCloudData))).
  - intros t. unfold linkCloud; cbn [turbines].
    apply (lookup_cloud_turbines (Some (turbines prevCloudData))).
Qed.

(** East of Greenwich and at Greenwich the record linked from is the one
    stored for the day before. *)
Lemma linking_reads_the_preceding_date_east_of_greenwich
    (offsetMinutes z : Z) (w : World) :
  firstKeyDay <= z <= lastKeyDay ->
  0 <= offsetMinutes < 1440 ->
  exists today w1 linked w',
    getDayData (keyOfDay z) w = (Ok today, w1) /\
    @getDayDataWithLinkedValues (JsDate.engine offsetMinutes) (keyOfDay z) w
    = (Ok linked, w') /\
    @loadDay (JsDate.engine offsetMinutes) None (keyOfDay z) w = (Ok linked, w') /\
    store w' = store w /\
    (store w !! storageKey (keyOfDay (z - 1)) = None -> linked = today) /\
    (forall j, nth 1 (disk w) false = false ->
        store w !! storageKey (keyOfDay (z - 1)) = Some (Json j) ->
        (forall f, f ∈ FEEDERS ->
           feeders linked !! f
           = linkedFeeder (opt_lookup (p_feeders (as_day j)) f ≫= end_)
               (feeders today !! f)) /\
        (forall t, t ∈ TURBINES ->
           turbines linked !! t
           = linkedTurbine (opt_lookup (p_turbines (as_day j)) t ≫= present)
               (turbines today !! t))).
Proof.
  intros Hz Ho.
  destruct (@linking_rule (JsDate.engine offsetMinutes) (keyOfDay z) w)
    as (today & w1 & linked & w' & Hrun & Hlink & Hst & _ & _ & _ & _ & _ & _ & Hnone & Hj & _).
  rewrite (previous_key_east offsetMinutes z Hz Ho) in Hnone, Hj.
  exists today, w1, linked, w'.
  split; [exact Hrun|]. split; [exact Hlink|].
  split; [now rewrite loadDay_without_user|]. split; [exact Hst|].
  split; [exact Hnone|].
  intros j Hd Hs. apply (Hj j); [|exact Hd | exact Hs].
  intros He. pose proof (keyOfDay_not_empty (z - 1)) as Hne. rewrite He in Hne.
  discriminate.
Qed.

(** C3. West of Greenwich the linking does not read the record of the
    immediately preceding date.  For a date key with a four-digit year,
    the local linking, which is also what [loadDay] hands out without a
    user, links from the record stored for the date two days before:
    with a record stored there it applies the carry-forward rule to that
    record; with none it returns today's record as it is, so an [end]
    stored for the day before is not carried into an empty [start], nor
    a [present] into an empty [previous].  With a user, [loadDay] asks
    the remote for the day row of the date two days before, and for no
    other day row besides today's. *)
Theorem linking_skips_the_preceding_date_west_of_greenwich
    (offsetMinutes z : Z) (w : World) :
  firstKeyDay <= z <= lastKeyDay ->
  -1440 <= offsetMinutes < 0 ->
  exists today w1 linked w',
    getDayData (keyOfDay z) w = (Ok today, w1) /\
    @getDayDataWithLinkedValues (JsDate.engine offsetMinutes) (keyOfDay z) w
    = (Ok linked, w') /\
    @loadDay (JsDate.engine offsetMinutes) None (keyOfDay z) w = (Ok linked, w') /\
    store w' = store w /\
    (forall j, nth 1 (disk w) false = false ->
        store w !! storageKey (keyOfDay (z - 2)) = Some (Json j) ->
        (forall f, f ∈ FEEDERS ->
           feeders linked !! f
           = linkedFeeder (opt_lookup (p_feeders (as_day j)) f ≫= end_)
               (feeders today !! f)) /\
        (forall t, t ∈ TURBINES ->
           turbines linked !! t
           = linkedTurbine (opt_lookup (p_turbines (as_day j)) t ≫= present)
               (turbines today !! t))) /\
    (store w !! storageKey (keyOfDay (z - 2)) = None -> linked = today) /\
    (forall yesterday,
        store w !! storageKey (keyOfDay (z - 1)) = Some (stringify_day yesterday) ->
        store w !! storageKey (keyOfDay (z - 2)) = None ->
        (forall f e,
            feeders yesterday !! f ≫= end_ = Some e -> e <> "" ->
            truthy_str (feeders today !! f ≫= start) = false ->
            feeders linked !! f = feeders today !! f /\
            feeders linked !! f ≫= start <> Some e) /\
        (forall t p,
            turbines yesterday !! t ≫= present = Some p -> p <> "" ->
            truthy_str (turbines today !! t ≫= previous) = false ->
            turbines linked !! t = turbines today !! t /\
            turbines linked !! t ≫= previous <> Some p)) /\
    (forall userId row fd fe td te rest,
        net w = Answers (DDay row) None :: Answers fd fe :: Answers td te :: rest ->
        let cloudData := fetchedDay (keyOfDay z) (data_feeders fd) (data_turbines td) in
        exists data w'' w2 prevCloud tl more,
          @loadDay (JsDate.engine offsetMinutes) (Some userId) (keyOfDay z) w
          = (Ok data, w'') /\
          fetchDayFromSupabase userId (keyOfDay z) w' = (Ok (Some cloudData), w2) /\
          fetchDayFromSupabase userId (keyOfDay (z - 2)) w2 = (Ok prevCloud, w'') /\
          match prevCloud with
          | None => data = cloudData
          | Some prevCloudData =>
              dateKey data = keyOfDay z /\
              (forall f, f ∈ FEEDERS ->
                 feeders data !! f
                 = linkedFeeder (feeders prevCloudData !! f ≫= end_)
                     (feeders cloudData !! f)) /\
              (forall t, t ∈ TURBINES ->
                 turbines data !! t
                 = linkedTurbine (turbines prevCloudData !! t ≫= present)
                     (turbines cloudData !! t))
          end /\
          trace w'' = (trace w' ++ tl)%list /\
          remote_queries tl
          = SelectDailyId userId (keyOfDay z) :: SelectFeeders (id row)
            :: SelectTurbines (id row)
            :: SelectDailyId userId (keyOfDay (z - 2)) :: more /\
          Forall (fun q => forall u d, q <> SelectDailyId u d) more).
Proof.
  intros Hz Ho.
  pose proof (previous_key_west offsetMinutes z Hz Ho) as Hprev.
  pose proof (keyOfDay_not_empty (z - 2)) as Hne.
  destruct (@linking_rule (JsDate.engine offsetMinutes) (keyOfDay z) w)
    as (today & w1 & linked & w' & Hrun & Hlink & Hst & _ & _ & _ & _ & _ & _ & Hnone & Hj & _).
  rewrite Hprev in Hnone, Hj.
  exists today, w1, linked, w'.
  split; [exact Hrun|]. split; [exact Hlink|].
  split; [now rewrite loadDay_without_user|]. split; [exact Hst|].
  split.
  { intros j Hd Hs. apply (Hj j); [|exact Hd | exact Hs].
    intros He. rewrite He in Hne. discriminate. }
  split; [exact Hnone|]. split.
  { intros yesterday _ Hn. rewrite (Hnone Hn). split.
    - intros f e _ He Hs. split; [reflexivity|]. intros Hc.
      rewrite Hc in Hs. cbn in Hs. destruct e; [congruence | discriminate].
    - intros t p _ Hp Hs. split; [reflexivity|]. intros Hc.
      rewrite Hc in Hs. cbn in Hs. destruct p; [congruence | discriminate]. }
  intros userId row fd fe td te rest Hnet cloudData.
  pose proof (@local_step_getDayDataWithLinkedValues (JsDate.engine offsetMinutes)
                (keyOfDay z) w) as Hloc.
  rewrite Hlink in Hloc. cbn [snd] in Hloc. destruct Hloc as (Hn' & _).
  rewrite Hnet in Hn'.
  destruct (fetchDayFromSupabase_answered userId (keyOfDay z) row fd td fe te rest w' Hn')
    as (tl1 & Hf1 & Hq1).
  fold cloudData in Hf1.
  set (w2 := mkWorld (store w') (disk w') rest (now w') (trace w' ++ tl1)) in Hf1.
  destruct (fetchDayFromSupabase_queries userId (keyOfDay (z - 2)) w2)
    as (prev & w3 & tl2 & more & Hf2 & _ & Ht2 & Hq2 & Hmore).
  assert (Hload :
            @loadDay (JsDate.engine offsetMinutes) (Some userId) (keyOfDay z) w
            = (Ok (match prev with
                   | Some prevCloudData => linkCloud prevCloudData cloudData
                   | None => cloudData
                   end), w3)).
  { unfold loadDay. unfold mbind at 1, M_bind at 1. rewrite Hlink.
    unfold try_catch. unfold mbind at 1, M_bind at 1. rewrite Hf1.
    rewrite Hprev, Hne. cbn [negb].
    unfold mbind at 1, M_bind at 1. rewrite Hf2.
    destruct prev; reflexivity. }
  eexists _, w3, w2, prev, (tl1 ++ tl2)%list, more.
  split; [exact Hload|]. split; [exact Hf1|]. split; [exact Hf2|].
  split.
  { destruct prev as [prevCloudData|]; [|reflexivity].
    destruct (linkCloud_entries prevCloudData cloudData) as (Hk & HF & HT).
    split; [exact Hk|]. split.
    - intros f Hf. rewrite HF. now rewrite (bool_decide_eq_true_2 _ Hf).
    - intros t Ht. rewrite HT. now rewrite (bool_decide_eq_true_2 _ Ht). }
  split; [rewrite Ht2; cbn [trace w2]; now rewrite app_assoc|].
  split; [|exact Hmore].
  rewrite remote_queries_app, Hq1, Hq2. reflexivity.
Qed.

Lemma linking_skips_the_preceding_date_west_of_greenwich_witness :
  let cloudWorld :=
    mkWorld (store twoDaysWorld) []
      [Answers (DDay (mkDayRow "day-8" "2026-01-20")) None;
       Answers (DFeeders []) None; Answers (DTurbines []) None]
      (now twoDaysWorld) [] in
  firstKeyDay <= 20473 <= lastKeyDay /\ -1440 <= -300 < 0 /\
  keyOfDay 20473 = "2026-01-20" /\ keyOfDay (20473 - 1) = "2026-01-19" /\
  store twoDaysWorld !! storageKey "2026-01-19" = Some (stringify_day yesterdayDay) /\
  store twoDaysWorld !! storageKey "2026-01-20" = Some (stringify_day todayDay) /\
  feeders yesterdayDay !! "F2" ≫= end_ = Some "100" /\
  feeders todayDay !! "F2" ≫= start = Some "" /\
  turbines yesterdayDay !! "A" ≫= present = Some "1100" /\
  turbines todayDay !! "A" ≫= previous = Some "" /\
  (exists linked w',
     @getDayDataWithLinkedValues (JsDate.engine (-300)) "2026-01-20" twoDaysWorld
     = (Ok linked, w') /\
     @loadDay (JsDate.engine (-300)) None "2026-01-20" twoDaysWorld = (Ok linked, w') /\
     feeders linked !! "F2" = Some (mkFeeder (Some "") (Some "")) /\
     turbines linked !! "A" = Some (mkTurbine (Some "") (Some "") (Some "24"))) /\
  (exists data w'' tl more,
     @loadDay (JsDate.engine (-300)) (Some "user-1") "2026-01-20" cloudWorld
     = (Ok data, w'') /\
     remote_queries tl
     = SelectDailyId "user-1" "2026-01-20" :: SelectFeeders "day-8"
       :: SelectTurbines "day-8" :: SelectDailyId "user-1" "2026-01-18" :: more).
Proof.
  intros cloudWorld.
  assert (Hz : firstKeyDay <= 20473 <= lastKeyDay) by (vm_compute; split; discriminate).
  assert (Hk : keyOfDay 20473 = "2026-01-20") by (vm_compute; reflexivity).
  assert (Hk1 : keyOfDay (20473 - 1) = "2026-01-19") by (vm_compute; reflexivity).
  assert (Hk2 : keyOfDay (20473 - 2) = "2026-01-18") by (vm_compute; reflexivity).
  assert (Hy : store twoDaysWorld !! storageKey "2026-01-19"
               = Some (stringify_day yesterdayDay)) by (vm_compute; reflexivity).
  assert (Hn : store twoDaysWorld !! storageKey "2026-01-18" = None)
    by (vm_compute; reflexivity).
  split; [exact Hz|]. split; [lia|]. split; [exact Hk|]. split; [exact Hk1|].
  split; [exact Hy|]. split; [vm_compute; reflexivity|].
  split; [vm_compute; reflexivity|]. split; [vm_compute; reflexivity|].
  split; [vm_compute; reflexivity|]. split; [vm_compute; reflexivity|].
  split.
  - destruct (linking_skips_the_preceding_date_west_of_greenwich (-300) 20473
                twoDaysWorld Hz ltac:(lia))
      as (today & w1 & linked & w' & Hrun & Hlink & Hload & _ & _ & _ & Hyest & _).
    rewrite Hk in Hrun, Hlink, Hload. rewrite Hk1, Hk2 in Hyest.
    destruct (Hyest yesterdayDay Hy Hn) as [HF HT].
    assert (Ht : fst (getDayData "2026-01-20" twoDaysWorld) = Ok todayDay)
      by (vm_compute; reflexivity).
    rewrite Hrun in Ht. cbn [fst] in Ht. injection Ht as ->.
    exists linked, w'. split; [exact Hlink|]. split; [exact Hload|]. split.
    + rewrite (proj1 (HF "F2" "100" ltac:(vm_compute; reflexivity) ltac:(discriminate)
                        ltac:(vm_compute; reflexivity))).
      vm_compute. reflexivity.
    + rewrite (proj1 (HT "A" "1100" ltac:(vm_compute; reflexivity) ltac:(discriminate)
                        ltac:(vm_compute; reflexivity))).
      vm_compute. reflexivity.
  - destruct (linking_skips_the_preceding_date_west_of_greenwich (-300) 20473
                cloudWorld Hz ltac:(lia))
      as (_ & _ & _ & w' & _ & _ & _ & _ & _ & _ & _ & Hcloud).
    destruct (Hcloud "user-1" (mkDayRow "day-8" "2026-01-20") (DFeeders []) None
                (DTurbines []) None [] eq_refl)
      as (data & w'' & _ & _ & tl & more & Hload & _ & _ & _ & _ & Hq & _).
    rewrite Hk in Hload, Hq. rewrite Hk2 in Hq.
    exists data, w'', tl, more. split; [exact Hload | exact Hq].
Defined.

(** X18. For a date key with a four-digit year, [loadDay] always
    resolves and never writes to the store.  Without a user it hands out
    the locally linked record.  With a user it fetches the remote record
    of the date and hands out the locally linked record when there is
    none; otherwise it fetches the remote record of the day before in a
    zone at or east of Greenwich, and of the day before that in a zone
    west of Greenwich, and hands out the record of the date with, for
    each feeder and turbine of the fixed sets, the carry-forward rule
    applied from the record fetched second, or as it is when the second
    fetch gives none. *)
Theorem loadDay_prefers_cloud_record (offsetMinutes z : Z) (user : option string)
    (w : World) :
  firstKeyDay <= z <= lastKeyDay ->
  -1440 <= offsetMinutes < 1440 ->
  let prevDateKey := keyOfDay (if 0 <=? offsetMinutes then z - 1 else z - 2) in
  exists local w1 data w',
    @getDayDataWithLinkedValues (JsDate.engine offsetMinutes) (keyOfDay z) w
    = (Ok local, w1) /\
    @loadDay (JsDate.engine offsetMinutes) user (keyOfDay z) w = (Ok data, w') /\
    store w' = store w /\
    (user = None -> data = local /\ w' = w1) /\
    (forall userId, user = Some userId ->
       exists cloud w2,
         fetchDayFromSupabase userId (keyOfDay z) w1 = (Ok cloud, w2) /\
         match cloud with
         | None => data = local /\ w' = w2
         | Some cloudData =>
             exists prevCloud,
               fetchDayFromSupabase userId prevDateKey w2 = (Ok prevCloud, w') /\
               match prevCloud with
               | None => data = cloudData
               | Some prevCloudData =>
                   dateKey data = dateKey cloudData /\
                   (forall f,
                      feeders data !! f
                      = if bool_decide (f ∈ FEEDERS)
                        then linkedFeeder (feeders prevCloudData !! f ≫= end_)
                               (feeders cloudData !! f)
                        else feeders cloudData !! f) /\
                   (forall t,
                      turbines data !! t
                      = if bool_decide (t ∈ TURBINES)
                        then linkedTurbine (turbines prevCloudData !! t ≫= present)
                               (turbines cloudData !! t)
                        else turbines cloudData !! t)
               end
         end).
Proof.
  intros Hz Ho prevDateKey.
  assert (Hprev : @getPreviousDateKey (JsDate.engine offsetMinutes) (keyOfDay z)
                  = prevDateKey).
  { unfold prevDateKey. destruct (Z.leb_spec 0 offsetMinutes).
    - apply previous_key_east; [exact Hz | lia].
    - apply previous_key_west; [exact Hz | lia]. }
  assert (Hne : isEmpty prevDateKey = false) by apply keyOfDay_not_empty.
  destruct (@getDayDataWithLinkedValues_run (JsDate.engine offsetMinutes) (keyOfDay z) w)
    as (today & w0 & local & w1 & _ & Hlink & Hst & _).
  exists local, w1.
  destruct user as [userId|].
  - destruct (fetchDayFromSupabase_queries userId (keyOfDay z) w1)
      as (cloud & w2 & tl1 & more1 & Hf1 & Hst1 & _).
    unfold loadDay. unfold mbind at 1, M_bind at 1. rewrite Hlink.
    unfold try_catch. unfold mbind at 1, M_bind at 1. rewrite Hf1.
    destruct cloud as [cloudData|].
    + rewrite Hprev, Hne. cbn [negb].
      destruct (fetchDayFromSupabase_queries userId prevDateKey w2)
        as (prev & w3 & tl2 & more2 & Hf2 & Hst2 & _).
      unfold mbind at 1, M_bind at 1. rewrite Hf2.
      assert (Hst3 : store w3 = store w) by (now rewrite Hst2, Hst1).
      destruct prev as [prevCloudData|]; eexists _, w3;
        (split; [reflexivity|]); (split; [reflexivity|]); (split; [exact Hst3|]);
        (split; [discriminate|]); intros u [= <-]; exists (Some cloudData), w2;
        (split; [exact Hf1|]); eexists; (split; [exact Hf2|]).
      * apply linkCloud_entries.
      * reflexivity.
    + exists local, w2. split; [reflexivity|]. split; [reflexivity|].
      split; [now rewrite Hst1|].
      split; [discriminate|]. intros u [= <-]. exists None, w2.
      split; [exact Hf1 | split; reflexivity].
  - exists local, w1. unfold loadDay. unfold mbind at 1, M_bind at 1. rewrite Hlink.
    split; [reflexivity|]. split; [reflexivity|]. split; [exact Hst|].
    split; [tauto | discriminate].
Qed.

Lemma loadDay_prefers_cloud_record_witness :
  let w := mkWorld ∅ [] [Answers (DDay (mkDayRow "day-8" "2026-01-20")) None;
                         Answers (DFeeders [mkFeederRow "F2" (Some "") (Some "")]) None;
                         Answers (DTurbines []) None;
                         Answers (DDay (mkDayRow "day-7" "2026-01-19")) None;
                         Answers (DFeeders [mkFeederRow "F2" (Some "20") (Some "100")])
                           None;
                         Answers (DTurbines []) None]
             "2026-01-21T08:00:00.000Z" [] in
  firstKeyDay <= 20473 <= lastKeyDay /\ -1440 <= 180 < 1440 /\
  keyOfDay 20473 = "2026-01-20" /\
  exists data w',
    @loadDay (JsDate.engine 180) (Some "user-1") "2026-01-20" w = (Ok data, w') /\
    store w' = store w /\
    remote_queries (trace w')
    = [SelectDailyId "user-1" "2026-01-20"; SelectFeeders "day-8"; SelectTurbines "day-8";
       SelectDailyId "user-1" "2026-01-19"; SelectFeeders "day-7"; SelectTurbines "day-7"] /\
    feeders data !! "F2" = Some (mkFeeder (Some "100") (Some "")).
Proof.
  intros w.
  assert (Hz : firstKeyDay <= 20473 <= lastKeyDay) by (vm_compute; split; discriminate).
  assert (Hk : keyOfDay 20473 = "2026-01-20") by (vm_compute; reflexivity).
  split; [exact Hz|]. split; [lia|]. split; [exact Hk|].
  destruct (loadDay_prefers_cloud_record 180 20473 (Some "user-1") w Hz ltac:(lia))
    as (local & w1 & data & w' & _ & Hload & Hst & _).
  rewrite Hk in Hload.
  exists data, w'. split; [exact Hload|]. split; [exact Hst|].
  vm_compute in Hload. injection Hload as <- <-.
  split; vm_compute; reflexivity.
Defined.

(** X24. For a date key with a four-digit year, [getDayLetter]
    returns a letter; over consecutive days it runs through B, D, A, C,
    with B on 2026-01-18, so it repeats every four days and differs from
    one day to the next. *)
Theorem getDayLetter_cycles_every_four_days (z : Z) :
  firstKeyDay <= z <= lastKeyDay ->
  getDayLetter (keyOfDay z) = ["B"; "D"; "A"; "C"] !! Z.to_nat ((z - 20471) mod 4) /\
  is_Some (getDayLetter (keyOfDay z)) /\
  (z + 4 <= lastKeyDay -> getDayLetter (keyOfDay (z + 4)) = getDayLetter (keyOfDay z)) /\
  (z + 1 <= lastKeyDay -> getDayLetter (keyOfDay (z + 1)) ≠ getDayLetter (keyOfDay z)).
Proof.
  assert (Hl : forall z, firstKeyDay <= z <= lastKeyDay ->
             getDayLetter (keyOfDay z)
             = ["B"; "D"; "A"; "C"] !! Z.to_nat ((z - 20471) mod 4)).
  { clear z. intros z Hz. unfold getDayLetter. rewrite (parse_keyOfDay z Hz).
    change (JsDate.parse "2026-01-18") with (Some (20471 * JsDate.msPerDay)).
    cbn [fmap option_fmap option_map index_at].
    replace ((z * JsDate.msPerDay - 20471 * JsDate.msPerDay) / JsDate.msPerDay)
      with (z - 20471) by (unfold JsDate.msPerDay; Z.div_mod_to_equations; lia).
    replace (Z.rem (Z.rem (z - 20471) 4 + 4) 4) with ((z - 20471) mod 4)
      by (Z.to_euclidean_division_equations; lia).
    assert (Hm : 0 <= (z - 20471) mod 4 < 4) by (apply Z.mod_pos_bound; lia).
    destruct (Z.leb_spec 0 ((z - 20471) mod 4)); [reflexivity | lia]. }
  assert (Hc : forall k, 0 <= k < 4 ->
             k = 0 \/ k = 1 \/ k = 2 \/ k = 3) by (intros; lia).
  intros Hz. split; [now apply Hl|]. split; [|split].
  - rewrite (Hl z Hz).
    destruct (Hc ((z - 20471) mod 4)) as [->|[->|[->| ->]]]; cbn; eauto.
    apply Z.mod_pos_bound; lia.
  - intros H4. rewrite (Hl z Hz), (Hl (z + 4)) by lia.
    do 2 f_equal. Z.div_mod_to_equations; lia.
  - intros H1. rewrite (Hl z Hz), (Hl (z + 1)) by lia.
    assert (Hs : (z + 1 - 20471) mod 4 = ((z - 20471) mod 4 + 1) mod 4)
      by (Z.div_mod_to_equations; lia).
    rewrite Hs.
    destruct (Hc ((z - 20471) mod 4)) as [->|[->|[->| ->]]]; cbn; try discriminate.
    apply Z.mod_pos_bound; lia.
Qed.

Lemma getDayLetter_cycles_every_four_days_witness :
  firstKeyDay <= 20471 <= lastKeyDay /\
  keyOfDay 20471 = "2026-01-18" /\
  getDayLetter "2026-01-18" = Some "B" /\ getDayLetter "2026-01-19" = Some "D" /\
  getDayLetter "2026-01-20" = Some "A" /\ getDayLetter "2026-01-21" = Some "C" /\
  getDayLetter "2026-01-22" = Some "B".
Proof.
  assert (Hz : forall z, -354285 <= z <= 2932896 -> firstKeyDay <= z <= lastKeyDay).
  { intros z Hz. exact Hz. }
  assert (H0 : -354285 <= 20471 <= 2932896) by lia.
  assert (H1 : -354285 <= 20472 <= 2932896) by lia.
  assert (H2 : -354285 <= 20473 <= 2932896) by lia.
  assert (H3 : -354285 <= 20474 <= 2932896) by lia.
  assert (H4 : -354285 <= 20475 <= 2932896) by lia.
  split; [exact (Hz _ H0)|]. split; [vm_compute; reflexivity|].
  split; [exact (proj1 (getDayLetter_cycles_every_four_days 20471 (Hz _ H0)))|].
  split; [exact (proj1 (getDayLetter_cycles_every_four_days 20472 (Hz _ H1)))|].
  split; [exact (proj1 (getDayLetter_cycles_every_four_days 20473 (Hz _ H2)))|].
  split; [exact (proj1 (getDayLetter_cycles_every_four_days 20474 (Hz _ H3)))|].
  exact (proj1 (getDayLetter_cycles_every_four_days 20475 (Hz _ H4))).
Defined.

Lemma monthNames_defined (m : Z) :
  1 <= m <= 12 ->
  template_str (index_at monthNames (Some (m - 1)))
  = default "" (monthNames !! Z.to_nat (m - 1)).
Proof.
  intros Hm. unfold index_at.
  destruct (Z.leb_spec 0 (m - 1)); [|lia].
  assert (Hc : m = 1 \/ m = 2 \/ m = 3 \/ m = 4 \/ m = 5 \/ m = 6 \/
               m = 7 \/ m = 8 \/ m = 9 \/ m = 10 \/ m = 11 \/ m = 12) by lia.
  repeat (destruct Hc as [->|Hc]; [reflexivity|]). subst m. reflexivity.
Qed.

Lemma formatDateLabel_run (offsetMinutes z zl : Z) (language : string) :
  firstKeyDay <= z <= lastKeyDay ->
  JsDate.local_date offsetMinutes (z * JsDate.msPerDay) = JsDate.civil_from_days zl ->
  @formatDateLabel (JsDate.engine offsetMinutes) (keyOfDay z) language
  = labelOfDay language zl.
Proof.
  intros Hz Hl. unfold formatDateLabel, labelOfDay.
  change (@Date_new (JsDate.engine offsetMinutes)) with JsDate.parse.
  rewrite (parse_keyOfDay z Hz). cbv zeta.
  cbn [getMonth getDate JsDate.engine]. rewrite Hl.
  pose proof (civil_from_days_spec zl) as Hs.
  destruct (JsDate.civil_from_days zl) as [[y m] d]. destruct Hs as (Hm & _).
  replace (m - 1 + 1) with m by lia.
  now rewrite (monthNames_defined m Hm).
Qed.

(** X25. The chart label of a date key with a four-digit year is
    made of the month and the day of the key in a zone at or east of
    Greenwich, and of the month and day of the day before in a zone west
    of Greenwich; Arabic shows day/month, other languages the English
    short month name and the day. *)
Theorem formatDateLabel_reads_the_local_date (offsetMinutes z : Z) (language : string) :
  firstKeyDay <= z <= lastKeyDay ->
  (0 <= offsetMinutes < 1440 ->
   @formatDateLabel (JsDate.engine offsetMinutes) (keyOfDay z) language
   = labelOfDay language z) /\
  (-1440 <= offsetMinutes < 0 ->
   @formatDateLabel (JsDate.engine offsetMinutes) (keyOfDay z) language
   = labelOfDay language (z - 1)).
Proof.
  intros Hz. split; intros Ho; apply formatDateLabel_run; try assumption.
  - now apply local_date_east.
  - now apply local_date_west.
Qed.

Lemma formatDateLabel_reads_the_local_date_witness :
  firstKeyDay <= 20473 <= lastKeyDay /\
  keyOfDay 20473 = "2026-01-20" /\
  @formatDateLabel (JsDate.engine 180) "2026-01-20" "en" = "Jan 20" /\
  @formatDateLabel (JsDate.engine 180) "2026-01-20" "ar" = "20/1" /\
  @formatDateLabel (JsDate.engine (-300)) "2026-01-20" "en" = "Jan 19" /\
  @formatDateLabel (JsDate.engine 180) "someday" "en" = "someday".
Proof.
  assert (Hz : firstKeyDay <= 20473 <= lastKeyDay) by (vm_compute; split; discriminate).
  split; [exact Hz|]. split; [vm_compute; reflexivity|].
  pose proof (formatDateLabel_reads_the_local_date 180 20473 "en" Hz) as [He _].
  pose proof (formatDateLabel_reads_the_local_date 180 20473 "ar" Hz) as [Ha _].
  pose proof (formatDateLabel_reads_the_local_date (-300) 20473 "en" Hz) as [_ Hw].
  split; [apply He; lia|]. split; [apply Ha; lia|]. split; [apply Hw; lia|].
  vm_compute. reflexivity.
Defined.

(** X26. The month key of a date key with a four-digit year is its
    year and two-digit month; two such date keys have the same month key
    exactly when they lie in the same month of the same year. *)
Theorem monthKey_groups_by_calendar_month (z1 z2 : Z) :
  firstKeyDay <= z1 <= lastKeyDay -> firstKeyDay <= z2 <= lastKeyDay ->
  monthKey (keyOfDay z1)
  = String_of_int (fst (yearMonthOfDay z1)) ++ "-"
      ++ padStart2 (String_of_int (snd (yearMonthOfDay z1))) /\
  (monthKey (keyOfDay z1) = monthKey (keyOfDay z2) <->
   yearMonthOfDay z1 = yearMonthOfDay z2).
Proof.
  intros Hz1 Hz2. unfold yearMonthOfDay.
  pose proof (year_of_key_day z1 Hz1) as Hy1. pose proof (year_of_key_day z2 Hz2) as Hy2.
  pose proof (keyOfDay_chars z1 Hz1) as Hk1. pose proof (keyOfDay_chars z2 Hz2) as Hk2.
  pose proof (civil_from_days_spec z1) as Hs1. pose proof (civil_from_days_spec z2) as Hs2.
  destruct (JsDate.civil_from_days z1) as [[y1 m1] d1].
  destruct (JsDate.civil_from_days z2) as [[y2 m2] d2].
  cbn [fst snd] in *. destruct Hs1 as (Hm1 & _). destruct Hs2 as (Hm2 & _).
  rewrite Hk1, Hk2. unfold monthKey. cbn [String.substring].
  unfold String_of_int at 1. rewrite (pretty_four_digits y1 Hy1).
  rewrite (padStart2_two_digits m1) by lia.
  split; [reflexivity|]. split.
  - intros Heq.
    assert (Hy : JsDate.all_digits
                   (String (digit_char (y1 / 1000)) (String (digit_char (y1 / 100 mod 10))
                      (String (digit_char (y1 / 10 mod 10))
                         (String (digit_char (y1 mod 10)) ""))))
                 = JsDate.all_digits
                     (String (digit_char (y2 / 1000)) (String (digit_char (y2 / 100 mod 10))
                        (String (digit_char (y2 / 10 mod 10))
                           (String (digit_char (y2 mod 10)) ""))))).
    { injection Heq as -> -> -> -> _ _. reflexivity. }
    assert (Hm : JsDate.all_digits
                   (String (digit_char (m1 / 10)) (String (digit_char (m1 mod 10)) ""))
                 = JsDate.all_digits
                     (String (digit_char (m2 / 10)) (String (digit_char (m2 mod 10)) ""))).
    { injection Heq as _ _ _ _ -> ->. reflexivity. }
    rewrite !all_digits_four in Hy by (Z.div_mod_to_equations; lia).
    rewrite !all_digits_two in Hm by (Z.div_mod_to_equations; lia).
    injection Hy as Hy. injection Hm as Hm.
    f_equal; Z.div_mod_to_equations; lia.
  - intros [= -> ->]. reflexivity.
Qed.

Lemma monthKey_groups_by_calendar_month_witness :
  firstKeyDay <= 20473 <= lastKeyDay /\ firstKeyDay <= 20484 <= lastKeyDay /\
  keyOfDay 20473 = "2026-01-20" /\ keyOfDay 20484 = "2026-01-31" /\
  monthKey "2026-01-20" = "2026-01" /\ monthKey "2026-01-20" = monthKey "2026-01-31".
Proof.
  assert (H1 : firstKeyDay <= 20473 <= lastKeyDay) by (vm_compute; split; discriminate).
  assert (H2 : firstKeyDay <= 20484 <= lastKeyDay) by (vm_compute; split; discriminate).
  split; [exact H1|]. split; [exact H2|].
  split; [vm_compute; reflexivity|]. split; [vm_compute; reflexivity|].
  pose proof (monthKey_groups_by_calendar_month 20473 20484 H1 H2) as [Hk Hiff].
  split; [exact Hk|]. apply Hiff. vm_compute. reflexivity.
Defined.

Lemma hoursBuffers_closed (v key : string) :
  v ∈ hoursBuffers -> key ∈ concat HOURS_KEYS -> hoursKeyPress v key ∈ hoursBuffers.
Proof.
  intros Hv Hk.
  assert (H : forallb (fun v => forallb (fun key =>
                bool_decide (hoursKeyPress v key ∈ hoursBuffers))
                (concat HOURS_KEYS)) hoursBuffers = true) by (vm_compute; reflexivity).
  rewrite forallb_forall in H. apply list_elem_of_In in Hv.
  specialize (H v Hv). rewrite forallb_forall in H. apply list_elem_of_In in Hk.
  specialize (H key Hk). now apply bool_decide_eq_true in H.
Qed.

Lemma hoursBuffers_ok (v : string) : v ∈ hoursBuffers -> hours_buffer_ok v = true.
Proof.
  intros Hv.
  assert (H : forallb hours_buffer_ok hoursBuffers = true) by (vm_compute; reflexivity).
  rewrite forallb_forall in H. apply H. now apply list_elem_of_In.
Qed.

(** X27. Whatever keys of the hours keypad are pressed, starting
    from the empty buffer it opens with, the buffer holds at most two
    characters; empty, it is confirmed as 24; otherwise it reads as a
    number from 0 to 24 and is confirmed as that number, or as 1 for
    0. *)
Theorem hours_keypad_stays_within_a_day (keys : list string) :
  from_keys keys ->
  let tempValue := foldl hoursKeyPress "" keys in
  (String.length tempValue <= 2)%nat /\
  (tempValue = "" -> hoursDone tempValue = "24") /\
  (tempValue ≠ "" ->
   exists n, parseInt10 (Some tempValue) = Some n /\ 0 <= n <= 24 /\
             hoursDone tempValue = String_of_int (Z.max 1 n)).
Proof.
  intros Hkeys. cbv zeta.
  assert (Hin : foldl hoursKeyPress "" keys ∈ hoursBuffers).
  { assert (H0 : "" ∈ hoursBuffers) by (left).
    revert H0. generalize "". induction Hkeys as [|key keys Hk _ IH]; intros v Hv.
    - exact Hv.
    - cbn [foldl]. apply IH. now apply hoursBuffers_closed. }
  pose proof (hoursBuffers_ok _ Hin) as Hok. unfold hours_buffer_ok in Hok.
  set (v := foldl hoursKeyPress "" keys) in *.
  apply andb_true_iff in Hok as [Hlen Hok]. apply Nat.leb_le in Hlen.
  split; [exact Hlen|].
  destruct (parseInt10 (Some v)) as [n|] eqn:E.
  - apply andb_true_iff in Hok as [Hok Hdone]. apply andb_true_iff in Hok as [H0 H24].
    apply String.eqb_eq in Hdone. split.
    + intros Hv. rewrite Hv in E. discriminate.
    + intros _. exists n. split; [reflexivity|]. split; [lia | exact Hdone].
  - apply andb_true_iff in Hok as [Hv Hdone].
    apply String.eqb_eq in Hv. apply String.eqb_eq in Hdone. split.
    + intros _. exact Hdone.
    + intros Hne. contradiction.
Qed.

Lemma hours_keypad_stays_within_a_day_witness :
  from_keys ["2"; "9"; backspace; "0"] /\
  foldl hoursKeyPress "" ["2"; "9"; backspace; "0"] = "20" /\
  hoursDone "20" = "20" /\
  foldl hoursKeyPress "" ["0"; "0"; "5"] = "00" /\ hoursDone "00" = "1".
Proof.
  assert (H : from_keys ["2"; "9"; backspace; "0"]).
  { repeat constructor; apply bool_decide_eq_true_1; vm_compute; reflexivity. }
  split; [exact H|].
  pose proof (hours_keypad_stays_within_a_day _ H) as (_ & _ & Hd).
  split; [vm_compute; reflexivity|]. split.
  - destruct Hd as (n & Hp & _ & Hdone); [vm_compute; discriminate|].
    change (foldl hoursKeyPress "" ["2"; "9"; backspace; "0"]) with "20" in *.
    vm_compute in Hp. injection Hp as <-. exact Hdone.
  - split; vm_compute; reflexivity.
Defined.

Lemma digits_only_plain (s : string) : digits_only s = true -> plain_decimal s = true.
Proof.
  induction s as [|c s IH]; [reflexivity|]. cbn [digits_only plain_decimal].
  intros H. apply andb_true_iff in H as [Hc Hs].
  destruct (Ascii.eqb c "."); [exact Hs|]. now rewrite Hc, IH.
Qed.

Lemma digits_only_strip (s : string) : digits_only s = true -> stripCommas s = s.
Proof.
  induction s as [|c s IH]; [reflexivity|]. cbn [digits_only stripCommas].
  intros H. apply andb_true_iff in H as [Hc Hs].
  destruct (Ascii.eqb_spec c ","); [subst; discriminate|]. now rewrite IH.
Qed.

Lemma plain_decimal_strip (s : string) : plain_decimal s = true -> stripCommas s = s.
Proof.
  induction s as [|c s IH]; [reflexivity|]. cbn [plain_decimal stripCommas].
  destruct (Ascii.eqb_spec c "."); [subst; cbn; intros H; now rewrite digits_only_strip|].
  intros H. apply andb_true_iff in H as [Hc Hs].
  destruct (Ascii.eqb_spec c ","); [subst; discriminate|]. now rewrite IH.
Qed.

Lemma stripCommas_idempotent (s : string) : stripCommas (stripCommas s) = stripCommas s.
Proof.
  induction s as [|c s IH]; [reflexivity|]. cbn [stripCommas].
  destruct (Ascii.eqb c ",") eqn:E; [exact IH|]. cbn [stripCommas].
  now rewrite E, IH.
Qed.

Lemma stripCommas_no_comma (s : string) : includes_str (stripCommas s) "," = false.
Proof.
  induction s as [|c s IH]; [reflexivity|]. cbn [stripCommas].
  destruct (Ascii.eqb c ",") eqn:E; [exact IH|].
  cbn [includes_str String.prefix]. rewrite IH.
  destruct (ascii_dec "," c) as [<-|Hne]; [discriminate E|].
  destruct (stripCommas s); reflexivity.
Qed.

Lemma digits_only_substring (s : string) (n : nat) :
  digits_only s = true -> digits_only (String.substring 0 n s) = true.
Proof.
  revert n. induction s as [|c s IH]; intros [|n] H; try reflexivity.
  cbn [digits_only String.substring] in *.
  apply andb_true_iff in H as [Hc Hs]. now rewrite Hc, IH.
Qed.

Lemma plain_decimal_substring (s : string) (n : nat) :
  plain_decimal s = true -> plain_decimal (String.substring 0 n s) = true.
Proof.
  revert n. induction s as [|c s IH]; intros [|n] H; try reflexivity.
  cbn [plain_decimal String.substring] in *.
  destruct (Ascii.eqb c "."); [now apply digits_only_substring|].
  apply andb_true_iff in H as [Hc Hs]. now rewrite Hc, IH.
Qed.

Lemma digits_only_app (a b : string) :
  digits_only a = true -> digits_only b = true -> digits_only (a ++ b) = true.
Proof.
  intros Ha Hb. induction a as [|c a IH]; [exact Hb|].
  cbn [digits_only] in Ha. apply andb_true_iff in Ha as [Hc Ha].
  change (String c a ++ b) with (String c (a ++ b)). cbn [digits_only].
  now rewrite Hc, IH.
Qed.

Lemma plain_decimal_app_digits (a b : string) :
  plain_decimal a = true -> digits_only b = true -> plain_decimal (a ++ b) = true.
Proof.
  intros Ha Hb. induction a as [|c a IH]; [now apply digits_only_plain|].
  change (String c a ++ b) with (String c (a ++ b)). cbn [plain_decimal] in *.
  destruct (Ascii.eqb c "."); [now apply digits_only_app|].
  apply andb_true_iff in Ha as [Hc Ha]. now rewrite Hc, IH.
Qed.

Lemma plain_without_point (s : string) :
  plain_decimal s = true -> includes_str s "." = false -> digits_only s = true.
Proof.
  induction s as [|c s IH]; [reflexivity|].
  cbn [plain_decimal includes_str String.prefix digits_only].
  destruct (Ascii.eqb_spec c ".") as [->|Hne].
  - cbn. destruct s; discriminate.
  - intros H Hi. apply andb_true_iff in H as [Hc Hs]. rewrite Hc. cbn [andb].
    apply IH; [exact Hs|]. apply orb_false_iff in Hi. tauto.
Qed.

Lemma digits_only_app_point (s : string) :
  digits_only s = true -> plain_decimal (s ++ ".") = true.
Proof.
  induction s as [|c s IH]; [reflexivity|]. cbn [digits_only].
  intros H. apply andb_true_iff in H as [Hc Hs].
  change (String c s ++ ".") with (String c (s ++ ".")). cbn [plain_decimal].
  destruct (Ascii.eqb_spec c "."); [subst; discriminate|]. now rewrite Hc, IH.
Qed.

Lemma numericFieldKeyPress_digits (value key : string) :
  String.eqb key backspace = false -> String.eqb key "." = false ->
  digits_only key = true -> plain_decimal value = true ->
  plain_decimal (numericFieldKeyPress value key) = true.
Proof.
  intros Hb Hp Hd Hv. unfold numericFieldKeyPress, numericKeyPress.
  rewrite !(plain_decimal_strip value Hv), Hb, Hp.
  pose proof (plain_decimal_app_digits value key Hv Hd) as H.
  now rewrite plain_decimal_strip.
Qed.

Lemma numericFieldKeyPress_plain (value key : string) :
  plain_decimal value = true -> key ∈ concat NUMERIC_KEYS ->
  plain_decimal (numericFieldKeyPress value key) = true.
Proof.
  intros Hv Hk. cbn [concat NUMERIC_KEYS app] in Hk.
  repeat (apply elem_of_cons in Hk as [->|Hk];
          [try (apply numericFieldKeyPress_digits;
                [vm_compute; reflexivity | reflexivity | reflexivity | exact Hv])|]);
    try now apply elem_of_nil in Hk.
  - unfold numericFieldKeyPress, numericKeyPress.
    rewrite !(plain_decimal_strip value Hv).
    change (String.eqb "." backspace) with false.
    change (String.eqb "." ".") with true. cbv iota.
    destruct (includes_str value ".") eqn:E; [exact Hv|].
    pose proof (digits_only_app_point value (plain_without_point value Hv E)) as Hp.
    now rewrite plain_decimal_strip.
  - unfold numericFieldKeyPress, numericKeyPress.
    rewrite !(plain_decimal_strip value Hv).
    change (String.eqb backspace backspace) with true. cbv iota.
    pose proof (plain_decimal_substring value (String.length value - 1) Hv) as Hp.
    unfold slice_but_last. now rewrite plain_decimal_strip.
Qed.

(** X28. A reading made of digits with at most one decimal point
    stays so under every sequence of keys of the numeric keypad, and
    never holds a comma. *)
Theorem numeric_keypad_keeps_a_decimal_numeral (value : string) (keys : list string) :
  plain_decimal value = true ->
  Forall (fun key => key ∈ concat NUMERIC_KEYS) keys ->
  let value' := foldl numericFieldKeyPress value keys in
  plain_decimal value' = true /\
  stripCommas value' = value' /\
  includes_str value' "," = false.
Proof.
  intros Hv Hkeys. cbv zeta.
  assert (Hp : plain_decimal (foldl numericFieldKeyPress value keys) = true).
  { revert value Hv. induction Hkeys as [|key keys Hk _ IH]; intros value Hv.
    - exact Hv.
    - cbn [foldl]. apply IH. now apply numericFieldKeyPress_plain. }
  split; [exact Hp|].
  pose proof (plain_decimal_strip _ Hp) as Hs. split; [exact Hs|].
  rewrite <- Hs. apply stripCommas_no_comma.
Qed.

Lemma numeric_keypad_keeps_a_decimal_numeral_witness :
  plain_decimal "12" = true /\
  Forall (fun key => key ∈ concat NUMERIC_KEYS) ["."; "5"; "."; backspace; "7"] /\
  foldl numericFieldKeyPress "12" ["."; "5"; "."; backspace; "7"] = "12.7" /\
  plain_decimal "12.7" = true.
Proof.
  assert (Hk : Forall (fun key => key ∈ concat NUMERIC_KEYS)
                 ["."; "5"; "."; backspace; "7"]).
  { repeat constructor; apply bool_decide_eq_true_1; vm_compute; reflexivity. }
  split; [reflexivity|]. split; [exact Hk|]. split; [vm_compute; reflexivity|].
  exact (proj1 (numeric_keypad_keeps_a_decimal_numeral "12" _ eq_refl Hk)).
Defined.
